(** * Recurrence and reminder engine of the todo application

    A shallow embedding of the server-side date logic of the todo
    application: [lib/recurrence.ts] (next due date of a recurring todo),
    [lib/timezone.ts], the store operations of [lib/db.ts] that create and
    copy todos, and the route handlers [GET /api/notifications/check],
    [POST /api/todos] and [PUT /api/todos/[id]]; then the other
    operations of [lib/db.ts] on todos, subtasks and tag associations, the
    progress of [lib/constants.ts], the text of a reminder, and the
    handlers of the routes of todos, subtasks and tags.

    Conventions of the embedding.
    - A JavaScript string is a [string]; whitespace is the ASCII white
      space (TAB, LF, VT, FF, CR, SP).
    - A JavaScript number that holds an integer quantity (an id, a count of
      minutes, a time value in milliseconds) is a [Z].  The two places where
      the code divides ([/ (60 * 1000)]) are computed in [Q]; the
      percentage of the progress is computed in binary64.
    - A [Date] object is its time value, a [Z] of milliseconds since the
      epoch; [Invalid Date] is [None] of [option Z].  The local time zone
      of the process is a fixed offset [LocalTZA] (milliseconds east of
      UTC), a parameter of everything that reads local fields; the zone
      [Asia/Singapore] is the fixed offset +08:00.
    - A function that can throw returns a [Completion]; the statements
      against the database thread the store and can throw as well.
    - The functions of [date-fns], [date-fns-tz] and of [Date] that the
      application calls are written out after the libraries' sources and
      the ECMAScript definitions. *)

From Stdlib Require Import ZArith List String Ascii Bool Lia.
From Stdlib Require Import QArith Qround.
From Stdlib Require Import Numbers.DecimalString.
From Stdlib Require Import Floats.SpecFloat.
From Stdlib Require Import Sorting.Permutation Sorting.Sorted.
Import ListNotations.

Local Open Scope string_scope.
Local Open Scope Z_scope.

(* ===================================================================== *)
(** ** Completion records: normal return or a thrown error *)
(* ===================================================================== *)

Inductive JsError : Type :=
| RangeError (message : string)
| Error (message : string).

Inductive Completion (A : Type) : Type :=
| Return (v : A)
| Throw (e : JsError).

Arguments Return {A} v.
Arguments Throw {A} e.

Definition bindC {A B : Type} (c : Completion A) (k : A -> Completion B)
  : Completion B :=
  match c with
  | Return v => k v
  | Throw e => Throw e
  end.

Notation "'let!' x ':=' c 'in' k" := (bindC c (fun x => k))
  (at level 10, x name, c at level 100, k at level 200).

Definition returns {A : Type} (c : Completion A) : Prop :=
  exists v, c = Return v.

Definition throws {A : Type} (c : Completion A) : Prop :=
  exists e, c = Throw e.

(* ===================================================================== *)
(** ** JavaScript strings *)
(* ===================================================================== *)

Module JsString.

(** White space of [String.prototype.trim], ASCII part. *)
Definition isWhiteSpace (c : ascii) : bool :=
  let n := nat_of_ascii c in
  ((9 <=? n) && (n <=? 13))%nat || (n =? 32)%nat.

Fixpoint trimStart (s : string) : string :=
  match s with
  | EmptyString => EmptyString
  | String c r => if isWhiteSpace c then trimStart r else s
  end.

Fixpoint trimEnd (s : string) : string :=
  match s with
  | EmptyString => EmptyString
  | String c r =>
      match trimEnd r with
      | EmptyString => if isWhiteSpace c then EmptyString else String c EmptyString
      | r' => String c r'
      end
  end.

(** [s.trim()] *)
Definition trim (s : string) : string := trimStart (trimEnd s).

(** [s.length] *)
Definition length (s : string) : Z := Z.of_nat (String.length s).

(** Truthiness of a string: the empty string is falsy. *)
Definition truthy (s : string) : bool := negb (s =? "")%string.

(** [n.toString()] for a non-negative integer. *)
Definition toString (n : Z) : string :=
  NilZero.string_of_uint (N.to_uint (Z.to_N n)).

Fixpoint repeat0 (k : nat) : string :=
  match k with
  | O => EmptyString
  | S k' => String "0" (repeat0 k')
  end.

(** [s.padStart(targetLength, "0")] *)
Definition padStart0 (s : string) (targetLength : nat) : string :=
  repeat0 (targetLength - String.length s) ++ s.

End JsString.

(** Truthiness of optional values: [orNull v] is what [v || null]
    evaluates to, the value itself when it is truthy and [null] when it is
    [null], [undefined], the empty string or the number 0.  A test
    [if (v)] succeeds exactly when [orNull v] is a [Some]. *)
Module JsValue.

Definition orNullString (v : option string) : option string :=
  match v with
  | Some s => if JsString.truthy s then Some s else None
  | None => None
  end.

Definition orNullNumber (v : option Z) : option Z :=
  match v with
  | Some n => if n =? 0 then None else Some n
  | None => None
  end.

End JsValue.

(* ===================================================================== *)
(** ** The proleptic Gregorian calendar *)
(* ===================================================================== *)

(** Day numbers count days since 1970-01-01 (ECMAScript's [Day(t)]).  The
    conversions below are the closed forms of ECMAScript's [YearFromTime],
    [MonthFromTime], [DateFromTime] and [MakeDay], computed era by era (an
    era is a 400-year cycle of 146097 days starting on March 1). *)
Module Calendar.

Definition isLeapYear (y : Z) : bool :=
  ((y mod 4 =? 0) && negb (y mod 100 =? 0)) || (y mod 400 =? 0).

(** Days of month [m] (1..12) of year [y]. *)
Definition daysInMonth (y m : Z) : Z :=
  if m =? 2 then (if isLeapYear y then 29 else 28)
  else if (m =? 4) || (m =? 6) || (m =? 9) || (m =? 11) then 30
  else 31.

(** Within an era: the year of the era of a day of the era, and the first
    day of a year of the era. *)
Definition yearOfEra (doe : Z) : Z :=
  (doe - doe / 1460 + doe / 36524 - doe / 146096) / 365.

Definition startOfYear (yoe : Z) : Z := 365 * yoe + yoe / 4 - yoe / 100.

(** Within a year that starts on March 1: month (1..12) and day of month
    of a day of the year, and back. *)
Definition monthOfDoy (doy : Z) : Z :=
  let mp := (5 * doy + 2) / 153 in
  if mp <? 10 then mp + 3 else mp - 9.

Definition dayOfDoy (doy : Z) : Z :=
  let mp := (5 * doy + 2) / 153 in
  doy - (153 * mp + 2) / 5 + 1.

Definition doyOf (m d : Z) : Z :=
  (153 * (if 2 <? m then m - 3 else m + 9) + 2) / 5 + d - 1.

(** Day number of the civil date [y]-[m]-[d] ([m] in 1..12; any [d]). *)
Definition days_from_civil (y m d : Z) : Z :=
  let y' := if m <=? 2 then y - 1 else y in
  let era := y' / 400 in
  let yoe := y' mod 400 in
  let doe := startOfYear yoe + doyOf m d in
  era * 146097 + doe - 719468.

(** Civil date (year, month 1..12, day) of a day number. *)
Definition civil_from_days (z : Z) : Z * Z * Z :=
  let z' := z + 719468 in
  let era := z' / 146097 in
  let doe := z' mod 146097 in
  let yoe := yearOfEra doe in
  let doy := doe - startOfYear yoe in
  let m := monthOfDoy doy in
  let d := dayOfDoy doy in
  let y := yoe + era * 400 in
  ((if m <=? 2 then y + 1 else y), m, d).

Definition validCivil (y m d : Z) : Prop :=
  1 <= m <= 12 /\ 1 <= d <= daysInMonth y m.

End Calendar.

(* ===================================================================== *)
(** ** ECMAScript [Date] objects *)
(* ===================================================================== *)

Module JsDate.

Definition msPerSecond : Z := 1000.
Definition msPerMinute : Z := 60000.
Definition msPerHour : Z := 3600000.
Definition msPerDay : Z := 86400000.

(** [Day(t)] and [TimeWithinDay(t)] *)
Definition Day (t : Z) : Z := t / msPerDay.
Definition TimeWithinDay (t : Z) : Z := t mod msPerDay.

Definition YearFromTime (t : Z) : Z :=
  let '(y, _, _) := Calendar.civil_from_days (Day t) in y.

(** [MonthFromTime(t)], 0 for January. *)
Definition MonthFromTime (t : Z) : Z :=
  let '(_, m, _) := Calendar.civil_from_days (Day t) in m - 1.

Definition DateFromTime (t : Z) : Z :=
  let '(_, _, d) := Calendar.civil_from_days (Day t) in d.

Definition HourFromTime (t : Z) : Z := (t / msPerHour) mod 24.
Definition MinFromTime (t : Z) : Z := (t / msPerMinute) mod 60.
Definition SecFromTime (t : Z) : Z := (t / msPerSecond) mod 60.
Definition msFromTime (t : Z) : Z := t mod msPerSecond.

(** [MakeTime(hour, min, sec, ms)] *)
Definition MakeTime (hour min sec ms : Z) : Z :=
  hour * msPerHour + min * msPerMinute + sec * msPerSecond + ms.

(** [MakeDay(year, month, date)] with [month] counted from 0; a month
    outside 0..11 carries into the year, a date outside the month carries
    into the neighbouring months. *)
Definition MakeDay (year month date : Z) : Z :=
  let ym := year + month / 12 in
  let mn := month mod 12 in
  Calendar.days_from_civil ym (mn + 1) 1 + date - 1.

(** [MakeDate(day, time)] *)
Definition MakeDate (day time : Z) : Z := day * msPerDay + time.

Section LocalZone.

(** Offset of the process's local time zone, in milliseconds east of UTC. *)
Variable LocalTZA : Z.

Definition LocalTime (t : Z) : Z := t + LocalTZA.
Definition UTC (t : Z) : Z := t - LocalTZA.

(** Getters of [Date.prototype], on the time value [tv] of a valid date. *)
Definition getTime (tv : Z) : Z := tv.
Definition getFullYear (tv : Z) : Z := YearFromTime (LocalTime tv).
Definition getMonth (tv : Z) : Z := MonthFromTime (LocalTime tv).
Definition getDate (tv : Z) : Z := DateFromTime (LocalTime tv).
Definition getHours (tv : Z) : Z := HourFromTime (LocalTime tv).
Definition getMinutes (tv : Z) : Z := MinFromTime (LocalTime tv).
Definition getSeconds (tv : Z) : Z := SecFromTime (LocalTime tv).

Definition getUTCFullYear (tv : Z) : Z := YearFromTime tv.
Definition getUTCMonth (tv : Z) : Z := MonthFromTime tv.
Definition getUTCDate (tv : Z) : Z := DateFromTime tv.
Definition getUTCHours (tv : Z) : Z := HourFromTime tv.
Definition getUTCMinutes (tv : Z) : Z := MinFromTime tv.
Definition getUTCSeconds (tv : Z) : Z := SecFromTime tv.
Definition getUTCMilliseconds (tv : Z) : Z := msFromTime tv.

(** Setters of [Date.prototype]; each returns the new time value. *)
Definition setDate (tv dt : Z) : Z :=
  let t := LocalTime tv in
  UTC (MakeDate (MakeDay (YearFromTime t) (MonthFromTime t) dt) (TimeWithinDay t)).

Definition setMonth (tv month dt : Z) : Z :=
  let t := LocalTime tv in
  UTC (MakeDate (MakeDay (YearFromTime t) month dt) (TimeWithinDay t)).

Definition setFullYear (tv year month dt : Z) : Z :=
  let t := LocalTime tv in
  UTC (MakeDate (MakeDay year month dt) (TimeWithinDay t)).

Definition setHours (tv hour min sec ms : Z) : Z :=
  let t := LocalTime tv in
  UTC (MakeDate (Day t) (MakeTime hour min sec ms)).

(** *** [new Date(string)]

    The date-time strings of the application have two shapes:
    [YYYY-MM-DDTHH:mm] with optional [:ss] (the value of a
    [datetime-local] input) and [YYYY-MM-DD HH:mm:ss] (the output of
    [format]).  Neither carries a zone, so both are read as local time.
    A day of month up to 31 is accepted for every month and carries over;
    hour 24 is accepted only as [24:00:00].  Any other string is an
    [Invalid Date]. *)

Definition digit (c : ascii) : option Z :=
  let n := nat_of_ascii c in
  if ((48 <=? n) && (n <=? 57))%nat then Some (Z.of_nat n - 48) else None.

Definition num2 (a b : ascii) : option Z :=
  match digit a, digit b with
  | Some x, Some y => Some (10 * x + y)
  | _, _ => None
  end.

Definition num4 (a b c d : ascii) : option Z :=
  match num2 a b, num2 c d with
  | Some x, Some y => Some (100 * x + y)
  | _, _ => None
  end.

Definition isDateTimeSeparator (c : ascii) : bool :=
  (c =? "T")%char || (c =? " ")%char.

Definition validFields (mo d h mi s : Z) : bool :=
  (1 <=? mo) && (mo <=? 12) && (1 <=? d) && (d <=? 31) &&
  (mi <=? 59) && (s <=? 59) &&
  ((h <=? 23) || ((h =? 24) && (mi =? 0) && (s =? 0))).

Definition fromFields (y mo d h mi s : option Z) : option Z :=
  match y, mo, d, h, mi, s with
  | Some y, Some mo, Some d, Some h, Some mi, Some s =>
      if validFields mo d h mi s
      then Some (UTC (MakeDate (MakeDay y (mo - 1) d) (MakeTime h mi s 0)))
      else None
  | _, _, _, _, _, _ => None
  end.

Definition parse (str : string) : option Z :=
  match list_ascii_of_string str with
  | [y1; y2; y3; y4; c1; m1; m2; c2; d1; d2; sep; h1; h2; c3; n1; n2]%list =>
      if (c1 =? "-")%char && (c2 =? "-")%char && isDateTimeSeparator sep &&
         (c3 =? ":")%char
      then fromFields (num4 y1 y2 y3 y4) (num2 m1 m2) (num2 d1 d2)
                      (num2 h1 h2) (num2 n1 n2) (Some 0)
      else None
  | [y1; y2; y3; y4; c1; m1; m2; c2; d1; d2; sep; h1; h2; c3; n1; n2;
     c4; s1; s2]%list =>
      if (c1 =? "-")%char && (c2 =? "-")%char && isDateTimeSeparator sep &&
         (c3 =? ":")%char && (c4 =? ":")%char
      then fromFields (num4 y1 y2 y3 y4) (num2 m1 m2) (num2 d1 d2)
                      (num2 h1 h2) (num2 n1 n2) (num2 s1 s2)
      else None
  | _ => None
  end.

End LocalZone.

End JsDate.

(* ===================================================================== *)
(** ** The [date-fns] and [date-fns-tz] functions the application calls *)
(* ===================================================================== *)

Module DateFns.

Section LocalZone.

Variable LocalTZA : Z.

(** [addDays(date, amount)] *)
Definition addDays (date amount : Z) : Z :=
  if amount =? 0 then date
  else JsDate.setDate LocalTZA date (JsDate.getDate LocalTZA date + amount).

(** [addWeeks(date, amount)] *)
Definition addWeeks (date amount : Z) : Z := addDays date (amount * 7).

(** [addMonths(date, amount)]: the last day of the desired month is
    computed first ([setMonth(month + amount + 1, 0)]); a day of month
    that does not exist there is replaced by that last day. *)
Definition addMonths (date amount : Z) : Z :=
  if amount =? 0 then date
  else
    let dayOfMonth := JsDate.getDate LocalTZA date in
    let endOfDesiredMonth :=
      JsDate.setMonth LocalTZA date (JsDate.getMonth LocalTZA date + amount + 1) 0 in
    let daysInMonth := JsDate.getDate LocalTZA endOfDesiredMonth in
    if daysInMonth <=? dayOfMonth then endOfDesiredMonth
    else JsDate.setFullYear LocalTZA date
           (JsDate.getFullYear LocalTZA endOfDesiredMonth)
           (JsDate.getMonth LocalTZA endOfDesiredMonth)
           dayOfMonth.

(** [addYears(date, amount)] *)
Definition addYears (date amount : Z) : Z := addMonths date (amount * 12).

(** [addLeadingZeros(number, targetLength)] *)
Definition addLeadingZeros (number : Z) (targetLength : nat) : string :=
  ((if (number <? 0)%Z then "-" else "") ++
   JsString.padStart0 (JsString.toString (Z.abs number)) targetLength)%string.

(** The token [yyyy]: years up to 0 are printed as years of the era
    before ([1 - year]). *)
Definition formatYear (signedYear : Z) : string :=
  addLeadingZeros (if 0 <? signedYear then signedYear else 1 - signedYear) 4%nat.

(** [format(date, 'yyyy-MM-dd HH:mm:ss', { timeZone })] on a valid date.
    The pattern has no zone token, so the [timeZone] option has no effect:
    the local fields of [date] are printed. *)
Definition format_valid (date : Z) : string :=
  (formatYear (JsDate.getFullYear LocalTZA date) ++ "-" ++
   addLeadingZeros (JsDate.getMonth LocalTZA date + 1)%Z 2 ++ "-" ++
   addLeadingZeros (JsDate.getDate LocalTZA date) 2 ++ " " ++
   addLeadingZeros (JsDate.getHours LocalTZA date) 2 ++ ":" ++
   addLeadingZeros (JsDate.getMinutes LocalTZA date) 2 ++ ":" ++
   addLeadingZeros (JsDate.getSeconds LocalTZA date) 2)%string.

Definition format (date : option Z) : Completion string :=
  match date with
  | Some tv => Return (format_valid tv)
  | None => Throw (RangeError "Invalid time value")
  end.

(** Offset of [Asia/Singapore], in milliseconds east of UTC (the zone has
    been at +08:00 without daylight saving since 1982). *)
Definition SINGAPORE_OFFSET : Z := 8 * JsDate.msPerHour.

(** [toZonedTime(date, 'Asia/Singapore')] on a valid date: a new [Date]
    whose local fields are the fields of [date] on the wall clock of
    Singapore.  The library shifts the time value by the zone offset and
    copies the UTC fields of the result into the local fields of a fresh
    [Date(0)] with [setFullYear] and [setHours]. *)
Definition toZonedTime_valid (date : Z) : Z :=
  let d := JsDate.getTime date + SINGAPORE_OFFSET in
  let resultDate := 0 in
  let resultDate :=
    JsDate.setFullYear LocalTZA resultDate
      (JsDate.getUTCFullYear d) (JsDate.getUTCMonth d) (JsDate.getUTCDate d) in
  JsDate.setHours LocalTZA resultDate
    (JsDate.getUTCHours d) (JsDate.getUTCMinutes d) (JsDate.getUTCSeconds d)
    (JsDate.getUTCMilliseconds d).

(** On an [Invalid Date] the offset lookup ([Intl.DateTimeFormat]) throws. *)
Definition toZonedTime (date : option Z) : Completion Z :=
  match date with
  | Some tv => Return (toZonedTime_valid tv)
  | None => Throw (RangeError "Invalid time value")
  end.

End LocalZone.

End DateFns.

(* ===================================================================== *)
(** ** [lib/timezone.ts] *)
(* ===================================================================== *)

Module Timezone.

Section LocalZone.

Variable LocalTZA : Z.

(** [getSingaporeNow()]; [clock] is the time value of [new Date()]. *)
Definition getSingaporeNow (clock : Z) : Z :=
  DateFns.toZonedTime_valid LocalTZA clock.

(** [formatSingaporeDate(date)] with the default pattern, on a [Date]. *)
Definition formatSingaporeDate (date : Z) : string :=
  DateFns.format_valid LocalTZA (DateFns.toZonedTime_valid LocalTZA date).

(** [parseSingaporeDate(dateStr)] *)
Definition parseSingaporeDate (dateStr : string) : Completion Z :=
  DateFns.toZonedTime LocalTZA (JsDate.parse LocalTZA dateStr).

(** [isPastDate(date)] on a string. *)
Definition isPastDate (clock : Z) (date : string) : Completion bool :=
  let! d := parseSingaporeDate date in
  Return (d <? getSingaporeNow clock).

End LocalZone.

End Timezone.

(* ===================================================================== *)
(** ** [lib/recurrence.ts] *)
(* ===================================================================== *)

Module Recurrence.

(** The value a template literal prints for a pattern: [None] is [null]. *)
Definition showPattern (pattern : option string) : string :=
  match pattern with
  | Some p => p
  | None => "null"
  end.

(** [case name:] of [switch (pattern)], a strict equality test. *)
Definition caseIs (pattern : option string) (name : string) : bool :=
  match pattern with
  | Some p => (p =? name)%string
  | None => false
  end.

Section LocalZone.

Variable LocalTZA : Z.

(** [calculateNextDueDate(currentDueDate, pattern)].  The declared type of
    [pattern] is the union of the four pattern names; at run time any
    string or [null] can arrive, so the argument is an [option string]. *)
Definition calculateNextDueDate (currentDueDate : string)
    (pattern : option string) : Completion string :=
  let! current :=
    DateFns.toZonedTime LocalTZA (JsDate.parse LocalTZA currentDueDate) in
  let! next :=
    if caseIs pattern "daily" then Return (DateFns.addDays LocalTZA current 1)
    else if caseIs pattern "weekly" then Return (DateFns.addWeeks LocalTZA current 1)
    else if caseIs pattern "monthly" then Return (DateFns.addMonths LocalTZA current 1)
    else if caseIs pattern "yearly" then Return (DateFns.addYears LocalTZA current 1)
    else Throw (Error ("Invalid recurrence pattern: " ++ showPattern pattern)) in
  let! zoned := DateFns.toZonedTime LocalTZA (Some next) in
  DateFns.format LocalTZA (Some zoned).

(** The body of the [for] loop of [calculateNextOccurrences], run [iters]
    times. *)
Fixpoint occurrencesLoop (pattern : option string) (iters : nat)
    (current : string) (occurrences : list string)
  : Completion (list string) :=
  match iters with
  | O => Return occurrences
  | S k =>
      let! next := calculateNextDueDate current pattern in
      occurrencesLoop pattern k next (occurrences ++ [next])%list
  end.

(** [calculateNextOccurrences(startDate, pattern, count)]: the loop runs
    while [i < count - 1]. *)
Definition calculateNextOccurrences (startDate : string)
    (pattern : option string) (count : Z) : Completion (list string) :=
  occurrencesLoop pattern (Z.to_nat (count - 1)) startDate [startDate].

End LocalZone.

End Recurrence.

(* ===================================================================== *)
(** ** [lib/db.ts]: rows, the store, and the operations on todos *)
(* ===================================================================== *)

Module Db.

(** Rows of the tables [todos], [subtasks] and [todo_tags].  The columns
    [completed] hold 0 or 1 as numbers; a nullable column is an [option];
    the tables [users] and [tags], which the operations below do not
    write, are not part of the store. *)
Module Todo.
Record t : Type := mk {
  id : Z;
  user_id : Z;
  title : string;
  due_date : string;
  priority : string;
  completed : Z;
  completed_at : option string;
  recurrence_pattern : option string;
  reminder_minutes : option Z;
  last_notification_sent : option string;
  created_at : string
}.
End Todo.

Module Subtask.
Record t : Type := mk {
  id : Z;
  todo_id : Z;
  title : string;
  completed : Z;
  position : Z;
  created_at : string
}.
End Subtask.

Module TodoTag.
Record t : Type := mk {
  todo_id : Z;
  tag_id : Z;
  created_at : string
}.
End TodoTag.

(** The database: the three tables in row order, and for the two
    [AUTOINCREMENT] keys the largest row id handed out so far. *)
Record Store : Type := mkStore {
  todos : list Todo.t;
  subtasks : list Subtask.t;
  todo_tags : list TodoTag.t;
  todos_seq : Z;
  subtasks_seq : Z
}.

(** The foreign keys of [subtasks] and [todo_tags] to [todos], which the
    database enforces ([PRAGMA foreign_keys = ON]). *)
Definition foreignKeysOk (st : Store) : bool :=
  forallb (fun s => existsb (fun t => Todo.id t =? Subtask.todo_id s) (todos st))
          (subtasks st) &&
  forallb (fun r => existsb (fun t => Todo.id t =? TodoTag.todo_id r) (todos st))
          (todo_tags st).

(** Statements run against the store one by one, without a transaction:
    a statement that throws leaves the earlier writes in place. *)
Definition M (A : Type) : Type := Store -> Completion A * Store.

Definition ret {A : Type} (v : A) : M A := fun st => (Return v, st).

Definition throw {A : Type} (e : JsError) : M A := fun st => (Throw e, st).

Definition bind {A B : Type} (c : M A) (k : A -> M B) : M B :=
  fun st =>
    match c st with
    | (Return v, st') => k v st'
    | (Throw e, st') => (Throw e, st')
    end.

Definition lift {A : Type} (c : Completion A) : M A := fun st => (c, st).

Definition gets {A : Type} (f : Store -> A) : M A := fun st => (Return (f st), st).

(** [try { body } catch (error) { handler }] *)
Definition tryCatch {A : Type} (body : M A) (handler : JsError -> M A) : M A :=
  fun st =>
    match body st with
    | (Return v, st') => (Return v, st')
    | (Throw e, st') => handler e st'
    end.

Notation "x <- c ;; k" := (bind c (fun x => k))
  (at level 61, c at next level, right associativity).
Notation "c ;;; k" := (bind c (fun _ => k))
  (at level 61, right associativity).

(** [validateReminderMinutes(minutes)]; [None] is [null] or [undefined]. *)
Definition validateReminderMinutes (minutes : option Z) : option Z :=
  match minutes with
  | None => None
  | Some m =>
      let validOptions := [15; 30; 60; 120; 1440; 2880; 10080]%list in
      if negb (existsb (Z.eqb m) validOptions) then None else Some m
  end.

(** [validateRecurrence(pattern)] *)
Definition validateRecurrence (pattern : option string) : option string :=
  match pattern with
  | None => None
  | Some p =>
      let valid := ["daily"; "weekly"; "monthly"; "yearly"]%list in
      if negb (JsString.truthy p) || negb (existsb (String.eqb p) valid)
      then None else Some p
  end.

(** [ORDER BY]: a stable insertion sort under a "less or equal" test. *)
Fixpoint insertBy {A : Type} (leb : A -> A -> bool) (x : A) (l : list A)
  : list A :=
  match l with
  | nil => [x]%list
  | (y :: r)%list => if leb x y then (x :: l)%list else (y :: insertBy leb x r)%list
  end.

Definition orderBy {A : Type} (leb : A -> A -> bool) (l : list A) : list A :=
  fold_right (insertBy leb) nil l.

(** Largest value of a key over the rows of a table (0 when empty). *)
Definition maxKey {A : Type} (key : A -> Z) (rows : list A) : Z :=
  fold_right (fun r m => Z.max (key r) m) 0 rows.

Definition SqliteError (code : string) : JsError := Error code.

(* --------------------------------------------------------------------- *)
(** *** [subtaskDB] *)

Module subtaskDB.

Section Env.

(** The value of SQL's [CURRENT_TIMESTAMP] while the request runs. *)
Variable CURRENT_TIMESTAMP : string.

(** [subtaskDB.findById(id)] *)
Definition findById (id : Z) (st : Store) : option Subtask.t :=
  find (fun s => Subtask.id s =? id) (subtasks st).

Definition subtaskOrder (a b : Subtask.t) : bool :=
  (Subtask.position a <? Subtask.position b) ||
  ((Subtask.position a =? Subtask.position b) &&
   String.leb (Subtask.created_at a) (Subtask.created_at b)).

(** [subtaskDB.findByTodo(todoId)]: [ORDER BY position ASC, created_at ASC] *)
Definition findByTodo (todoId : Z) (st : Store) : list Subtask.t :=
  orderBy subtaskOrder
    (filter (fun s => Subtask.todo_id s =? todoId) (subtasks st)).

(** [subtaskDB.create(data)]: the title is trimmed, [completed] takes its
    default 0, the foreign key to [todos] is enforced. *)
Definition create (todo_id : Z) (title : string) (position : Z)
  : M Subtask.t :=
  fun st =>
    if existsb (fun t => Todo.id t =? todo_id) (todos st) then
      let id := Z.max (subtasks_seq st) (maxKey Subtask.id (subtasks st)) + 1 in
      let row := Subtask.mk id todo_id (JsString.trim title) 0 position
                            CURRENT_TIMESTAMP in
      (Return row,
       mkStore (todos st) (subtasks st ++ [row])%list (todo_tags st)
               (todos_seq st) id)
    else (Throw (SqliteError "SQLITE_CONSTRAINT_FOREIGNKEY"), st).

End Env.

End subtaskDB.

(* --------------------------------------------------------------------- *)
(** *** [todoDB] *)

Module todoDB.

Section Env.

(** The value of SQL's [CURRENT_TIMESTAMP] while the request runs. *)
Variable CURRENT_TIMESTAMP : string.

(** The local zone offset of the process, for the date computations. *)
Variable LocalTZA : Z.

(** The argument of [todoDB.create]; an absent optional field is [None]. *)
Record CreateData : Type := mkCreateData {
  cd_user_id : Z;
  cd_title : string;
  cd_due_date : string;
  cd_priority : option string;
  cd_recurrence_pattern : option string;
  cd_reminder_minutes : option Z
}.

(** [todoDB.findById(id)] *)
Definition findById (id : Z) (st : Store) : option Todo.t :=
  find (fun t => Todo.id t =? id) (todos st).

(** [todoDB.create(data)] *)
Definition create (data : CreateData) : M Todo.t :=
  fun st =>
    let id := Z.max (todos_seq st) (maxKey Todo.id (todos st)) + 1 in
    let row :=
      Todo.mk id (cd_user_id data) (JsString.trim (cd_title data))
        (cd_due_date data)
        (match JsValue.orNullString (cd_priority data) with Some p => p | None => "medium" end)
        0 None
        (JsValue.orNullString (cd_recurrence_pattern data))
        (JsValue.orNullNumber (cd_reminder_minutes data))
        None CURRENT_TIMESTAMP in
    (Return row,
     mkStore (todos st ++ [row])%list (subtasks st) (todo_tags st)
             id (subtasks_seq st)).

(** The argument of [todoDB.update]: for each column, [None] when the key
    is absent and [Some v] when it is to be set to [v]. *)
Record UpdateData : Type := mkUpdateData {
  ud_title : option string;
  ud_due_date : option string;
  ud_priority : option string;
  ud_completed : option Z;
  ud_completed_at : option (option string);
  ud_recurrence_pattern : option (option string);
  ud_reminder_minutes : option (option Z);
  ud_last_notification_sent : option (option string)
}.

Definition noUpdate : UpdateData :=
  mkUpdateData None None None None None None None None.

Definition orElse {A : Type} (v : option A) (old : A) : A :=
  match v with
  | Some x => x
  | None => old
  end.

Definition applyUpdate (data : UpdateData) (t : Todo.t) : Todo.t :=
  Todo.mk (Todo.id t) (Todo.user_id t)
    (orElse (ud_title data) (Todo.title t))
    (orElse (ud_due_date data) (Todo.due_date t))
    (orElse (ud_priority data) (Todo.priority t))
    (orElse (ud_completed data) (Todo.completed t))
    (orElse (ud_completed_at data) (Todo.completed_at t))
    (orElse (ud_recurrence_pattern data) (Todo.recurrence_pattern t))
    (orElse (ud_reminder_minutes data) (Todo.reminder_minutes t))
    (orElse (ud_last_notification_sent data) (Todo.last_notification_sent t))
    (Todo.created_at t).

(** [todoDB.update(id, data)]: [UPDATE todos SET ... WHERE id = ?], then
    the row is read back. *)
Definition update (id : Z) (data : UpdateData) : M (option Todo.t) :=
  fun st =>
    let st' :=
      mkStore
        (map (fun t => if Todo.id t =? id then applyUpdate data t else t) (todos st))
        (subtasks st) (todo_tags st) (todos_seq st) (subtasks_seq st) in
    (Return (findById id st'), st').

Definition priorityRank (p : string) : option Z :=
  if (p =? "high")%string then Some 1
  else if (p =? "medium")%string then Some 2
  else if (p =? "low")%string then Some 3
  else None.

(** [NULL] sorts before every value in ascending order. *)
Definition rankLtb (a b : option Z) : bool :=
  match a, b with
  | None, None => false
  | None, Some _ => true
  | Some _, None => false
  | Some x, Some y => x <? y
  end.

Definition rankEqb (a b : option Z) : bool :=
  match a, b with
  | None, None => true
  | Some x, Some y => x =? y
  | _, _ => false
  end.

Definition todoOrder (a b : Todo.t) : bool :=
  (Todo.completed a <? Todo.completed b) ||
  ((Todo.completed a =? Todo.completed b) &&
   (rankLtb (priorityRank (Todo.priority a)) (priorityRank (Todo.priority b)) ||
    (rankEqb (priorityRank (Todo.priority a)) (priorityRank (Todo.priority b)) &&
     String.leb (Todo.due_date a) (Todo.due_date b)))).

(** [todoDB.findByUser(userId)] without options: the user's todos with
    [completed = 0], ordered by completion, priority and due date.  (The
    subtasks and tags the source attaches to each row are left out.) *)
Definition findByUser (userId : Z) (st : Store) : list Todo.t :=
  orderBy todoOrder
    (filter (fun t => (Todo.user_id t =? userId) && (Todo.completed t =? 0))
            (todos st)).

(** The statement [INSERT INTO todo_tags (todo_id, tag_id) SELECT ?, tag_id
    FROM todo_tags WHERE todo_id = ?]; the primary key [(todo_id, tag_id)]
    is enforced. *)
Definition copyTags (newId parentId : Z) : M unit :=
  fun st =>
    let selected := filter (fun r => TodoTag.todo_id r =? parentId) (todo_tags st) in
    let rows := map (fun r => TodoTag.mk newId (TodoTag.tag_id r) CURRENT_TIMESTAMP)
                    selected in
    if existsb (fun n => existsb (fun r => (TodoTag.todo_id r =? newId) &&
                                           (TodoTag.tag_id r =? TodoTag.tag_id n))
                                 (todo_tags st)) rows
    then (Throw (SqliteError "SQLITE_CONSTRAINT_PRIMARYKEY"), st)
    else (Return tt,
          mkStore (todos st) (subtasks st) (todo_tags st ++ rows)%list
                  (todos_seq st) (subtasks_seq st)).

(** [subtasks.forEach(subtask => subtaskDB.create({...}))] *)
Fixpoint copySubtasks (newId : Z) (subtasks : list Subtask.t) : M unit :=
  match subtasks with
  | nil => ret tt
  | (subtask :: rest)%list =>
      subtaskDB.create CURRENT_TIMESTAMP newId (Subtask.title subtask) (Subtask.position subtask) ;;;
      copySubtasks newId rest
  end.

Definition truthyPattern (p : option string) : bool :=
  match p with
  | Some s => JsString.truthy s
  | None => false
  end.

(** [todoDB.createRecurringInstance(parentTodo)] *)
Definition createRecurringInstance (parentTodo : Todo.t) : M Todo.t :=
  if negb (truthyPattern (Todo.recurrence_pattern parentTodo))
  then throw (Error "Todo is not recurring")
  else
    nextDueDate <- lift (Recurrence.calculateNextDueDate LocalTZA
                           (Todo.due_date parentTodo)
                           (Todo.recurrence_pattern parentTodo)) ;;
    nextTodo <- create
                  (mkCreateData (Todo.user_id parentTodo) (Todo.title parentTodo)
                     nextDueDate (Some (Todo.priority parentTodo))
                     (Todo.recurrence_pattern parentTodo)
                     (Todo.reminder_minutes parentTodo)) ;;
    copyTags (Todo.id nextTodo) (Todo.id parentTodo) ;;;
    subtasks <- gets (subtaskDB.findByTodo (Todo.id parentTodo)) ;;
    copySubtasks (Todo.id nextTodo) subtasks ;;;
    ret nextTodo.

End Env.

End todoDB.

End Db.

(* ===================================================================== *)
(** ** Route handlers *)
(* ===================================================================== *)

(** The session of [getSession()]; [None] when not authenticated. *)
Record Session : Type := mkSession {
  userId : Z;
  username : string
}.

(** [NextResponse.json(body, { status })]: a payload, or an error message. *)
Inductive Response (A : Type) : Type :=
| Json (status : Z) (body : A)
| JsonError (status : Z) (error : string).

Arguments Json {A} status body.
Arguments JsonError {A} status error.

(* --------------------------------------------------------------------- *)
(** *** [app/api/notifications/check/route.ts] *)

Module NotificationsCheck.

Import Db.

Record Reminder : Type := mkReminder {
  todo : Todo.t;
  minutesUntilDue : option Z   (* [None] is [NaN] *)
}.

(** [x < y] on rationals. *)
Definition Qltb (x y : Q) : bool := negb (Qle_bool y x).

(** [Math.round(x)]: the integer nearest to [x], halves rounded up. *)
Definition Math_round (x : Q) : Z := Qfloor (x + (1 # 2))%Q.

Section LocalZone.

Variable LocalTZA : Z.

(** The callback of [todos.filter(...)]; [now] is the time value of
    [getSingaporeNow()].  A comparison with an [Invalid Date] is false. *)
Definition reminderFilter (now : Z) (todo : Todo.t) : bool :=
  if negb (Todo.completed todo =? 0) then false
  else
    match JsValue.orNullNumber (Todo.reminder_minutes todo) with
    | None => false
    | Some reminder_minutes =>
        match JsDate.parse LocalTZA (Todo.due_date todo) with
        | None => false
        | Some dueTime =>
            let reminderTime :=
              JsDate.getTime dueTime - reminder_minutes * 60 * 1000 in
            let isInWindow := (reminderTime <=? now) && (now <? dueTime) in
            if negb isInWindow then false
            else
              match JsValue.orNullString (Todo.last_notification_sent todo) with
              | None => true
              | Some last_notification_sent =>
                  match JsDate.parse LocalTZA last_notification_sent with
                  | None => true
                  | Some lastSent =>
                      let minutesSinceLastSent :=
                        (inject_Z (JsDate.getTime now - JsDate.getTime lastSent)
                         / inject_Z (60 * 1000))%Q in
                      if Qltb minutesSinceLastSent (inject_Z 5) then false
                      else true
                  end
              end
        end
    end.

(** The callback of [.map(...)]. *)
Definition reminderEntry (now : Z) (todo : Todo.t) : Reminder :=
  mkReminder todo
    match JsDate.parse LocalTZA (Todo.due_date todo) with
    | None => None
    | Some dueTime =>
        Some (Math_round (inject_Z (JsDate.getTime dueTime - JsDate.getTime now)
                          / inject_Z (60 * 1000))%Q)
    end.

(** The reminders of a collection of todos at [now]. *)
Definition dueReminders (now : Z) (todos : list Todo.t) : list Reminder :=
  map (reminderEntry now) (filter (reminderFilter now) todos).

(** [reminders.forEach(({ todo }) => todoDB.update(todo.id, {...}))] *)
Fixpoint markSent (stamp : string) (reminders : list Reminder) : M unit :=
  match reminders with
  | nil => ret tt
  | (r :: rest)%list =>
      Db.todoDB.update (Todo.id (todo r))
        (Db.todoDB.mkUpdateData None None None None None None None
           (Some (Some stamp))) ;;;
      markSent stamp rest
  end.

(** [GET /api/notifications/check]; [clock] is the time value of the
    [new Date()] inside [getSingaporeNow()]. *)
Definition GET (session : option Session) (clock : Z)
  : M (Response (list Reminder)) :=
  match session with
  | None => ret (JsonError 401 "Not authenticated")
  | Some session =>
      tryCatch
        (let now := Timezone.getSingaporeNow LocalTZA clock in
         todos <- gets (Db.todoDB.findByUser (userId session)) ;;
         let reminders := dueReminders now todos in
         markSent (Timezone.formatSingaporeDate LocalTZA now) reminders ;;;
         ret (Json 200 reminders))
        (fun _ => ret (JsonError 500 "Failed to check notifications"))
  end.

End LocalZone.

End NotificationsCheck.

(* --------------------------------------------------------------------- *)
(** *** [app/api/todos/route.ts] *)

Module TodosRoute.

Import Db.

(** The JSON body of [POST /api/todos], at the types the handler expects;
    an absent or [null] field is [None]. *)
Module Body.
Record t : Type := mk {
  title : option string;
  due_date : option string;
  priority : option string;
  recurrence_pattern : option string;
  reminder_minutes : option Z
}.
End Body.

(** [list.includes(value)] *)
Definition includes (list : list string) (value : string) : bool :=
  existsb (String.eqb value) list.

Section Env.

Variable CURRENT_TIMESTAMP : string.
Variable LocalTZA : Z.

(** [POST /api/todos] *)
Definition POST (session : option Session) (clock : Z) (body : Body.t)
  : M (Response Todo.t) :=
  match session with
  | None => ret (JsonError 401 "Not authenticated")
  | Some session =>
      tryCatch
        (match JsValue.orNullString (Body.title body) with
         | None => ret (JsonError 400 "Title is required")
         | Some title =>
         if JsString.length (JsString.trim title) =? 0
         then ret (JsonError 400 "Title is required")
         else if 500 <? JsString.length (JsString.trim title)
         then ret (JsonError 400 "Title must be 500 characters or less")
         else
         match JsValue.orNullString (Body.due_date body) with
         | None => ret (JsonError 400 "Due date is required")
         | Some due_date =>
         past <- lift (Timezone.isPastDate LocalTZA clock due_date) ;;
         if (past : bool)
         then ret (JsonError 400 "Due date cannot be in the past")
         else if match JsValue.orNullString (Body.priority body) with
                 | Some priority => negb (includes ["high"; "medium"; "low"] priority)
                 | None => false
                 end
         then ret (JsonError 400 "Invalid priority value")
         else if match JsValue.orNullString (Body.recurrence_pattern body) with
                 | Some recurrence_pattern =>
                     negb (includes ["daily"; "weekly"; "monthly"; "yearly"]
                                    recurrence_pattern)
                 | None => false
                 end
         then ret (JsonError 400 "Invalid recurrence pattern")
         else if match Body.reminder_minutes body with
                 | Some reminder_minutes =>
                     let reminderNum := reminder_minutes in
                     reminderNum <=? 0
                 | None => false
                 end
         then ret (JsonError 400 "Reminder minutes must be a positive number")
         else
           todo <- Db.todoDB.create CURRENT_TIMESTAMP
                     (Db.todoDB.mkCreateData (userId session) title due_date
                        (Some (match JsValue.orNullString (Body.priority body) with
                               | Some p => p
                               | None => "medium"
                               end))
                        (JsValue.orNullString (Body.recurrence_pattern body))
                        (JsValue.orNullNumber (Body.reminder_minutes body))) ;;
           ret (Json 201 todo)
         end
         end)
        (fun _ => ret (JsonError 500 "Failed to create todo"))
  end.

End Env.

End TodosRoute.

(* --------------------------------------------------------------------- *)
(** *** [app/api/todos/[id]/route.ts] *)

Module TodoIdRoute.

Import Db.

(** The JSON body of [PUT /api/todos/[id]], at the types the handler
    expects.  The outer [None] is an absent key ([undefined]); for a
    nullable column the inner [None] is [null]. *)
Module Body.
Record t : Type := mk {
  title : option string;
  due_date : option string;
  priority : option string;
  recurrence_pattern : option (option string);
  reminder_minutes : option (option Z);
  completed : option Z
}.
End Body.

(** The payload of the response: [{ todo, next_todo }]. *)
Record Payload : Type := mkPayload {
  todo : option Todo.t;
  next_todo : option Todo.t
}.

Section Env.

Variable CURRENT_TIMESTAMP : string.
Variable LocalTZA : Z.

(** The part of [PUT] under "Handle completion": the update data for the
    completion columns and the next instance, if one is created. *)
Definition handleCompletion (clock : Z) (todo : Todo.t) (body : Body.t)
  : M (option Z * option (option string) * option Todo.t) :=
  match Body.completed body with
  | None => ret (None, None, None)
  | Some completed =>
      let isCompleting := (completed =? 1) && (Todo.completed todo =? 0) in
      if isCompleting then
        let completed_at :=
          Timezone.formatSingaporeDate LocalTZA
            (Timezone.getSingaporeNow LocalTZA clock) in
        if Db.todoDB.truthyPattern (Todo.recurrence_pattern todo) then
          nextTodo <- Db.todoDB.createRecurringInstance CURRENT_TIMESTAMP
                        LocalTZA todo ;;
          ret (Some completed, Some (Some completed_at), Some nextTodo)
        else ret (Some completed, Some (Some completed_at), None)
      else if completed =? 0 then ret (Some completed, Some None, None)
      else ret (Some completed, None, None)
  end.

(** [PUT /api/todos/[id]]; [id] is the result of [parseInt] on the path
    parameter, [None] for [NaN]. *)
Definition PUT (session : option Session) (clock : Z) (id : option Z)
    (body : Body.t) : M (Response Payload) :=
  match session with
  | None => ret (JsonError 401 "Not authenticated")
  | Some session =>
      tryCatch
        (match id with
         | None => ret (JsonError 400 "Invalid todo ID")
         | Some todoId =>
         found <- gets (Db.todoDB.findById todoId) ;;
         match found with
         | None => ret (JsonError 404 "Todo not found")
         | Some todo =>
         if negb (Todo.user_id todo =? userId session)
         then ret (JsonError 403 "Unauthorized")
         else if match Body.title body with
                 | Some title => JsString.length (JsString.trim title) =? 0
                 | None => false
                 end
         then ret (JsonError 400 "Title must be a non-empty string")
         else if match Body.title body with
                 | Some title => 500 <? JsString.length (JsString.trim title)
                 | None => false
                 end
         then ret (JsonError 400 "Title must be 500 characters or less")
         else if match Body.priority body with
                 | Some priority =>
                     negb (TodosRoute.includes ["high"; "medium"; "low"] priority)
                 | None => false
                 end
         then ret (JsonError 400 "Invalid priority value")
         else if match Body.recurrence_pattern body with
                 | Some (Some recurrence_pattern) =>
                     negb (TodosRoute.includes
                             ["daily"; "weekly"; "monthly"; "yearly"]
                             recurrence_pattern)
                 | _ => false
                 end
         then ret (JsonError 400 "Invalid recurrence pattern")
         else
           completion <- handleCompletion clock todo body ;;
           let '(completed, completed_at, nextTodo) := completion in
           let updateData :=
             Db.todoDB.mkUpdateData
               (option_map JsString.trim (Body.title body))
               (Body.due_date body)
               (Body.priority body)
               completed
               completed_at
               (Body.recurrence_pattern body)
               (Body.reminder_minutes body)
               None in
           updatedTodo <- Db.todoDB.update todoId updateData ;;
           ret (Json 200 (mkPayload updatedTodo nextTodo))
         end
         end)
        (fun _ => ret (JsonError 500 "Failed to update todo"))
  end.

End Env.

End TodoIdRoute.

(* ===================================================================== *)
(** ** Vocabulary of the statements *)
(* ===================================================================== *)

(** Definitions that only the statements and proofs below use; none of
    them is part of the program. *)
Module Spec.

(** [forallFrom start n f]: [f] holds on [start, ..., start + n - 1]. *)
Fixpoint forallFrom (start : Z) (n : nat) (f : Z -> bool) : bool :=
  match n with
  | O => true
  | S k => f start && forallFrom (start + 1) k f
  end.

(** [addLeadingZeros n 2] is two digits that read back as [n]. *)
Definition twoDigitsOk (n : Z) : bool :=
  match DateFns.addLeadingZeros n 2 with
  | String a (String b EmptyString) =>
      match JsDate.num2 a b with
      | Some k => k =? n
      | None => false
      end
  | _ => false
  end.

(** [formatYear y] is four digits that read back as [y]. *)
Definition fourDigitsOk (y : Z) : bool :=
  match DateFns.formatYear y with
  | String a (String b (String c (String d EmptyString))) =>
      match JsDate.num4 a b c d with
      | Some k => k =? y
      | None => false
      end
  | _ => false
  end.

(** The local times that [format] prints with a four-digit year that
    reads back: from 0001-01-01 00:00 up to, not including, 10000-01-01
    00:00. *)
Definition minFormatTime : Z := -62135596800000.
Definition maxFormatTime : Z := 253402300800000.

(** [chained step current rest]: each element of [rest] is the result of
    [step] on the element before it, starting from [current]. *)
Fixpoint chained (step : string -> Completion string) (current : string)
    (rest : list string) : Prop :=
  match rest with
  | nil => True
  | (next :: rest')%list =>
      step current = Return next /\ chained step next rest'
  end.

End Spec.

(* ===================================================================== *)
(** ** Example data *)
(* ===================================================================== *)

Module Examples.

Import Db.

(** A recurring todo due on 1 March 2026 at noon, with a reminder one
    hour before. *)
Definition rent : Todo.t :=
  Todo.mk 1 7 "Pay rent" "2026-03-01T12:00" "high" 0 None
    (Some "monthly") (Some 60) None "2026-02-01 08:00:00".

(** The time value of the due date of [rent] in the zone of Singapore. *)
Definition rentDue : Z := 1772337600000.

(** [rent] after a notification at 11:10:00. *)
Definition rentNotified : Todo.t :=
  Todo.mk 1 7 "Pay rent" "2026-03-01T12:00" "high" 0 None
    (Some "monthly") (Some 60) (Some "2026-03-01 11:10:00")
    "2026-02-01 08:00:00".

(** [rent] once completed. *)
Definition rentCompleted : Todo.t :=
  Todo.mk 1 7 "Pay rent" "2026-03-01T12:00" "high" 1
    (Some "2026-03-01 11:00:00") (Some "monthly") (Some 60) None
    "2026-02-01 08:00:00".

(** A signed-in user, an empty database, and a moment on 1 February 2026
    (08:00 in Singapore). *)
Definition alice : Session := mkSession 7 "alice".

Definition emptyStore : Store := mkStore nil nil nil 0 0.

Definition feb1 : Z := 1769904000000.

(** A database with the recurring todo [rent] of user 7, two tags on it,
    and three subtasks, the second one completed and with spaces around
    its title (as [PUT /api/subtasks/[id]] stores a title it is given). *)
Definition rentStore : Store :=
  mkStore
    [rent]%list
    [Subtask.mk 1 1 "Check balance" 0 0 "2026-02-01 08:00:00";
     Subtask.mk 2 1 " Transfer " 1 1 "2026-02-01 08:00:00";
     Subtask.mk 3 1 "File receipt" 0 2 "2026-02-01 08:00:00"]%list
    [TodoTag.mk 1 10 "2026-02-01 08:00:00";
     TodoTag.mk 1 11 "2026-02-01 08:00:00"]%list
    1 3.

(** The bodies [{ completed: 1 }] and [{ completed: 0 }]. *)
Definition complete : TodoIdRoute.Body.t :=
  TodoIdRoute.Body.mk None None None None None (Some 1).

Definition uncomplete : TodoIdRoute.Body.t :=
  TodoIdRoute.Body.mk None None None None None (Some 0).

(** The moment 1 March 2026, 11:00 in Singapore, and [rentStore] after
    [rent] was completed at that moment: the original is completed and the
    next instance, todo 2, is there. *)
Definition mar1 : Z := 1772334000000.

Definition rentDoneStore : Store :=
  Eval vm_compute in
    snd (TodoIdRoute.PUT "2026-03-01 03:00:00" DateFns.SINGAPORE_OFFSET
           (Some alice) mar1 (Some 1) complete rentStore).

(** A request to create a todo with a reminder 45 minutes before. *)
Definition create45 : TodosRoute.Body.t :=
  TodosRoute.Body.mk (Some "Call the bank") (Some "2026-03-01T12:00")
    (Some "high") None (Some 45).

End Examples.
(* ===================================================================== *)
(** ** [lib/constants.ts] and the client-side helpers *)
(* ===================================================================== *)

(** [n.toString()] and the template literal [`${n}`] for an integer. *)
Module JsNumber.

Definition toString (n : Z) : string :=
  if n <? 0 then ("-" ++ JsString.toString (- n))%string
  else JsString.toString n.

(** IEEE 754 binary64, the numbers of JavaScript, for the one computation
    of the application whose rounding shows: [(completed / total) * 100]. *)
Definition prec : Z := 53.
Definition emax : Z := 1024.

(** The number of an integer (exact below 2^53). *)
Definition ofZ (n : Z) : spec_float := binary_normalize prec emax n 0 false.

Definition div (x y : spec_float) : spec_float := SFdiv prec emax x y.
Definition mul (x y : spec_float) : spec_float := SFmul prec emax x y.

(** [Math.round(x)]: the integer nearest to the number [x], halves rounded
    up, that is the floor of [x + 1/2].  [None] stands for the results
    that are no integer: [NaN] and the two infinities. *)
Definition Math_round (x : spec_float) : option Z :=
  match x with
  | S754_zero _ => Some 0
  | S754_finite s m e =>
      let n := if s then Z.neg m else Z.pos m in
      (* floor (n * 2^e + 1/2) *)
      Some (if 0 <=? e then n * 2 ^ e
            else (n * 2 + 2 ^ (- e)) / 2 ^ (- e + 1))
  | _ => None
  end.

End JsNumber.

Module Constants.

Import Db.

Record Progress : Type := mkProgress {
  completed : Z;
  total : Z;
  percentage : option Z   (* [None] is [NaN] *)
}.

(** [calculateProgress(subtasks)] *)
Definition calculateProgress (subtasks : list Subtask.t) : Progress :=
  let total := Z.of_nat (List.length subtasks) in
  let completed :=
    Z.of_nat (List.length (filter (fun s => Subtask.completed s =? 1) subtasks)) in
  let percentage :=
    if total =? 0 then Some 0
    else JsNumber.Math_round
           (JsNumber.mul (JsNumber.div (JsNumber.ofZ completed) (JsNumber.ofZ total))
                         (JsNumber.ofZ 100)) in
  mkProgress completed total percentage.

End Constants.

(** The hook [useNotifications]: the text of a reminder. *)
Module UseNotifications.

Import Db.

(** [`${n} unit${n !== 1 ? 's' : ''}`] *)
Definition plural (n : Z) (unit : string) : string :=
  (JsNumber.toString n ++ " " ++ unit ++ (if (n =? 1)%Z then "" else "s"))%string.

(** [formatMinutes(minutes)] on an integer number of minutes ([Math.floor]
    of a quotient of integers is the quotient of [Z]); [None] is [NaN], on
    which every comparison fails. *)
Definition formatMinutes (minutes : option Z) : string :=
  match minutes with
  | None => "NaN days"
  | Some minutes =>
      if minutes <? 60 then plural minutes "minute"
      else
        let hours := minutes / 60 in
        if hours <? 24 then plural hours "hour"
        else
          let days := hours / 24 in
          plural days "day"
  end.

(** The [body] of the notification that [showNotification] raises. *)
Definition notificationBody (reminder : NotificationsCheck.Reminder) : string :=
  (Todo.title (NotificationsCheck.todo reminder) ++ " is due in " ++
   formatMinutes (NotificationsCheck.minutesUntilDue reminder))%string.

End UseNotifications.

(* ===================================================================== *)
(** ** [lib/db.ts]: the other operations on todos, subtasks and tags *)
(* ===================================================================== *)

Module DbCrud.

Import Db.

(** A row of the table [tags]. *)
Module Tag.
Record t : Type := mk {
  id : Z;
  user_id : Z;
  name : string;
  color : string;
  created_at : string
}.
End Tag.

(** [validatePriority(priority)] *)
Definition validatePriority (priority : option string) : string :=
  let valid := ["high"; "medium"; "low"]%list in
  match priority with
  | None => "medium"
  | Some p =>
      if negb (JsString.truthy p) || negb (existsb (String.eqb p) valid)
      then "medium" else p
  end.

(** [distinct eqb l]: no two elements of [l] are equal under [eqb]. *)
Fixpoint distinct {A : Type} (eqb : A -> A -> bool) (l : list A) : bool :=
  match l with
  | nil => true
  | (x :: r)%list => negb (existsb (eqb x) r) && distinct eqb r
  end.

(** The primary keys of the three tables, which the database enforces: no
    two rows of [todos] or of [subtasks] share an [id], no two rows of
    [todo_tags] a pair [(todo_id, tag_id)]. *)
Definition primaryKeysOk (st : Store) : bool :=
  distinct Z.eqb (map Todo.id (todos st)) &&
  distinct Z.eqb (map Subtask.id (subtasks st)) &&
  distinct (fun a b => (TodoTag.todo_id a =? TodoTag.todo_id b) &&
                       (TodoTag.tag_id a =? TodoTag.tag_id b))
           (todo_tags st).

(* --------------------------------------------------------------------- *)
(** *** [subtaskDB] *)

Module subtaskDB.

(** The argument of [subtaskDB.update]: for each of the three columns,
    [None] when the key is absent. *)
Record UpdateData : Type := mkUpdateData {
  ud_title : option string;
  ud_completed : option Z;
  ud_position : option Z
}.

Definition applyUpdate (data : UpdateData) (s : Subtask.t) : Subtask.t :=
  Subtask.mk (Subtask.id s) (Subtask.todo_id s)
    (Db.todoDB.orElse (ud_title data) (Subtask.title s))
    (Db.todoDB.orElse (ud_completed data) (Subtask.completed s))
    (Db.todoDB.orElse (ud_position data) (Subtask.position s))
    (Subtask.created_at s).

(** [subtaskDB.update(id, data)]: [UPDATE subtasks SET ... WHERE id = ?],
    then the row is read back. *)
Definition update (id : Z) (data : UpdateData) : M (option Subtask.t) :=
  fun st =>
    let st' :=
      mkStore (todos st)
        (map (fun s => if Subtask.id s =? id then applyUpdate data s else s)
             (subtasks st))
        (todo_tags st) (todos_seq st) (subtasks_seq st) in
    (Return (find (fun s => Subtask.id s =? id) (subtasks st')), st').

(** [subtaskDB.delete(id)] *)
Definition delete (id : Z) : M unit :=
  fun st =>
    (Return tt,
     mkStore (todos st)
       (filter (fun s => negb (Subtask.id s =? id)) (subtasks st))
       (todo_tags st) (todos_seq st) (subtasks_seq st)).

(** [subtaskDB.getProgress(todoId)] *)
Definition getProgress (todoId : Z) (st : Store) : Constants.Progress :=
  let subtasks := Db.subtaskDB.findByTodo todoId st in
  let total := Z.of_nat (List.length subtasks) in
  let completed :=
    Z.of_nat (List.length (filter (fun s => Subtask.completed s =? 1) subtasks)) in
  let percentage :=
    if total =? 0 then Some 0
    else JsNumber.Math_round
           (JsNumber.mul (JsNumber.div (JsNumber.ofZ completed) (JsNumber.ofZ total))
                         (JsNumber.ofZ 100)) in
  Constants.mkProgress completed total percentage.

End subtaskDB.

(* --------------------------------------------------------------------- *)
(** *** [todoDB] and [tagDB] *)

Module todoDB.

(** The [options] of [todoDB.findByUser]; an absent key is [false] or
    [None]. *)
Module FindOptions.
Record t : Type := mk {
  includeCompleted : bool;
  priority : option string;
  tagId : option Z
}.
End FindOptions.

Module TodoWithRelations.
Record t : Type := mk {
  todo : Todo.t;
  subtasks : list Subtask.t;
  tags : list Tag.t
}.
End TodoWithRelations.

Section Env.

(** The value of SQL's [CURRENT_TIMESTAMP] while the request runs. *)
Variable CURRENT_TIMESTAMP : string.

(** The rows of the table [tags]; the operations on todos read them and
    never write them. *)
Variable tags : list Tag.t.

(** [tagDB.findById(id)] *)
Definition tagDB_findById (id : Z) : option Tag.t :=
  find (fun t => Tag.id t =? id) tags.

(** [todoDB.delete(id)]: the rows of [subtasks] and [todo_tags] that
    refer to a deleted todo go with it ([ON DELETE CASCADE]). *)
Definition delete (id : Z) : M unit :=
  fun st =>
    if existsb (fun t => Todo.id t =? id) (todos st) then
      (Return tt,
       mkStore
         (filter (fun t => negb (Todo.id t =? id)) (todos st))
         (filter (fun s => negb (Subtask.todo_id s =? id)) (subtasks st))
         (filter (fun r => negb (TodoTag.todo_id r =? id)) (todo_tags st))
         (todos_seq st) (subtasks_seq st))
    else (Return tt, st).

(** [todoDB.getTags(todoId)]: the join of [tags] with [todo_tags],
    [ORDER BY t.name]. *)
Definition getTags (todoId : Z) (st : Store) : list Tag.t :=
  orderBy (fun a b => String.leb (Tag.name a) (Tag.name b))
    (flat_map
       (fun t =>
          map (fun _ => t)
              (filter (fun r => (Tag.id t =? TodoTag.tag_id r) &&
                                (TodoTag.todo_id r =? todoId))
                      (todo_tags st)))
       tags).

(** [todoDB.addTag(todoId, tagId)]: [INSERT OR IGNORE] skips a pair that
    is there already; a pair that names no todo or no tag violates a
    foreign key, which [OR IGNORE] does not cover. *)
Definition addTag (todoId tagId : Z) : M unit :=
  fun st =>
    if negb (existsb (fun t => Todo.id t =? todoId) (todos st) &&
             existsb (fun t => Tag.id t =? tagId) tags)
    then (Throw (SqliteError "SQLITE_CONSTRAINT_FOREIGNKEY"), st)
    else if existsb (fun r => (TodoTag.todo_id r =? todoId) &&
                              (TodoTag.tag_id r =? tagId)) (todo_tags st)
    then (Return tt, st)
    else (Return tt,
          mkStore (todos st) (subtasks st)
            (todo_tags st ++ [TodoTag.mk todoId tagId CURRENT_TIMESTAMP])%list
            (todos_seq st) (subtasks_seq st)).

(** [todoDB.removeTag(todoId, tagId)] *)
Definition removeTag (todoId tagId : Z) : M unit :=
  fun st =>
    (Return tt,
     mkStore (todos st) (subtasks st)
       (filter (fun r => negb ((TodoTag.todo_id r =? todoId) &&
                               (TodoTag.tag_id r =? tagId)))
               (todo_tags st))
       (todos_seq st) (subtasks_seq st)).

(** The [WHERE] clause that [findByUser] assembles.  A tag filter joins
    [todo_tags]; [SELECT DISTINCT] then keeps one copy of a todo that the
    join repeats, which is what testing for a matching row gives. *)
Definition findByUserWhere (userId : Z) (options : option FindOptions.t)
    (st : Store) (t : Todo.t) : bool :=
  (Todo.user_id t =? userId) &&
  match option_map FindOptions.tagId options with
  | Some tagFilter =>
      match JsValue.orNullNumber tagFilter with
      | Some tagId =>
          existsb (fun r => (Todo.id t =? TodoTag.todo_id r) &&
                            (TodoTag.tag_id r =? tagId)) (todo_tags st)
      | None => true
      end
  | None => true
  end &&
  (if match options with
      | Some o => FindOptions.includeCompleted o
      | None => false
      end
   then true else Todo.completed t =? 0) &&
  match option_map FindOptions.priority options with
  | Some priorityFilter =>
      match JsValue.orNullString priorityFilter with
      | Some p => (Todo.priority t =? p)%string
      | None => true
      end
  | None => true
  end.

(** [todoDB.findByUser(userId, options)] *)
Definition findByUser (userId : Z) (options : option FindOptions.t) (st : Store)
  : list TodoWithRelations.t :=
  map (fun todo =>
         TodoWithRelations.mk todo
           (Db.subtaskDB.findByTodo (Todo.id todo) st)
           (getTags (Todo.id todo) st))
      (orderBy Db.todoDB.todoOrder
         (filter (findByUserWhere userId options st) (todos st))).

(** [todoDB.findRecurringByUser(userId)] *)
Definition findRecurringByUser (userId : Z) (st : Store) : list Todo.t :=
  orderBy (fun a b => String.leb (Todo.due_date a) (Todo.due_date b))
    (filter (fun t => (Todo.user_id t =? userId) &&
                      match Todo.recurrence_pattern t with
                      | Some _ => true
                      | None => false
                      end &&
                      (Todo.completed t =? 0))
            (todos st)).

End Env.

End todoDB.

End DbCrud.

(* ===================================================================== *)
(** ** The other route handlers *)
(* ===================================================================== *)

(* --------------------------------------------------------------------- *)
(** *** [app/api/todos/route.ts]: [GET] *)

Module TodoList.

Import Db.

(** The query parameters.  [tag_id] is the result of [parseInt] on the
    parameter when it is there and not empty, [None] otherwise or when
    the result is [NaN]. *)
Record Query : Type := mkQuery {
  include_completed : option string;
  priority : option string;
  tag_id : option Z
}.

(** The payload [{ todos, username }]. *)
Module Payload.
Record t : Type := mk {
  todos : list DbCrud.todoDB.TodoWithRelations.t;
  username : string
}.
End Payload.

Section Env.

Variable tags : list DbCrud.Tag.t.

(** The [options] that the handler builds from the query. *)
Definition optionsOf (query : Query) : DbCrud.todoDB.FindOptions.t :=
  DbCrud.todoDB.FindOptions.mk
    (match include_completed query with
     | Some v => (v =? "true")%string
     | None => false
     end)
    (match JsValue.orNullString (priority query) with
     | Some priorityFilter =>
         if TodosRoute.includes ["high"; "medium"; "low"] priorityFilter
         then Some priorityFilter else None
     | None => None
     end)
    (tag_id query).

(** [GET /api/todos] *)
Definition GET (session : option Session) (query : Query)
  : M (Response Payload.t) :=
  match session with
  | None => ret (JsonError 401 "Not authenticated")
  | Some session =>
      tryCatch
        (todos <- gets (DbCrud.todoDB.findByUser tags (userId session)
                          (Some (optionsOf query))) ;;
         ret (Json 200 (Payload.mk todos (username session))))
        (fun _ => ret (JsonError 500 "Failed to fetch todos"))
  end.

End Env.

End TodoList.

(* --------------------------------------------------------------------- *)
(** *** [app/api/todos/[id]/route.ts]: [GET] and [DELETE] *)

Module TodoItem.

Import Db.

(** [GET /api/todos/[id]]; [id] is the result of [parseInt] on the path
    parameter, [None] for [NaN]. *)
Definition GET (session : option Session) (id : option Z)
  : M (Response Todo.t) :=
  match session with
  | None => ret (JsonError 401 "Not authenticated")
  | Some session =>
      tryCatch
        (match id with
         | None => ret (JsonError 400 "Invalid todo ID")
         | Some todoId =>
         found <- gets (Db.todoDB.findById todoId) ;;
         match found with
         | None => ret (JsonError 404 "Todo not found")
         | Some todo =>
         if negb (Todo.user_id todo =? userId session)
         then ret (JsonError 403 "Unauthorized")
         else ret (Json 200 todo)
         end
         end)
        (fun _ => ret (JsonError 500 "Failed to fetch todo"))
  end.

(** [DELETE /api/todos/[id]]; the payload is [{ success: true }]. *)
Definition DELETE (session : option Session) (id : option Z)
  : M (Response bool) :=
  match session with
  | None => ret (JsonError 401 "Not authenticated")
  | Some session =>
      tryCatch
        (match id with
         | None => ret (JsonError 400 "Invalid todo ID")
         | Some todoId =>
         found <- gets (Db.todoDB.findById todoId) ;;
         match found with
         | None => ret (JsonError 404 "Todo not found")
         | Some todo =>
         if negb (Todo.user_id todo =? userId session)
         then ret (JsonError 403 "Unauthorized")
         else
           DbCrud.todoDB.delete todoId ;;;
           ret (Json 200 true)
         end
         end)
        (fun _ => ret (JsonError 500 "Failed to delete todo"))
  end.

End TodoItem.

(* --------------------------------------------------------------------- *)
(** *** [app/api/subtasks/route.ts], [app/api/subtasks/[id]/route.ts] and
        [app/api/subtasks/reorder/route.ts] *)

Module Subtasks.

Import Db.

(** [todo && todo.user_id === session.userId] on the result of
    [todoDB.findById]. *)
Definition ownedBy (session : Session) (todo : option Todo.t) : bool :=
  match todo with
  | Some todo => Todo.user_id todo =? userId session
  | None => false
  end.

(** The JSON body of [POST /api/subtasks] at the types the handler
    expects. *)
Module CreateBody.
Record t : Type := mk {
  todo_id : option Z;
  title : option string
}.
End CreateBody.

Section Env.

Variable CURRENT_TIMESTAMP : string.

(** [POST /api/subtasks] *)
Definition POST (session : option Session) (body : CreateBody.t)
  : M (Response Subtask.t) :=
  match session with
  | None => ret (JsonError 401 "Not authenticated")
  | Some session =>
      match JsValue.orNullString (CreateBody.title body) with
      | None => ret (JsonError 400 "Title must be 1-200 characters")
      | Some title =>
      if (JsString.length (JsString.trim title) =? 0) ||
         (200 <? JsString.length title)
      then ret (JsonError 400 "Title must be 1-200 characters")
      else
      match JsValue.orNullNumber (CreateBody.todo_id body) with
      | None => ret (JsonError 400 "Invalid todo_id")
      | Some todo_id =>
      todo <- gets (Db.todoDB.findById todo_id) ;;
      if negb (ownedBy session todo)
      then ret (JsonError 404 "Todo not found")
      else
        existingSubtasks <- gets (Db.subtaskDB.findByTodo todo_id) ;;
        let nextPosition := Z.of_nat (List.length existingSubtasks) in
        subtask <- Db.subtaskDB.create CURRENT_TIMESTAMP todo_id
                     (JsString.trim title) nextPosition ;;
        ret (Json 201 subtask)
      end
      end
  end.

End Env.

(** The JSON body of [PUT /api/subtasks/[id]], at the three keys and the
    types that [subtaskDB.update] declares; an absent key is [None]. *)
Module Body.
Record t : Type := mk {
  title : option string;
  completed : option Z;
  position : option Z
}.
End Body.

(** [PUT /api/subtasks/[id]]; [id] is [Number(id)] of the path parameter,
    [None] when that is not an integer (no row has such an id). *)
Definition PUT (session : option Session) (id : option Z) (body : Body.t)
  : M (Response (option Subtask.t)) :=
  match session with
  | None => ret (JsonError 401 "Not authenticated")
  | Some session =>
      match id with
      | None => ret (JsonError 404 "Subtask not found")
      | Some id =>
      subtask <- gets (Db.subtaskDB.findById id) ;;
      match subtask with
      | None => ret (JsonError 404 "Subtask not found")
      | Some subtask =>
      todo <- gets (Db.todoDB.findById (Subtask.todo_id subtask)) ;;
      if negb (ownedBy session todo)
      then ret (JsonError 403 "Unauthorized")
      else if match Body.title body with
              | Some title =>
                  (JsString.length (JsString.trim title) =? 0) ||
                  (200 <? JsString.length title)
              | None => false
              end
      then ret (JsonError 400 "Title must be 1-200 characters")
      else if match Body.completed body with
              | Some completed => negb (completed =? 0) && negb (completed =? 1)
              | None => false
              end
      then ret (JsonError 400 "Completed must be 0 or 1")
      else
        updated <- DbCrud.subtaskDB.update id
                     (DbCrud.subtaskDB.mkUpdateData (Body.title body)
                        (Body.completed body) (Body.position body)) ;;
        ret (Json 200 updated)
      end
      end
  end.

(** [remaining.forEach((s, index) => ...)]: a subtask whose position is
    not its index is moved there. *)
Fixpoint closeGaps (index : Z) (remaining : list Subtask.t) : M unit :=
  match remaining with
  | nil => ret tt
  | (s :: rest)%list =>
      (if negb (Subtask.position s =? index)
       then DbCrud.subtaskDB.update (Subtask.id s)
              (DbCrud.subtaskDB.mkUpdateData None None (Some index)) ;;;
            ret tt
       else ret tt) ;;;
      closeGaps (index + 1) rest
  end.

(** [remaining.sort((a, b) => a.position - b.position)]; the sort is
    stable. *)
Definition sortByPosition (l : list Subtask.t) : list Subtask.t :=
  orderBy (fun a b => Subtask.position a <=? Subtask.position b) l.

(** [DELETE /api/subtasks/[id]] *)
Definition DELETE (session : option Session) (id : option Z)
  : M (Response bool) :=
  match session with
  | None => ret (JsonError 401 "Not authenticated")
  | Some session =>
      match id with
      | None => ret (JsonError 404 "Subtask not found")
      | Some id =>
      subtask <- gets (Db.subtaskDB.findById id) ;;
      match subtask with
      | None => ret (JsonError 404 "Subtask not found")
      | Some subtask =>
      todo <- gets (Db.todoDB.findById (Subtask.todo_id subtask)) ;;
      if negb (ownedBy session todo)
      then ret (JsonError 403 "Unauthorized")
      else
        let todoId := Subtask.todo_id subtask in
        DbCrud.subtaskDB.delete id ;;;
        remaining <- gets (Db.subtaskDB.findByTodo todoId) ;;
        closeGaps 0 (sortByPosition remaining) ;;;
        ret (Json 200 true)
      end
      end
  end.

(** The JSON body of [POST /api/subtasks/reorder]; a field that is not a
    number is [None], and the numbers are integers. *)
Module ReorderBody.
Record t : Type := mk {
  subtask_id : option Z;
  new_position : option Z
}.
End ReorderBody.

(** The callbacks of the two [allSubtasks.forEach] of the reorder. *)
Fixpoint shiftBetween (movingDown : bool) (subtask_id oldPosition new_position : Z)
    (allSubtasks : list Subtask.t) : M unit :=
  match allSubtasks with
  | nil => ret tt
  | (s :: rest)%list =>
      (if Subtask.id s =? subtask_id
       then DbCrud.subtaskDB.update (Subtask.id s)
              (DbCrud.subtaskDB.mkUpdateData None None (Some new_position)) ;;;
            ret tt
       else if movingDown
       then
         if (oldPosition <? Subtask.position s) &&
            (Subtask.position s <=? new_position)
         then DbCrud.subtaskDB.update (Subtask.id s)
                (DbCrud.subtaskDB.mkUpdateData None None
                   (Some (Subtask.position s - 1))) ;;;
              ret tt
         else ret tt
       else
         if (new_position <=? Subtask.position s) &&
            (Subtask.position s <? oldPosition)
         then DbCrud.subtaskDB.update (Subtask.id s)
                (DbCrud.subtaskDB.mkUpdateData None None
                   (Some (Subtask.position s + 1))) ;;;
              ret tt
         else ret tt) ;;;
      shiftBetween movingDown subtask_id oldPosition new_position rest
  end.

(** [POST /api/subtasks/reorder] *)
Definition reorder (session : option Session) (body : ReorderBody.t)
  : M (Response bool) :=
  match session with
  | None => ret (JsonError 401 "Not authenticated")
  | Some session =>
      match ReorderBody.subtask_id body, ReorderBody.new_position body with
      | Some subtask_id, Some new_position =>
      subtask <- gets (Db.subtaskDB.findById subtask_id) ;;
      match subtask with
      | None => ret (JsonError 404 "Subtask not found")
      | Some subtask =>
      todo <- gets (Db.todoDB.findById (Subtask.todo_id subtask)) ;;
      if negb (ownedBy session todo)
      then ret (JsonError 403 "Unauthorized")
      else
        allSubtasks <- gets (Db.subtaskDB.findByTodo (Subtask.todo_id subtask)) ;;
        if (new_position <? 0) ||
           (Z.of_nat (List.length allSubtasks) <=? new_position)
        then ret (JsonError 400 "Invalid position")
        else
          let oldPosition := Subtask.position subtask in
          if oldPosition =? new_position then ret (Json 200 true)
          else
            shiftBetween (oldPosition <? new_position) subtask_id oldPosition
                         new_position allSubtasks ;;;
            ret (Json 200 true)
      end
      | _, _ => ret (JsonError 400 "Invalid subtask_id or new_position")
      end
  end.

End Subtasks.

(* --------------------------------------------------------------------- *)
(** *** [app/api/todos/[id]/tags/route.ts] *)

Module TodoTags.

Import Db.

(** The payload [{ todo: { ...todo, tags } }]. *)
Module Payload.
Record t : Type := mk {
  todo : Todo.t;
  tags : list DbCrud.Tag.t
}.
End Payload.

Section Env.

Variable CURRENT_TIMESTAMP : string.
Variable tags : list DbCrud.Tag.t.

(** The loop [for (const tagId of tag_ids)]: the first tag that is not
    there or not the user's. *)
Definition firstForeignTag (session : Session) (tag_ids : list Z) : option Z :=
  find (fun tagId =>
          match DbCrud.todoDB.tagDB_findById tags tagId with
          | Some tag => negb (DbCrud.Tag.user_id tag =? userId session)
          | None => true
          end)
       tag_ids.

(** [existingTags.forEach(tag => todoDB.removeTag(todo.id, tag.id))] *)
Fixpoint removeAll (todoId : Z) (existingTags : list DbCrud.Tag.t) : M unit :=
  match existingTags with
  | nil => ret tt
  | (tag :: rest)%list =>
      DbCrud.todoDB.removeTag todoId (DbCrud.Tag.id tag) ;;;
      removeAll todoId rest
  end.

(** [tag_ids.forEach(tagId => todoDB.addTag(todo.id, tagId))] *)
Fixpoint addAll (todoId : Z) (tag_ids : list Z) : M unit :=
  match tag_ids with
  | nil => ret tt
  | (tagId :: rest)%list =>
      DbCrud.todoDB.addTag CURRENT_TIMESTAMP tags todoId tagId ;;;
      addAll todoId rest
  end.

(** [POST /api/todos/[id]/tags]; [id] is [Number(id)] of the path
    parameter, [None] when that is not an integer, and [tag_ids] is [None]
    when the body holds no array there. *)
Definition POST (session : option Session) (id : option Z)
    (tag_ids : option (list Z)) : M (Response Payload.t) :=
  match session with
  | None => ret (JsonError 401 "Not authenticated")
  | Some session =>
      todo <- gets (fun st => match id with
                              | Some id => Db.todoDB.findById id st
                              | None => None
                              end) ;;
      match todo with
      | None => ret (JsonError 404 "Todo not found")
      | Some todo =>
      if negb (Todo.user_id todo =? userId session)
      then ret (JsonError 404 "Todo not found")
      else
      match tag_ids with
      | None => ret (JsonError 400 "tag_ids must be an array")
      | Some tag_ids =>
      match firstForeignTag session tag_ids with
      | Some tagId =>
          ret (JsonError 404 ("Tag " ++ JsNumber.toString tagId ++
                              " not found or not accessible"))
      | None =>
          DbCrud.todoDB.removeTag (Todo.id todo) (-1) ;;;
          existingTags <- gets (DbCrud.todoDB.getTags tags (Todo.id todo)) ;;
          removeAll (Todo.id todo) existingTags ;;;
          addAll (Todo.id todo) tag_ids ;;;
          assigned <- gets (DbCrud.todoDB.getTags tags (Todo.id todo)) ;;
          ret (Json 200 (Payload.mk todo assigned))
      end
      end
      end
  end.

End Env.

End TodoTags.

(* ===================================================================== *)
(** ** Vocabulary of the further statements *)
(* ===================================================================== *)

(** Definitions that only the statements and proofs below use; none of
    them is part of the program. *)
Module Shape.

Import Db.

(** The occurrences number [first], [first + 1], ... of a todo that moves
    [unit] days at a time, from the time value [t], as a process in the
    zone of Singapore prints them. *)
Definition occurrencesFrom (t unit : Z) (first : nat) (n : nat) : list string :=
  map (fun i => DateFns.format_valid DateFns.SINGAPORE_OFFSET
                  (t + Z.of_nat i * (unit * JsDate.msPerDay)))
      (seq first n).

(** A subtask moved to position [p]. *)
Definition setPosition (p : Z) (s : Subtask.t) : Subtask.t :=
  Subtask.mk (Subtask.id s) (Subtask.todo_id s) (Subtask.title s)
             (Subtask.completed s) p (Subtask.created_at s).

(** The subtasks of [l] in the same order, at the positions [i], [i + 1],
    [i + 2], ... *)
Fixpoint reindex (i : Z) (l : list Subtask.t) : list Subtask.t :=
  match l with
  | nil => nil
  | (s :: r)%list => (setPosition i s :: reindex (i + 1) r)%list
  end.

(** The subtasks of [l] are at the positions 0, 1, 2, ... in this order. *)
Definition numbered (l : list Subtask.t) : Prop := reindex 0 l = l.

(** Each row of [subtasks] whose id is listed in [targets] moved to the
    position listed with it. *)
Definition reposition (targets : list (Z * Z)) (s : Subtask.t) : Subtask.t :=
  match find (fun e => fst e =? Subtask.id s) targets with
  | Some e => setPosition (snd e) s
  | None => s
  end.

(** The ids of [l] with the positions [i], [i + 1], ... *)
Fixpoint indexTargets (i : Z) (l : list Subtask.t) : list (Z * Z) :=
  match l with
  | nil => nil
  | (s :: r)%list => ((Subtask.id s, i) :: indexTargets (i + 1) r)%list
  end.

(** Where a reorder that moves the subtask at [oldPosition] to
    [new_position] puts the subtask at position [p]. *)
Definition shiftedPosition (oldPosition new_position p : Z) : Z :=
  if p =? oldPosition then new_position
  else if oldPosition <? new_position
  then (if (oldPosition <? p) && (p <=? new_position) then p - 1 else p)
  else (if (new_position <=? p) && (p <? oldPosition) then p + 1 else p).

End Shape.

(* ===================================================================== *)
(** * Properties *)
(* ===================================================================== *)

(** ** The calendar conversions are inverse to each other *)

Module CalendarFacts.

Import Calendar.

Lemma isLeapYear_cases y :
  (isLeapYear y = true /\ ((y mod 4 = 0 /\ y mod 100 <> 0) \/ y mod 400 = 0)) \/
  (isLeapYear y = false /\ (y mod 4 <> 0 \/ y mod 100 = 0) /\ y mod 400 <> 0).
Proof.
  unfold isLeapYear.
  destruct (Z.eqb_spec (y mod 4) 0), (Z.eqb_spec (y mod 100) 0),
    (Z.eqb_spec (y mod 400) 0); simpl; lia.
Qed.

Lemma daysInMonth_cases y m :
  1 <= m <= 12 ->
  (m = 2 /\ daysInMonth y m = if isLeapYear y then 29 else 28) \/
  ((m = 4 \/ m = 6 \/ m = 9 \/ m = 11) /\ daysInMonth y m = 30) \/
  ((m = 1 \/ m = 3 \/ m = 5 \/ m = 7 \/ m = 8 \/ m = 10 \/ m = 12) /\
   daysInMonth y m = 31).
Proof.
  intros H. unfold daysInMonth.
  destruct (Z.eqb_spec m 2), (Z.eqb_spec m 4), (Z.eqb_spec m 6),
    (Z.eqb_spec m 9), (Z.eqb_spec m 11); simpl; lia.
Qed.

Lemma daysInMonth_bounds y m : 28 <= daysInMonth y m <= 31.
Proof.
  unfold daysInMonth.
  destruct (m =? 2); [destruct (isLeapYear y); lia|].
  destruct ((m =? 4) || (m =? 6) || (m =? 9) || (m =? 11)); lia.
Qed.

(** Every day of an era falls in one of its 400 years; the year has 365
    days, or 366 when the February that ends it is in a leap year. *)
Lemma yearOfEra_spec era doe :
  0 <= doe < 146097 ->
  let yoe := yearOfEra doe in
  let doy := doe - startOfYear yoe in
  0 <= yoe <= 399 /\
  0 <= doy <= 364 + (if isLeapYear (yoe + era * 400 + 1) then 1 else 0).
Proof.
  intros H yoe doy. subst yoe doy. unfold yearOfEra, startOfYear.
  destruct (isLeapYear_cases
    ((doe - doe / 1460 + doe / 36524 - doe / 146096) / 365 + era * 400 + 1))
    as [[-> Hl]|[-> Hl]];
  Z.to_euclidean_division_equations; lia.
Qed.

Lemma yearOfEra_unique era yoe doy :
  0 <= yoe <= 399 ->
  0 <= doy <= 364 + (if isLeapYear (yoe + era * 400 + 1) then 1 else 0) ->
  0 <= startOfYear yoe + doy < 146097 /\
  yearOfEra (startOfYear yoe + doy) = yoe.
Proof.
  intros Hy Hd. unfold yearOfEra, startOfYear.
  destruct (isLeapYear_cases (yoe + era * 400 + 1)) as [[E Hl]|[E Hl]];
    rewrite E in Hd;
    Z.to_euclidean_division_equations; lia.
Qed.

Lemma monthOfDoy_spec y doy :
  0 <= doy <= 364 + (if isLeapYear (y + 1) then 1 else 0) ->
  let m := monthOfDoy doy in
  let d := dayOfDoy doy in
  1 <= m <= 12 /\ 1 <= d <= daysInMonth (if m <=? 2 then y + 1 else y) m /\
  doyOf m d = doy.
Proof.
  intros H m d. subst m d. unfold monthOfDoy, dayOfDoy, doyOf.
  assert (Hmp : 0 <= (5 * doy + 2) / 153 <= 11).
  { destruct (isLeapYear (y + 1)); Z.to_euclidean_division_equations; lia. }
  set (mp := (5 * doy + 2) / 153) in *.
  assert (Hmpd : 153 * mp <= 5 * doy + 2 < 153 * mp + 153).
  { subst mp. Z.to_euclidean_division_equations; lia. }
  destruct (Z.ltb_spec mp 10) as [Hlt|Hge].
  - destruct (Z.leb_spec (mp + 3) 2); [lia|].
    destruct (Z.ltb_spec 2 (mp + 3)); [|lia].
    replace (mp + 3 - 3) with mp by lia.
    destruct (daysInMonth_cases y (mp + 3)) as [[? ->]|[[? ->]|[? ->]]]; try lia;
      Z.to_euclidean_division_equations; lia.
  - destruct (Z.leb_spec (mp - 9) 2); [|lia].
    destruct (Z.ltb_spec 2 (mp - 9)); [lia|].
    replace (mp - 9 + 9) with mp by lia.
    destruct (daysInMonth_cases (y + 1) (mp - 9)) as [[? ->]|[[? ->]|[? ->]]];
      try lia;
      destruct (isLeapYear (y + 1)); Z.to_euclidean_division_equations; lia.
Qed.

Lemma doyOf_spec y m d :
  validCivil y m d ->
  let doy := doyOf m d in
  0 <= doy <= 364 + (if isLeapYear ((if m <=? 2 then y - 1 else y) + 1)
                     then 1 else 0) /\
  monthOfDoy doy = m /\ dayOfDoy doy = d.
Proof.
  intros [Hm Hd] doy. subst doy. unfold monthOfDoy, dayOfDoy, doyOf.
  destruct (Z.leb_spec m 2) as [Hle|Hgt].
  - destruct (Z.ltb_spec 2 m); [lia|].
    replace (y - 1 + 1) with y by lia.
    assert (m = 1 \/ m = 2) as [->| ->] by lia.
    + change (daysInMonth y 1) with 31 in Hd.
      change ((153 * (1 + 9) + 2) / 5) with 306.
      assert ((5 * (306 + d - 1) + 2) / 153 = 10) as ->
        by (Z.to_euclidean_division_equations; lia).
      change (10 <? 10) with false. cbv iota.
      change ((153 * 10 + 2) / 5) with 306.
      destruct (isLeapYear y); lia.
    + change (daysInMonth y 2) with (if isLeapYear y then 29 else 28) in Hd.
      change ((153 * (2 + 9) + 2) / 5) with 337.
      assert ((5 * (337 + d - 1) + 2) / 153 = 11) as ->
        by (destruct (isLeapYear y); Z.to_euclidean_division_equations; lia).
      change (11 <? 10) with false. cbv iota.
      change ((153 * 11 + 2) / 5) with 337.
      destruct (isLeapYear y); lia.
  - destruct (Z.ltb_spec 2 m); [|lia].
    assert (Hmp : (5 * ((153 * (m - 3) + 2) / 5 + d - 1) + 2) / 153 = m - 3).
    { destruct (daysInMonth_cases y m) as [[? E]|[[? E]|[? E]]]; try lia;
        rewrite E in Hd; Z.to_euclidean_division_equations; lia. }
    rewrite Hmp.
    destruct (Z.ltb_spec (m - 3) 10); [|lia].
    split; [|split; lia].
    destruct (daysInMonth_cases y m) as [[? E]|[[? E]|[? E]]]; try lia;
      rewrite E in Hd;
      destruct (isLeapYear (y + 1)); Z.to_euclidean_division_equations; lia.
Qed.

(** The civil date of a day number is a valid date, and converts back to
    the day number. *)
Lemma civil_from_days_spec z :
  let '(y, m, d) := civil_from_days z in
  validCivil y m d /\ days_from_civil y m d = z.
Proof.
  unfold civil_from_days.
  set (z' := z + 719468).
  set (era := z' / 146097). set (doe := z' mod 146097).
  assert (Hdoe : 0 <= doe < 146097) by (apply Z.mod_pos_bound; lia).
  assert (Hz : z' = 146097 * era + doe) by (apply Z.div_mod; lia).
  destruct (yearOfEra_spec era doe Hdoe) as [Hyoe Hdoy].
  set (yoe := yearOfEra doe) in *.
  set (doy := doe - startOfYear yoe) in *.
  destruct (monthOfDoy_spec (yoe + era * 400) doy Hdoy) as (Hm & Hd & Hback).
  set (m := monthOfDoy doy) in *. set (d := dayOfDoy doy) in *.
  split; [split; assumption|].
  unfold days_from_civil.
  assert (Hy : (if m <=? 2
                then (if m <=? 2 then yoe + era * 400 + 1 else yoe + era * 400) - 1
                else (if m <=? 2 then yoe + era * 400 + 1 else yoe + era * 400))
               = yoe + era * 400)
    by (destruct (m <=? 2); lia).
  rewrite Hy, Hback.
  replace ((yoe + era * 400) / 400) with era
    by (Z.to_euclidean_division_equations; lia).
  replace ((yoe + era * 400) mod 400) with yoe
    by (Z.to_euclidean_division_equations; lia).
  subst doy z'. lia.
Qed.

(** The day number of a valid civil date converts back to the date. *)
Lemma civil_from_days_from_civil y m d :
  validCivil y m d -> civil_from_days (days_from_civil y m d) = (y, m, d).
Proof.
  intros Hv. unfold days_from_civil.
  set (y' := if m <=? 2 then y - 1 else y).
  set (era := y' / 400). set (yoe := y' mod 400).
  assert (Hyoe : 0 <= yoe < 400) by (apply Z.mod_pos_bound; lia).
  assert (Hy' : y' = 400 * era + yoe) by (apply Z.div_mod; lia).
  destruct (doyOf_spec y m d Hv) as (Hdoy & Hm & Hd).
  fold y' in Hdoy. rewrite Hy' in Hdoy.
  replace (400 * era + yoe + 1) with (yoe + era * 400 + 1) in Hdoy by lia.
  destruct (yearOfEra_unique era yoe (doyOf m d) ltac:(lia) Hdoy) as [Hr Hu].
  unfold civil_from_days.
  replace (era * 146097 + (startOfYear yoe + doyOf m d) - 719468 + 719468)
    with (startOfYear yoe + doyOf m d + era * 146097) by lia.
  rewrite Z.div_add by lia. rewrite Z.mod_add by lia.
  rewrite (Z.div_small _ _ Hr), (Z.mod_small _ _ Hr).
  rewrite Hu.
  replace (startOfYear yoe + doyOf m d - startOfYear yoe) with (doyOf m d) by lia.
  rewrite Hm, Hd. f_equal. f_equal.
  subst y'. destruct (m <=? 2); lia.
Qed.

End CalendarFacts.

(** ** Time values and their fields *)

Module JsDateFacts.

Import Calendar JsDate.

Lemma days_from_civil_day y m d :
  days_from_civil y m d = days_from_civil y m 1 + d - 1.
Proof. unfold days_from_civil, doyOf. lia. Qed.

Lemma MakeDay_civil y m d :
  1 <= m <= 12 -> MakeDay y (m - 1) d = days_from_civil y m d.
Proof.
  intros Hm. unfold MakeDay.
  rewrite (Z.div_small (m - 1) 12), (Z.mod_small (m - 1) 12) by lia.
  rewrite (days_from_civil_day y m d).
  replace (y + 0) with y by lia. replace (m - 1 + 1) with m by lia. lia.
Qed.

(** A month index outside 0..11 carries into the year. *)
Lemma MakeDay_carry y month d :
  MakeDay y month d = days_from_civil (y + month / 12) (month mod 12 + 1) d.
Proof.
  unfold MakeDay. rewrite (days_from_civil_day _ _ d). lia.
Qed.

Lemma civil_fields t :
  civil_from_days (Day t) = (YearFromTime t, MonthFromTime t + 1, DateFromTime t).
Proof.
  unfold YearFromTime, MonthFromTime, DateFromTime.
  destruct (civil_from_days (Day t)) as [[y m] d]. f_equal. f_equal. lia.
Qed.

Lemma fields_valid t :
  validCivil (YearFromTime t) (MonthFromTime t + 1) (DateFromTime t).
Proof.
  pose proof (H := CalendarFacts.civil_from_days_spec (Day t)).
  rewrite civil_fields in H. tauto.
Qed.

Lemma MakeDay_fields t :
  MakeDay (YearFromTime t) (MonthFromTime t) (DateFromTime t) = Day t.
Proof.
  pose proof (H := CalendarFacts.civil_from_days_spec (Day t)).
  rewrite civil_fields in H. destruct H as [[Hm Hd] Hback].
  replace (MonthFromTime t) with (MonthFromTime t + 1 - 1) at 1 by lia.
  rewrite MakeDay_civil by assumption. exact Hback.
Qed.

Lemma Day_TimeWithinDay t :
  t = Day t * msPerDay + TimeWithinDay t /\ 0 <= TimeWithinDay t < msPerDay.
Proof.
  unfold Day, TimeWithinDay, msPerDay. split.
  - rewrite Z.mul_comm. apply Z.div_mod. lia.
  - apply Z.mod_pos_bound. lia.
Qed.

Lemma Day_MakeDate day time :
  0 <= time < msPerDay ->
  Day (MakeDate day time) = day /\ TimeWithinDay (MakeDate day time) = time.
Proof.
  unfold Day, TimeWithinDay, MakeDate, msPerDay. intros H.
  Z.to_euclidean_division_equations; lia.
Qed.

Lemma MakeTime_fields t :
  MakeTime (HourFromTime t) (MinFromTime t) (SecFromTime t) (msFromTime t)
  = TimeWithinDay t.
Proof.
  unfold MakeTime, HourFromTime, MinFromTime, SecFromTime, msFromTime,
    TimeWithinDay, msPerHour, msPerMinute, msPerSecond, msPerDay.
  Z.to_euclidean_division_equations; lia.
Qed.

Lemma time_fields_of_day t :
  HourFromTime t = TimeWithinDay t / msPerHour /\
  MinFromTime t = (TimeWithinDay t / msPerMinute) mod 60 /\
  SecFromTime t = (TimeWithinDay t / msPerSecond) mod 60.
Proof.
  unfold HourFromTime, MinFromTime, SecFromTime, TimeWithinDay,
    msPerHour, msPerMinute, msPerSecond, msPerDay.
  repeat split; Z.to_euclidean_division_equations; lia.
Qed.

End JsDateFacts.

(** ** The date arithmetic of [date-fns] *)

Module DateFnsFacts.

Import Calendar JsDate DateFns.

Ltac month_case :=
  repeat match goal with
    | |- context [?a mod 12] =>
        let v := eval vm_compute in (a mod 12) in change (a mod 12) with v
    | |- context [?a / 12] =>
        let v := eval vm_compute in (a / 12) in change (a / 12) with v
    end;
  cbn -[Z.mul Z.div Z.modulo];
  Z.to_euclidean_division_equations; lia.

(** The first day of the month after month [m] of year [y]. *)
Lemma days_from_civil_next_month y m :
  1 <= m <= 12 ->
  days_from_civil (y + m / 12) (m mod 12 + 1) 1
  = days_from_civil y m 1 + daysInMonth y m.
Proof.
  intros Hm.
  assert (m = 1 \/ m = 2 \/ m = 3 \/ m = 4 \/ m = 5 \/ m = 6 \/ m = 7 \/
          m = 8 \/ m = 9 \/ m = 10 \/ m = 11 \/ m = 12) as Hc by lia.
  unfold days_from_civil, startOfYear, doyOf, daysInMonth.
  destruct (CalendarFacts.isLeapYear_cases y) as [[E Hl]|[E Hl]]; rewrite E;
  repeat (destruct Hc as [->|Hc]; [month_case|]);
  subst m; month_case.
Qed.

(** A local time assembled from a valid civil date and a time of day reads
    back as that date and time. *)
Lemma fields_of_MakeDate y m d time :
  validCivil y m d -> 0 <= time < msPerDay ->
  let t := MakeDate (days_from_civil y m d) time in
  YearFromTime t = y /\ MonthFromTime t = m - 1 /\ DateFromTime t = d /\
  TimeWithinDay t = time.
Proof.
  intros Hv Ht t. subst t.
  destruct (JsDateFacts.Day_MakeDate (days_from_civil y m d) time Ht) as [HD HT].
  unfold YearFromTime, MonthFromTime, DateFromTime.
  rewrite HD, (CalendarFacts.civil_from_days_from_civil y m d Hv).
  repeat split; solve [lia | exact HT].
Qed.

Section LocalZone.

Variable LocalTZA : Z.

Lemma LocalTime_UTC t : LocalTime LocalTZA (UTC LocalTZA t) = t.
Proof. unfold LocalTime, UTC. lia. Qed.

(** [toZonedTime] moves the time value by the difference between the
    offset of Singapore and the offset of the local zone. *)
Lemma toZonedTime_valid_shift date :
  toZonedTime_valid LocalTZA date = date + (SINGAPORE_OFFSET - LocalTZA).
Proof.
  unfold toZonedTime_valid, getTime, getUTCFullYear, getUTCMonth, getUTCDate,
    getUTCHours, getUTCMinutes, getUTCSeconds, getUTCMilliseconds.
  set (d := date + SINGAPORE_OFFSET).
  unfold setHours, setFullYear.
  rewrite LocalTime_UTC, JsDateFacts.MakeDay_fields, JsDateFacts.MakeTime_fields.
  destruct (JsDateFacts.Day_TimeWithinDay (LocalTime LocalTZA 0)) as [_ Hb].
  destruct (JsDateFacts.Day_MakeDate (Day d) _ Hb) as [-> _].
  destruct (JsDateFacts.Day_TimeWithinDay d) as [Hd _].
  unfold UTC, MakeDate. subst d. lia.
Qed.

(** [addDays] moves the time value by whole days. *)
Lemma addDays_shift date amount :
  addDays LocalTZA date amount = date + amount * msPerDay.
Proof.
  unfold addDays. destruct (Z.eqb_spec amount 0) as [->|Hne]; [lia|].
  unfold setDate, getDate.
  set (t := LocalTime LocalTZA date).
  pose proof (JsDateFacts.MakeDay_fields t) as HM.
  unfold MakeDay in *.
  destruct (JsDateFacts.Day_TimeWithinDay t) as [Ht _].
  unfold UTC, MakeDate. subst t. unfold LocalTime in *. lia.
Qed.

Lemma addWeeks_shift date amount :
  addWeeks LocalTZA date amount = date + amount * 7 * msPerDay.
Proof. unfold addWeeks. apply addDays_shift. Qed.

(** [addMonths] lands in the month [amount] months later, on the same day
    of the month or, when that month is shorter, on its last day, at the
    same time of day. *)
Lemma addMonths_local date amount :
  let t := LocalTime LocalTZA date in
  let y := YearFromTime t in
  let m := MonthFromTime t + 1 in
  let d := DateFromTime t in
  let y' := y + (m + amount - 1) / 12 in
  let m' := (m + amount - 1) mod 12 + 1 in
  LocalTime LocalTZA (addMonths LocalTZA date amount)
  = MakeDate (days_from_civil y' m' (Z.min d (daysInMonth y' m')))
             (TimeWithinDay t).
Proof.
  intros t y m d y' m'.
  destruct (JsDateFacts.fields_valid t) as [Hm Hd]. fold y m d in Hm, Hd.
  destruct (JsDateFacts.Day_TimeWithinDay t) as [Ht Htod].
  assert (Hm' : 1 <= m' <= 12)
    by (subst m'; Z.to_euclidean_division_equations; lia).
  unfold addMonths.
  destruct (Z.eqb_spec amount 0) as [->|Hne].
  - (* no month added: the date itself *)
    assert (y' = y) as -> by (subst y'; Z.to_euclidean_division_equations; lia).
    assert (m' = m) as -> by (subst m'; Z.to_euclidean_division_equations; lia).
    rewrite Z.min_l by lia.
    rewrite <- (JsDateFacts.MakeDay_civil y m d Hm).
    subst y m d. replace (MonthFromTime t + 1 - 1) with (MonthFromTime t) by lia.
    rewrite JsDateFacts.MakeDay_fields. unfold MakeDate. lia.
  - (* the last day of the desired month *)
    assert (Hend : LocalTime LocalTZA
                     (setMonth LocalTZA date (getMonth LocalTZA date + amount + 1) 0)
                   = MakeDate (days_from_civil y' m' (daysInMonth y' m'))
                              (TimeWithinDay t)).
    { unfold setMonth, getMonth. rewrite LocalTime_UTC. fold t. f_equal.
      fold y. replace (MonthFromTime t + amount + 1) with (m + amount) by (subst m; lia).
      rewrite JsDateFacts.MakeDay_carry, JsDateFacts.days_from_civil_day.
      rewrite (JsDateFacts.days_from_civil_day y' m' (daysInMonth y' m')).
      rewrite <- (days_from_civil_next_month y' m' Hm').
      replace (y + (m + amount) / 12) with (y' + m' / 12)
        by (subst y' m'; Z.to_euclidean_division_equations; lia).
      replace ((m + amount) mod 12 + 1) with (m' mod 12 + 1)
        by (subst m'; Z.to_euclidean_division_equations; lia).
      lia. }
    set (e := setMonth LocalTZA date (getMonth LocalTZA date + amount + 1) 0) in *.
    assert (Hv : validCivil y' m' (daysInMonth y' m')).
    { split; [exact Hm'|]. pose proof (CalendarFacts.daysInMonth_bounds y' m'). lia. }
    destruct (fields_of_MakeDate y' m' _ _ Hv Htod) as (Ey & Em & Ed & _).
    rewrite <- Hend in Ey, Em, Ed.
    unfold getDate, getFullYear, getMonth. fold t. fold d. rewrite Ey, Em, Ed.
    destruct (Z.leb_spec (daysInMonth y' m') d) as [Hle|Hgt].
    + rewrite Z.min_r by lia. exact Hend.
    + rewrite Z.min_l by lia. unfold setFullYear. rewrite LocalTime_UTC.
      fold t. rewrite JsDateFacts.MakeDay_civil by exact Hm'. reflexivity.
Qed.

End LocalZone.

End DateFnsFacts.

(** ** The reminder evaluator *)

Module ReminderFacts.

Import Db NotificationsCheck.

(** The quotient [(now - lastSent) / (60 * 1000) < 5], on integers. *)
Lemma minutesSince_lt_5 (x : Z) :
  Qltb (inject_Z x / inject_Z (60 * 1000))%Q (inject_Z 5) = (x <? 300000).
Proof.
  change (60 * 1000) with 60000.
  unfold Qltb, Qle_bool, Qdiv, Qmult, Qinv, inject_Z. cbn -[Z.mul Z.leb Z.ltb].
  rewrite Z.ltb_antisym. f_equal. f_equal. lia.
Qed.

(** [Math.round] of a quotient by [60 * 1000], on integers. *)
Lemma Math_round_minutes (x : Z) :
  Math_round (inject_Z x / inject_Z (60 * 1000))%Q = (2 * x + 60000) / 120000.
Proof.
  change (60 * 1000) with 60000.
  unfold Math_round, Qfloor, Qplus, Qdiv, Qmult, Qinv, inject_Z.
  cbn -[Z.mul Z.div]. f_equal. lia.
Qed.

Lemma Math_round_minutes_bounds (x rm : Z) :
  0 < x <= rm * 60 * 1000 ->
  0 <= (2 * x + 60000) / 120000 <= rm.
Proof. intros H. Z.to_euclidean_division_equations; lia. Qed.

Section LocalZone.

Variable LocalTZA : Z.

(** What the filter callback accepts. *)
Lemma reminderFilter_true now t :
  reminderFilter LocalTZA now t = true <->
  Todo.completed t = 0 /\
  exists rm due,
    Todo.reminder_minutes t = Some rm /\ rm <> 0 /\
    JsDate.parse LocalTZA (Todo.due_date t) = Some due /\
    due - rm * 60 * 1000 <= now < due /\
    match JsValue.orNullString (Todo.last_notification_sent t) with
    | None => True
    | Some s =>
        match JsDate.parse LocalTZA s with
        | None => True
        | Some lastSent => 300000 <= now - lastSent
        end
    end.
Proof.
  unfold reminderFilter, JsDate.getTime.
  destruct (Z.eqb_spec (Todo.completed t) 0) as [Hc|Hc]; simpl;
    [|split; [discriminate|intros [? _]; contradiction]].
  destruct (Todo.reminder_minutes t) as [rm|]; simpl;
    [|split; [discriminate|intros (_ & ? & ? & ? & _); discriminate]].
  destruct (Z.eqb_spec rm 0) as [Hz|Hz];
    [split; [discriminate|intros (_ & ? & ? & E & ? & _); congruence]|].
  destruct (JsDate.parse LocalTZA (Todo.due_date t)) as [due|];
    [|split; [discriminate|intros (_ & ? & ? & _ & _ & ? & _); discriminate]].
  destruct (Z.leb_spec (due - rm * 60 * 1000) now) as [H1|H1]; simpl;
    [|split; [discriminate|intros (_ & ? & ? & E1 & _ & E2 & ? & _);
                            injection E1 as <-; injection E2 as <-; lia]].
  destruct (Z.ltb_spec now due) as [H2|H2]; simpl;
    [|split; [discriminate|intros (_ & ? & ? & E1 & _ & E2 & ? & _);
                            injection E1 as <-; injection E2 as <-; lia]].
  destruct (JsValue.orNullString (Todo.last_notification_sent t)) as [s|].
  - destruct (JsDate.parse LocalTZA s) as [lastSent|].
    + rewrite minutesSince_lt_5.
      destruct (Z.ltb_spec (now - lastSent) 300000) as [H3|H3].
      * split; [discriminate|].
        intros (_ & ? & ? & _ & _ & _ & _ & ?). lia.
      * split; [|reflexivity]. intros _. split; [exact Hc|].
        exists rm, due. repeat split; solve [assumption | lia].
    + split; [|reflexivity]. intros _. split; [exact Hc|].
      exists rm, due. repeat split; solve [assumption | lia].
  - split; [|reflexivity]. intros _. split; [exact Hc|].
    exists rm, due. repeat split; solve [assumption | lia].
Qed.

Lemma dueReminders_In now todos r :
  In r (dueReminders LocalTZA now todos) <->
  exists t, In t todos /\ reminderFilter LocalTZA now t = true /\
            r = reminderEntry LocalTZA now t.
Proof.
  unfold dueReminders. rewrite in_map_iff. split.
  - intros (t & <- & Hin). apply filter_In in Hin as [Hin Hf]. eauto.
  - intros (t & Hin & Hf & ->). exists t. split; [reflexivity|].
    apply filter_In. auto.
Qed.

Lemma dueReminders_todo_In now todos t :
  In t (map todo (dueReminders LocalTZA now todos)) <->
  In t todos /\ reminderFilter LocalTZA now t = true.
Proof.
  rewrite in_map_iff. split.
  - intros (r & <- & Hr). apply dueReminders_In in Hr as (t' & Hin & Hf & ->).
    simpl. auto.
  - intros [Hin Hf]. exists (reminderEntry LocalTZA now t). split; [reflexivity|].
    apply dueReminders_In. eauto.
Qed.

Lemma markSent_returns stamp rs :
  forall st, exists st', markSent stamp rs st = (Return tt, st').
Proof.
  induction rs as [|r rest IH]; intros st; simpl.
  - eexists. reflexivity.
  - unfold bind, Db.todoDB.update. simpl. apply IH.
Qed.

(** An authenticated check answers with the reminders of the user's
    todos at the zoned current time. *)
Lemma GET_reminders session clock st :
  exists st',
    GET LocalTZA (Some session) clock st
    = (Return (Json 200
         (dueReminders LocalTZA (Timezone.getSingaporeNow LocalTZA clock)
            (Db.todoDB.findByUser (userId session) st))), st').
Proof.
  unfold GET, tryCatch, bind, gets. simpl.
  destruct (markSent_returns
              (Timezone.formatSingaporeDate LocalTZA
                 (Timezone.getSingaporeNow LocalTZA clock))
              (dueReminders LocalTZA (Timezone.getSingaporeNow LocalTZA clock)
                 (Db.todoDB.findByUser (userId session) st)) st) as [st' ->].
  simpl. eexists. reflexivity.
Qed.

(** C8. Completed exclusion: whatever the collection of todos and the
    evaluation time, a todo with a truthy [completed] is not among the
    todos of the reminders the evaluator returns; nor is one in the list
    that [GET /api/notifications/check] answers with. *)
Theorem completed_todo_never_reminded now todos t :
  Todo.completed t <> 0 ->
  ~ In t (map todo (dueReminders LocalTZA now todos)) /\
  (forall session clock st status reminders st',
      GET LocalTZA session clock st = (Return (Json status reminders), st') ->
      ~ In t (map todo reminders)).
Proof.
  intros Hc.
  assert (Hnot : forall now' todos',
             ~ In t (map todo (dueReminders LocalTZA now' todos'))).
  { intros now' todos' Hin. apply dueReminders_todo_In in Hin as [_ Hf].
    apply reminderFilter_true in Hf as [Hz _]. contradiction. }
  split; [apply Hnot|].
  intros [session|] clock st status reminders st' HG.
  - destruct (GET_reminders session clock st) as [st'' E].
    rewrite E in HG. injection HG as _ <- _. apply Hnot.
  - discriminate HG.
Qed.

(** C3. The reminder window is half-open.  A reminder is returned only
    for a todo with [reminderTime <= now < due_date], where [reminderTime]
    is the due time minus the lead time; and for a todo that is not
    completed, has a lead time of 60 minutes and is due at [T]: at
    [now = T - 60 min] it is returned (if it has never been notified), at
    [now = T] and at [now = T - 61 min] it is not. *)
Theorem reminder_window_half_open now todos :
  (forall r, In r (dueReminders LocalTZA now todos) ->
     exists rm due,
       Todo.reminder_minutes (todo r) = Some rm /\
       JsDate.parse LocalTZA (Todo.due_date (todo r)) = Some due /\
       due - rm * 60 * 1000 <= now < due) /\
  (forall t T,
     In t todos ->
     Todo.completed t = 0 ->
     Todo.reminder_minutes t = Some 60 ->
     JsDate.parse LocalTZA (Todo.due_date t) = Some T ->
     (Todo.last_notification_sent t = None ->
      In t (map todo (dueReminders LocalTZA (T - 60 * 60 * 1000) todos))) /\
     ~ In t (map todo (dueReminders LocalTZA T todos)) /\
     ~ In t (map todo (dueReminders LocalTZA (T - 61 * 60 * 1000) todos))).
Proof.
  split.
  - intros r Hr. apply dueReminders_In in Hr as (t & _ & Hf & ->). simpl.
    apply reminderFilter_true in Hf as (_ & rm & due & Hrm & _ & Hdue & Hw & _).
    eauto.
  - intros t T Hin Hc Hrm HT. repeat split.
    + intros Hlast. apply dueReminders_todo_In. split; [exact Hin|].
      apply reminderFilter_true. split; [exact Hc|].
      exists 60, T. rewrite Hlast. simpl. repeat split; solve [assumption | lia].
    + intros H. apply dueReminders_todo_In in H as [_ Hf].
      apply reminderFilter_true in Hf as (_ & rm & due & E1 & _ & E2 & Hw & _).
      rewrite HT in E2. injection E2 as <-. lia.
    + intros H. apply dueReminders_todo_In in H as [_ Hf].
      apply reminderFilter_true in Hf as (_ & rm & due & E1 & _ & E2 & Hw & _).
      rewrite Hrm in E1. injection E1 as <-.
      rewrite HT in E2. injection E2 as <-. lia.
Qed.



End LocalZone.

End ReminderFacts.

Module ReminderWitnesses.

Import Db NotificationsCheck DateFns Examples.

Lemma completed_todo_never_reminded_witness :
  Todo.completed rentCompleted <> 0 /\
  ~ In rentCompleted
      (map todo (dueReminders SINGAPORE_OFFSET (rentDue - 30 * 60 * 1000)
                   [rent; rentCompleted]%list)).
Proof.
  split; [discriminate|].
  apply (ReminderFacts.completed_todo_never_reminded SINGAPORE_OFFSET
           (rentDue - 30 * 60 * 1000) [rent; rentCompleted]%list rentCompleted).
  discriminate.
Defined.

Lemma reminder_window_half_open_witness :
  In rent (map todo (dueReminders SINGAPORE_OFFSET (rentDue - 60 * 60 * 1000)
                       [rent]%list)) /\
  ~ In rent (map todo (dueReminders SINGAPORE_OFFSET rentDue [rent]%list)) /\
  ~ In rent (map todo (dueReminders SINGAPORE_OFFSET (rentDue - 61 * 60 * 1000)
                         [rent]%list)).
Proof.
  destruct (proj2 (ReminderFacts.reminder_window_half_open SINGAPORE_OFFSET
                     rentDue [rent]%list)
              rent rentDue (or_introl eq_refl) eq_refl eq_refl eq_refl)
    as (Hin & Hat & Hbefore).
  split; [exact (Hin eq_refl)|].
  split.
  - exact Hat.
  - intros H. apply Hbefore.
    exact (proj2 (ReminderFacts.dueReminders_todo_In SINGAPORE_OFFSET
                    (rentDue - 61 * 60 * 1000) [rent]%list rent)
             (conj (or_introl eq_refl)
                (proj2 (proj1 (ReminderFacts.dueReminders_todo_In SINGAPORE_OFFSET
                                 (rentDue - 61 * 60 * 1000) [rent]%list rent) H)))).
Defined.



End ReminderWitnesses.

(** ** The recurrence calculator *)

Module RecurrenceFacts.

Import Calendar JsDate DateFns Recurrence.

Lemma caseIs_false pattern name :
  pattern <> Some name -> caseIs pattern name = false.
Proof.
  intros H. destruct pattern as [p|]; [|reflexivity]. simpl.
  destruct (String.eqb_spec p name) as [->|]; congruence.
Qed.

(** C7. [calculateNextDueDate] throws on every pattern value other than
    the four pattern names, [null] and ["none"] included: on a due date
    that parses, the error is [Invalid recurrence pattern: ...]. *)
Theorem calculateNextDueDate_invalid_pattern_throws
    (LocalTZA : Z) (currentDueDate : string) (pattern : option string) :
  pattern <> Some "daily" -> pattern <> Some "weekly" ->
  pattern <> Some "monthly" -> pattern <> Some "yearly" ->
  throws (calculateNextDueDate LocalTZA currentDueDate pattern) /\
  (forall tv, JsDate.parse LocalTZA currentDueDate = Some tv ->
     calculateNextDueDate LocalTZA currentDueDate pattern
     = Throw (Error ("Invalid recurrence pattern: " ++ showPattern pattern))).
Proof.
  intros Hd Hw Hm Hy.
  unfold calculateNextDueDate, throws.
  rewrite (caseIs_false _ _ Hd), (caseIs_false _ _ Hw),
    (caseIs_false _ _ Hm), (caseIs_false _ _ Hy).
  destruct (JsDate.parse LocalTZA currentDueDate) as [tv|]; simpl.
  - split; [eexists; reflexivity|]. intros tv' _. reflexivity.
  - split; [eexists; reflexivity|]. intros tv' H. discriminate H.
Qed.

(** When the process runs in the zone of Singapore, [toZonedTime] is the
    identity on time values. *)
Lemma toZonedTime_valid_singapore date :
  toZonedTime_valid SINGAPORE_OFFSET date = date.
Proof. rewrite DateFnsFacts.toZonedTime_valid_shift. lia. Qed.

Lemma calculateNextDueDate_singapore s tv pattern :
  JsDate.parse SINGAPORE_OFFSET s = Some tv ->
  calculateNextDueDate SINGAPORE_OFFSET s (Some pattern) =
  if (pattern =? "daily")%string
  then Return (format_valid SINGAPORE_OFFSET (addDays SINGAPORE_OFFSET tv 1))
  else if (pattern =? "weekly")%string
  then Return (format_valid SINGAPORE_OFFSET (addWeeks SINGAPORE_OFFSET tv 1))
  else if (pattern =? "monthly")%string
  then Return (format_valid SINGAPORE_OFFSET (addMonths SINGAPORE_OFFSET tv 1))
  else if (pattern =? "yearly")%string
  then Return (format_valid SINGAPORE_OFFSET (addYears SINGAPORE_OFFSET tv 1))
  else Throw (Error ("Invalid recurrence pattern: " ++ pattern)).
Proof.
  intros Hp. unfold calculateNextDueDate. rewrite Hp. simpl.
  rewrite toZonedTime_valid_singapore.
  destruct (pattern =? "daily")%string; simpl;
    [rewrite toZonedTime_valid_singapore; reflexivity|].
  destruct (pattern =? "weekly")%string; simpl;
    [rewrite toZonedTime_valid_singapore; reflexivity|].
  destruct (pattern =? "monthly")%string; simpl;
    [rewrite toZonedTime_valid_singapore; reflexivity|].
  destruct (pattern =? "yearly")%string; simpl;
    [rewrite toZonedTime_valid_singapore; reflexivity|].
  reflexivity.
Qed.

Lemma time_of_day_fields LocalTZA a b :
  TimeWithinDay (LocalTime LocalTZA a) = TimeWithinDay (LocalTime LocalTZA b) ->
  getHours LocalTZA a = getHours LocalTZA b /\
  getMinutes LocalTZA a = getMinutes LocalTZA b /\
  getSeconds LocalTZA a = getSeconds LocalTZA b.
Proof.
  intros H. unfold getHours, getMinutes, getSeconds.
  destruct (JsDateFacts.time_fields_of_day (LocalTime LocalTZA a)) as (-> & -> & ->).
  destruct (JsDateFacts.time_fields_of_day (LocalTime LocalTZA b)) as (-> & -> & ->).
  rewrite H. auto.
Qed.

Lemma addDays_time_of_day LocalTZA date amount :
  TimeWithinDay (LocalTime LocalTZA (addDays LocalTZA date amount))
  = TimeWithinDay (LocalTime LocalTZA date).
Proof.
  rewrite DateFnsFacts.addDays_shift. unfold TimeWithinDay, LocalTime, msPerDay.
  Z.to_euclidean_division_equations; lia.
Qed.

(** The date fields after [addMonths]: the month [amount] months later,
    the day of the month clamped to the length of that month, the time of
    day unchanged. *)
Lemma addMonths_fields LocalTZA date amount :
  let y := getFullYear LocalTZA date in
  let m := getMonth LocalTZA date + 1 in
  let d := getDate LocalTZA date in
  let y' := y + (m + amount - 1) / 12 in
  let m' := (m + amount - 1) mod 12 + 1 in
  let next := addMonths LocalTZA date amount in
  getFullYear LocalTZA next = y' /\
  getMonth LocalTZA next + 1 = m' /\
  getDate LocalTZA next = Z.min d (daysInMonth y' m') /\
  TimeWithinDay (LocalTime LocalTZA next) = TimeWithinDay (LocalTime LocalTZA date).
Proof.
  intros y m d y' m' next.
  pose proof (DateFnsFacts.addMonths_local LocalTZA date amount) as H.
  cbv zeta in H. fold y m d in H. unfold getFullYear, getMonth, getDate in y, m, d.
  fold y in H. fold m in H. fold d in H. fold y' in H. fold m' in H.
  fold next in H.
  destruct (JsDateFacts.fields_valid (LocalTime LocalTZA date)) as [Hm Hd].
  fold y m d in Hm, Hd.
  destruct (JsDateFacts.Day_TimeWithinDay (LocalTime LocalTZA date)) as [_ Htod].
  assert (Hm' : 1 <= m' <= 12)
    by (subst m'; Z.to_euclidean_division_equations; lia).
  assert (Hv : validCivil y' m' (Z.min d (daysInMonth y' m'))).
  { split; [exact Hm'|]. pose proof (CalendarFacts.daysInMonth_bounds y' m'). lia. }
  destruct (DateFnsFacts.fields_of_MakeDate y' m' _ _ Hv Htod) as (Ey & Em & Ed & Et).
  rewrite <- H in Ey, Em, Ed, Et.
  unfold getFullYear, getMonth, getDate. repeat split; solve [assumption | lia].
Qed.

End RecurrenceFacts.

Module RecurrenceClaims.

Import Calendar JsDate DateFns Recurrence.


(** Further runs of the calculator: a week, a leap day, the end of a
    year, and a year from a leap day. *)
Example weekly_advance :
  calculateNextDueDate SINGAPORE_OFFSET "2026-02-10T14:00" (Some "weekly")
  = Return "2026-02-17 14:00:00".
Proof. vm_compute. reflexivity. Qed.

Example monthly_into_leap_february :
  calculateNextDueDate SINGAPORE_OFFSET "2028-01-31T17:00" (Some "monthly")
  = Return "2028-02-29 17:00:00".
Proof. vm_compute. reflexivity. Qed.

Example daily_across_new_year :
  calculateNextDueDate SINGAPORE_OFFSET "2026-12-31 23:59:59" (Some "daily")
  = Return "2027-01-01 23:59:59".
Proof. vm_compute. reflexivity. Qed.

Example yearly_from_leap_day :
  calculateNextDueDate SINGAPORE_OFFSET "2028-02-29T09:00" (Some "yearly")
  = Return "2029-02-28 09:00:00".
Proof. vm_compute. reflexivity. Qed.


Lemma invalid_pattern_witness :
  throws (calculateNextDueDate SINGAPORE_OFFSET "2026-01-31T17:00" (Some "none")) /\
  throws (calculateNextDueDate SINGAPORE_OFFSET "2026-01-31T17:00" None).
Proof.
  split.
  - apply (RecurrenceFacts.calculateNextDueDate_invalid_pattern_throws
             SINGAPORE_OFFSET "2026-01-31T17:00" (Some "none"));
      discriminate.
  - apply (RecurrenceFacts.calculateNextDueDate_invalid_pattern_throws
             SINGAPORE_OFFSET "2026-01-31T17:00" None);
      discriminate.
Defined.

End RecurrenceClaims.

(** ** Validation of the reminder lead time at creation *)

Module CreateFacts.

Import Db TodosRoute DateFns Examples.

Section Env.

Variable CURRENT_TIMESTAMP : string.
Variable LocalTZA : Z.

(** [validateReminderMinutes] never rejects: it keeps a value of the
    enumerated set and maps every other value to [null]. *)
Lemma validateReminderMinutes_spec minutes :
  validateReminderMinutes minutes =
  match minutes with
  | Some m =>
      if existsb (Z.eqb m) [15; 30; 60; 120; 1440; 2880; 10080]%list
      then Some m else None
  | None => None
  end.
Proof.
  destruct minutes as [m|]; [|reflexivity]. unfold validateReminderMinutes.
  destruct (existsb (Z.eqb m) [15; 30; 60; 120; 1440; 2880; 10080]%list);
    reflexivity.
Qed.

Lemma orNullNumber_nonzero n :
  n <> 0 -> JsValue.orNullNumber (Some n) = Some n.
Proof.
  intros H. unfold JsValue.orNullNumber. destruct (Z.eqb_spec n 0); congruence.
Qed.


End Env.



End CreateFacts.

(** ** Recurrence advancement: the store operations *)

Module StoreFacts.

Import Db.

Lemma maxKey_ge {A : Type} (key : A -> Z) rows r :
  In r rows -> key r <= maxKey key rows.
Proof.
  induction rows as [|x rest IH]; simpl; [contradiction|].
  intros [->|Hin]; [lia|]. specialize (IH Hin). lia.
Qed.

Lemma filter_app_none {A : Type} (p : A -> bool) l l' :
  (forall x, In x l' -> p x = false) ->
  filter p (l ++ l') = filter p l.
Proof.
  intros H. rewrite filter_app.
  assert (filter p l' = nil) as ->; [|apply app_nil_r].
  induction l' as [|x rest IH]; [reflexivity|]. simpl.
  rewrite (H x (or_introl eq_refl)). apply IH. intros y Hy. apply H. right. exact Hy.
Qed.

Lemma filter_all {A : Type} (p : A -> bool) l :
  (forall x, In x l -> p x = true) -> filter p l = l.
Proof.
  induction l as [|x rest IH]; intros H; [reflexivity|]. simpl.
  rewrite (H x (or_introl eq_refl)). f_equal. apply IH.
  intros y Hy. apply H. right. exact Hy.
Qed.

Lemma filter_none {A : Type} (p : A -> bool) l :
  (forall x, In x l -> p x = false) -> filter p l = nil.
Proof.
  induction l as [|x rest IH]; intros H; [reflexivity|]. simpl.
  rewrite (H x (or_introl eq_refl)). apply IH.
  intros y Hy. apply H. right. exact Hy.
Qed.

Lemma existsb_false {A : Type} (p : A -> bool) l :
  (forall x, In x l -> p x = false) -> existsb p l = false.
Proof.
  induction l as [|x rest IH]; intros H; [reflexivity|]. simpl.
  rewrite (H x (or_introl eq_refl)). apply IH.
  intros y Hy. apply H. right. exact Hy.
Qed.

(** The id of a new todo is larger than every id in [todos]; with the
    foreign keys in force, no subtask and no tag association refers to it. *)
Lemma fresh_todo_id st t :
  In t (todos st) ->
  Todo.id t < Z.max (todos_seq st) (maxKey Todo.id (todos st)) + 1.
Proof. intros H. pose proof (maxKey_ge Todo.id _ _ H). lia. Qed.

Lemma foreignKeysOk_subtask st s :
  foreignKeysOk st = true -> In s (subtasks st) ->
  exists t, In t (todos st) /\ Todo.id t = Subtask.todo_id s.
Proof.
  unfold foreignKeysOk. intros H Hin.
  apply andb_true_iff in H as [H _].
  rewrite forallb_forall in H. specialize (H s Hin).
  apply existsb_exists in H as (t & Ht & E). exists t. split; [exact Ht|lia].
Qed.

Lemma foreignKeysOk_todo_tag st r :
  foreignKeysOk st = true -> In r (todo_tags st) ->
  exists t, In t (todos st) /\ Todo.id t = TodoTag.todo_id r.
Proof.
  unfold foreignKeysOk. intros H Hin.
  apply andb_true_iff in H as [_ H].
  rewrite forallb_forall in H. specialize (H r Hin).
  apply existsb_exists in H as (t & Ht & E). exists t. split; [exact Ht|lia].
Qed.

Section Env.

Variable CURRENT_TIMESTAMP : string.
Variable LocalTZA : Z.

(** Copying subtasks to an existing todo appends one fresh subtask per
    source subtask, in order: the title trimmed, the position kept,
    [completed] reset to 0. *)
Lemma copySubtasks_spec newId subs :
  forall st,
    existsb (fun t => Todo.id t =? newId) (todos st) = true ->
    exists copies seq',
      Db.todoDB.copySubtasks CURRENT_TIMESTAMP newId subs st
      = (Return tt,
         mkStore (todos st) (subtasks st ++ copies) (todo_tags st)
                 (todos_seq st) seq') /\
      map (fun s => (Subtask.todo_id s, Subtask.title s, Subtask.completed s,
                     Subtask.position s)) copies
      = map (fun s => (newId, JsString.trim (Subtask.title s), 0,
                       Subtask.position s)) subs.
Proof.
  induction subs as [|s rest IH]; intros st Hex; simpl.
  - exists nil, (subtasks_seq st). rewrite app_nil_r. destruct st; auto.
  - unfold bind, Db.subtaskDB.create. rewrite Hex.
    set (row := Subtask.mk _ newId (JsString.trim (Subtask.title s)) 0
                           (Subtask.position s) CURRENT_TIMESTAMP).
    set (st1 := mkStore _ _ _ _ _).
    destruct (IH st1 Hex) as (copies & seq' & E & Hm).
    exists (row :: copies), seq'. rewrite E. subst st1. simpl.
    rewrite <- app_assoc. simpl. split; [reflexivity|].
    f_equal. exact Hm.
Qed.

Lemma copyTags_fresh newId parentId st :
  (forall r, In r (todo_tags st) -> TodoTag.todo_id r <> newId) ->
  Db.todoDB.copyTags CURRENT_TIMESTAMP newId parentId st
  = (Return tt,
     mkStore (todos st) (subtasks st)
       (todo_tags st ++
        map (fun r => TodoTag.mk newId (TodoTag.tag_id r) CURRENT_TIMESTAMP)
            (filter (fun r => TodoTag.todo_id r =? parentId) (todo_tags st)))
       (todos_seq st) (subtasks_seq st)).
Proof.
  intros Hfresh. unfold Db.todoDB.copyTags.
  rewrite existsb_false; [reflexivity|].
  intros n _. apply existsb_false. intros r Hr.
  destruct (Z.eqb_spec (TodoTag.todo_id r) newId) as [E|]; [|reflexivity].
  exfalso. exact (Hfresh r Hr E).
Qed.

(** What [createRecurringInstance] does on a store whose foreign keys
    hold, for a recurring todo of the store whose next due date can be
    computed. *)
Lemma createRecurringInstance_spec parent st nextDue :
  foreignKeysOk st = true ->
  In parent (todos st) ->
  Db.todoDB.truthyPattern (Todo.recurrence_pattern parent) = true ->
  Recurrence.calculateNextDueDate LocalTZA (Todo.due_date parent)
    (Todo.recurrence_pattern parent) = Return nextDue ->
  let next :=
    Todo.mk (Z.max (todos_seq st) (maxKey Todo.id (todos st)) + 1)
      (Todo.user_id parent) (JsString.trim (Todo.title parent)) nextDue
      (if JsString.truthy (Todo.priority parent)
       then Todo.priority parent else "medium")
      0 None (Todo.recurrence_pattern parent)
      (JsValue.orNullNumber (Todo.reminder_minutes parent)) None
      CURRENT_TIMESTAMP in
  exists copies seq',
    Db.todoDB.createRecurringInstance CURRENT_TIMESTAMP LocalTZA parent st
    = (Return next,
       mkStore (todos st ++ [next])
         (subtasks st ++ copies)
         (todo_tags st ++
          map (fun r => TodoTag.mk (Todo.id next) (TodoTag.tag_id r)
                                   CURRENT_TIMESTAMP)
              (filter (fun r => TodoTag.todo_id r =? Todo.id parent)
                      (todo_tags st)))
         (Todo.id next) seq') /\
    map (fun s => (Subtask.todo_id s, Subtask.title s, Subtask.completed s,
                   Subtask.position s)) copies
    = map (fun s => (Todo.id next, JsString.trim (Subtask.title s), 0,
                     Subtask.position s))
          (Db.subtaskDB.findByTodo (Todo.id parent) st).
Proof.
  intros Hfk Hin Htr Hcalc next.
  unfold Db.todoDB.createRecurringInstance.
  rewrite Htr. cbn [negb]. unfold bind at 1. unfold lift. rewrite Hcalc.
  unfold bind at 1. unfold Db.todoDB.create.
  cbn [Db.todoDB.cd_user_id Db.todoDB.cd_title Db.todoDB.cd_due_date
       Db.todoDB.cd_priority Db.todoDB.cd_recurrence_pattern
       Db.todoDB.cd_reminder_minutes JsValue.orNullString].
  assert (Hpat : JsValue.orNullString (Todo.recurrence_pattern parent)
                 = Todo.recurrence_pattern parent).
  { unfold Db.todoDB.truthyPattern in Htr. unfold JsValue.orNullString.
    destruct (Todo.recurrence_pattern parent) as [p|]; [|reflexivity].
    rewrite Htr. reflexivity. }
  rewrite Hpat.
  assert (Hprio : match (if JsString.truthy (Todo.priority parent)
                         then Some (Todo.priority parent) else None) with
                  | Some p => p
                  | None => "medium"
                  end
                  = if JsString.truthy (Todo.priority parent)
                    then Todo.priority parent else "medium")
    by (destruct (JsString.truthy (Todo.priority parent)); reflexivity).
  rewrite Hprio. fold next.
  set (st1 := mkStore (todos st ++ [next]) _ _ _ _).
  unfold bind at 1.
  assert (Hfresh : forall r, In r (todo_tags st1) -> TodoTag.todo_id r <> Todo.id next).
  { intros r Hr E. destruct (foreignKeysOk_todo_tag st r Hfk Hr) as (t & Ht & Et).
    pose proof (fresh_todo_id st t Ht). subst next. simpl in E. lia. }
  rewrite (copyTags_fresh (Todo.id next) (Todo.id parent) st1 Hfresh).
  cbn [todos subtasks todo_tags todos_seq subtasks_seq st1].
  set (st2 := mkStore _ _ _ _ _).
  unfold bind at 1. unfold gets.
  assert (Hex : existsb (fun t => Todo.id t =? Todo.id next) (todos st2) = true).
  { subst st2. cbn [todos]. rewrite existsb_app. simpl.
    rewrite Z.eqb_refl. rewrite orb_true_r. reflexivity. }
  destruct (copySubtasks_spec (Todo.id next)
              (Db.subtaskDB.findByTodo (Todo.id parent) st2) st2 Hex)
    as (copies & seq' & E & Hm).
  unfold bind at 1. rewrite E. unfold ret.
  exists copies, seq'. split; [reflexivity|]. exact Hm.
Qed.

End Env.

End StoreFacts.

(** ** The completion toggle of [PUT /api/todos/[id]] *)

Module PutFacts.

Import Db TodoIdRoute.

Section Env.

Variable CURRENT_TIMESTAMP : string.
Variable LocalTZA : Z.

(** Copying tags and subtasks never writes to [todos]. *)
Lemma copyTags_todos newId parentId st :
  todos (snd (Db.todoDB.copyTags CURRENT_TIMESTAMP newId parentId st)) = todos st.
Proof.
  unfold Db.todoDB.copyTags.
  destruct (existsb _ _); reflexivity.
Qed.

Lemma copySubtasks_todos newId subs :
  forall st,
    todos (snd (Db.todoDB.copySubtasks CURRENT_TIMESTAMP newId subs st)) = todos st.
Proof.
  induction subs as [|s rest IH]; intros st; simpl; [reflexivity|].
  unfold bind, Db.subtaskDB.create.
  destruct (existsb _ (todos st)); [|reflexivity].
  rewrite IH. reflexivity.
Qed.

(** Whatever happens, [createRecurringInstance] leaves the rows of
    [todos] in place and adds at most one; when it returns, it has added
    exactly the todo it returns. *)
Lemma createRecurringInstance_todos parent st :
  let '(c, st') :=
    Db.todoDB.createRecurringInstance CURRENT_TIMESTAMP LocalTZA parent st in
  match c with
  | Return next => todos st' = (todos st ++ [next])%list
  | Throw _ => todos st' = todos st \/ exists next, todos st' = (todos st ++ [next])%list
  end.
Proof.
  unfold Db.todoDB.createRecurringInstance.
  destruct (negb _); [simpl; auto|].
  unfold bind at 1. unfold lift.
  destruct (Recurrence.calculateNextDueDate _ _ _) as [nextDue|e]; [|simpl; auto].
  unfold bind at 1. unfold Db.todoDB.create.
  set (next := Todo.mk _ _ _ _ _ _ _ _ _ _ _).
  set (st1 := mkStore _ _ _ _ _).
  unfold bind at 1.
  pose proof (copyTags_todos (Todo.id next) (Todo.id parent) st1) as HT.
  destruct (Db.todoDB.copyTags _ _ _ st1) as [[[]|e] st2]; simpl in HT;
    [|right; exists next; exact HT].
  unfold bind at 1. unfold gets.
  unfold bind at 1.
  pose proof (copySubtasks_todos (Todo.id next)
                (Db.subtaskDB.findByTodo (Todo.id parent) st2) st2) as HS.
  destruct (Db.todoDB.copySubtasks _ _ _ st2) as [[[]|e] st3]; simpl in HS;
    unfold ret; rewrite HS, HT; [reflexivity|right; exists next; reflexivity].
Qed.

(** The two outcomes of the completion step that return: no next
    instance and an untouched store, or the next instance that
    [createRecurringInstance] returned. *)
Lemma handleCompletion_inv clock todo body st completed completed_at nextTodo st1 :
  handleCompletion CURRENT_TIMESTAMP LocalTZA clock todo body st
  = (Return (completed, completed_at, nextTodo), st1) ->
  completed = Body.completed body /\
  ((nextTodo = None /\ st1 = st /\
    ~ (Body.completed body = Some 1 /\ Todo.completed todo = 0 /\
       Db.todoDB.truthyPattern (Todo.recurrence_pattern todo) = true)) \/
   (exists next,
      nextTodo = Some next /\
      Body.completed body = Some 1 /\ Todo.completed todo = 0 /\
      Db.todoDB.truthyPattern (Todo.recurrence_pattern todo) = true /\
      Db.todoDB.createRecurringInstance CURRENT_TIMESTAMP LocalTZA todo st
      = (Return next, st1))).
Proof.
  unfold handleCompletion.
  destruct (Body.completed body) as [c|].
  2:{ unfold ret. intros H. injection H as <- <- <- <-. split; [reflexivity|].
      left. repeat split. intros [H _]. discriminate H. }
  destruct (Z.eqb_spec c 1) as [->|Hc1]; simpl.
  - destruct (Z.eqb_spec (Todo.completed todo) 0) as [Hc0|Hc0]; simpl.
    + destruct (Db.todoDB.truthyPattern (Todo.recurrence_pattern todo)) eqn:Htr.
      * unfold bind.
        destruct (Db.todoDB.createRecurringInstance _ _ todo st) as [[next|e] st2];
          [|discriminate].
        unfold ret. intros H. injection H as <- <- <- <-.
        split; [reflexivity|]. right. exists next. auto.
      * unfold ret. intros H. injection H as <- <- <- <-. split; [reflexivity|].
        left. repeat split. intros (_ & _ & H). discriminate H.
    + unfold ret. intros H. injection H as <- <- <- <-. split; [reflexivity|].
      left. repeat split. intros (_ & H & _). contradiction.
  - destruct (Z.eqb_spec c 0) as [->|Hc0]; unfold ret; intros H;
      injection H as <- <- <- <-; (split; [reflexivity|]);
      left; repeat split; intros (H & _); congruence.
Qed.

(** A request answered with a payload went through the completion step
    and one [UPDATE] of the row. *)
Lemma PUT_payload_inv session clock id body st status payload st' :
  PUT CURRENT_TIMESTAMP LocalTZA session clock id body st
  = (Return (Json status payload), st') ->
  exists todoId todo completed completed_at st1 data,
    id = Some todoId /\
    Db.todoDB.findById todoId st = Some todo /\
    handleCompletion CURRENT_TIMESTAMP LocalTZA clock todo body st
    = (Return (completed, completed_at, next_todo payload), st1) /\
    status = 200 /\
    st' = mkStore
            (map (fun t => if Todo.id t =? todoId
                           then Db.todoDB.applyUpdate data t else t) (todos st1))
            (subtasks st1) (todo_tags st1) (todos_seq st1) (subtasks_seq st1).
Proof.
  unfold PUT. destruct session as [sess|]; [|discriminate].
  destruct id as [todoId|]; [|discriminate].
  unfold tryCatch. unfold bind at 1. unfold gets.
  destruct (Db.todoDB.findById todoId st) as [todo|] eqn:Hfind; [|discriminate].
  destruct (negb _); [discriminate|].
  destruct (match Body.title body with Some _ => _ | None => false end);
    [discriminate|].
  destruct (match Body.title body with Some _ => _ | None => false end);
    [discriminate|].
  destruct (match Body.priority body with Some _ => _ | None => false end);
    [discriminate|].
  destruct (match Body.recurrence_pattern body with
            | Some (Some _) => _ | _ => false end); [discriminate|].
  unfold bind at 1.
  destruct (handleCompletion _ _ clock todo body st)
    as [[[[completed completed_at] nextTodo]|e] st1] eqn:Hh; [|discriminate].
  unfold bind, Db.todoDB.update, ret.
  intros H. injection H as <- <- <-.
  exists todoId, todo, completed, completed_at, st1. eexists.
  repeat split; solve [reflexivity | exact Hh | exact Hfind].
Qed.

(** The completion toggle [{ completed: c }] on a todo of the signed-in
    user: the request goes through the completion step and one [UPDATE]
    that sets the completion columns only. *)
Lemma PUT_toggle session clock todoId todo c st :
  Db.todoDB.findById todoId st = Some todo ->
  Todo.user_id todo = userId session ->
  PUT CURRENT_TIMESTAMP LocalTZA (Some session) clock (Some todoId)
      (Body.mk None None None None None (Some c)) st
  = match handleCompletion CURRENT_TIMESTAMP LocalTZA clock todo
            (Body.mk None None None None None (Some c)) st with
    | (Return (completed, completed_at, nextTodo), st1) =>
        let st' :=
          mkStore
            (map (fun t => if Todo.id t =? todoId
                           then Db.todoDB.applyUpdate
                                  (Db.todoDB.mkUpdateData None None None completed
                                     completed_at None None None) t
                           else t) (todos st1))
            (subtasks st1) (todo_tags st1) (todos_seq st1) (subtasks_seq st1) in
        (Return (Json 200 (mkPayload (Db.todoDB.findById todoId st') nextTodo)), st')
    | (Throw _, st1) => (Return (JsonError 500 "Failed to update todo"), st1)
    end.
Proof.
  intros Hfind Huser. unfold PUT, tryCatch. unfold bind at 1. unfold gets.
  rewrite Hfind, Huser, Z.eqb_refl. cbn [negb Body.title Body.priority
    Body.recurrence_pattern Body.due_date Body.reminder_minutes option_map].
  unfold bind at 1.
  destruct (handleCompletion _ _ clock todo _ st)
    as [[[[completed completed_at] nextTodo]|e] st1]; reflexivity.
Qed.

(** With the foreign keys in force, [createRecurringInstance] on a todo
    of the store throws only before its first write. *)
Lemma createRecurringInstance_throw_unchanged parent st e st' :
  foreignKeysOk st = true ->
  In parent (todos st) ->
  Db.todoDB.createRecurringInstance CURRENT_TIMESTAMP LocalTZA parent st
  = (Throw e, st') ->
  st' = st.
Proof.
  intros Hfk Hin H.
  destruct (Db.todoDB.truthyPattern (Todo.recurrence_pattern parent)) eqn:Htr.
  - destruct (Recurrence.calculateNextDueDate LocalTZA (Todo.due_date parent)
                (Todo.recurrence_pattern parent)) as [nextDue|e'] eqn:Hcalc.
    + destruct (StoreFacts.createRecurringInstance_spec CURRENT_TIMESTAMP LocalTZA
                  parent st nextDue Hfk Hin Htr Hcalc) as (copies & seq' & E & _).
      rewrite E in H. discriminate H.
    + unfold Db.todoDB.createRecurringInstance in H. rewrite Htr in H.
      cbn [negb] in H. unfold bind at 1 in H. unfold lift in H.
      rewrite Hcalc in H. injection H as _ <-. reflexivity.
  - unfold Db.todoDB.createRecurringInstance in H. rewrite Htr in H.
    cbn [negb] in H. unfold throw in H. injection H as _ <-. reflexivity.
Qed.

(** With the foreign keys in force, a request answered with an error has
    written nothing. *)
Lemma PUT_error_unchanged session clock id body st status error st' :
  foreignKeysOk st = true ->
  PUT CURRENT_TIMESTAMP LocalTZA session clock id body st
  = (Return (JsonError status error), st') ->
  st' = st.
Proof.
  intros Hfk. unfold PUT. destruct session as [sess|];
    [|unfold ret; intros H; injection H as _ _ <-; reflexivity].
  destruct id as [todoId|];
    [|unfold tryCatch, ret; intros H; injection H as _ _ <-; reflexivity].
  unfold tryCatch. unfold bind at 1. unfold gets.
  destruct (Db.todoDB.findById todoId st) as [todo|] eqn:Hfind;
    [|unfold ret; intros H; injection H as _ _ <-; reflexivity].
  destruct (negb _);
    [unfold ret; intros H; injection H as _ _ <-; reflexivity|].
  destruct (match Body.title body with Some _ => _ | None => false end);
    [unfold ret; intros H; injection H as _ _ <-; reflexivity|].
  destruct (match Body.title body with Some _ => _ | None => false end);
    [unfold ret; intros H; injection H as _ _ <-; reflexivity|].
  destruct (match Body.priority body with Some _ => _ | None => false end);
    [unfold ret; intros H; injection H as _ _ <-; reflexivity|].
  destruct (match Body.recurrence_pattern body with
            | Some (Some _) => _ | _ => false end);
    [unfold ret; intros H; injection H as _ _ <-; reflexivity|].
  unfold bind at 1.
  destruct (handleCompletion _ _ clock todo body st)
    as [[[[completed completed_at] nextTodo]|e] st1] eqn:Hh.
  - unfold bind, Db.todoDB.update, ret. discriminate.
  - unfold ret. intros H. injection H as _ _ <-.
    unfold handleCompletion in Hh.
    destruct (Body.completed body) as [c|]; [|discriminate Hh].
    destruct ((c =? 1) && (Todo.completed todo =? 0)).
    + destruct (Db.todoDB.truthyPattern (Todo.recurrence_pattern todo));
        [|discriminate Hh].
      unfold bind in Hh.
      destruct (Db.todoDB.createRecurringInstance CURRENT_TIMESTAMP LocalTZA
                  todo st) as [[next|e'] st2] eqn:Hc; [discriminate Hh|].
      injection Hh as _ <-.
      apply (createRecurringInstance_throw_unchanged todo st e' st2 Hfk); [|exact Hc].
      unfold Db.todoDB.findById in Hfind. apply find_some in Hfind. tauto.
    + destruct (c =? 0); discriminate Hh.
Qed.

End Env.

End PutFacts.

Module AdvancementClaims.

Import Db TodoIdRoute DateFns Examples.

Lemma map_update_ids todoId data l :
  map Todo.id
    (map (fun t => if Todo.id t =? todoId
                   then Db.todoDB.applyUpdate data t else t) l)
  = map Todo.id l.
Proof.
  rewrite map_map. apply map_ext. intros t.
  destruct (Todo.id t =? todoId); reflexivity.
Qed.

Lemma map_update_other todoId data l t :
  In t l -> Todo.id t <> todoId ->
  In t (map (fun t => if Todo.id t =? todoId
                      then Db.todoDB.applyUpdate data t else t) l).
Proof.
  intros Hin Hne. apply in_map_iff. exists t. split; [|exact Hin].
  destruct (Z.eqb_spec (Todo.id t) todoId); [contradiction|reflexivity].
Qed.

Lemma findById_In todoId st todo :
  Db.todoDB.findById todoId st = Some todo ->
  In todo (todos st) /\ Todo.id todo = todoId.
Proof.
  unfold Db.todoDB.findById. intros H. apply find_some in H as [Hin E].
  split; [exact Hin|lia].
Qed.

Lemma findById_update todoId data l todo :
  find (fun t => Todo.id t =? todoId) l = Some todo ->
  find (fun t => Todo.id t =? todoId)
       (map (fun t => if Todo.id t =? todoId
                      then Db.todoDB.applyUpdate data t else t) l)
  = Some (Db.todoDB.applyUpdate data todo).
Proof.
  induction l as [|x rest IH]; simpl; [discriminate|].
  destruct (Z.eqb_spec (Todo.id x) todoId) as [E|E].
  - intros H. injection H as <-. simpl. rewrite E, Z.eqb_refl. reflexivity.
  - intros H. destruct (Z.eqb_spec (Todo.id x) todoId); [contradiction|].
    apply IH. exact H.
Qed.

Lemma find_app_first {A : Type} (p : A -> bool) l l' x :
  find p l = Some x -> find p (l ++ l') = Some x.
Proof.
  induction l as [|y rest IH]; simpl; [discriminate|].
  destruct (p y); [auto|]. exact IH.
Qed.

Section Env.

Variable CURRENT_TIMESTAMP : string.
Variable LocalTZA : Z.


(** A stored pattern is [null] or a pattern name, never the empty
    string; for such a pattern "set" means "not [null]". *)
Lemma truthyPattern_nonnull pattern :
  pattern <> Some "" ->
  (Db.todoDB.truthyPattern pattern = true <-> pattern <> None).
Proof.
  intros Hne. destruct pattern as [p|]; simpl.
  - unfold JsString.truthy. destruct (String.eqb_spec p "") as [->|];
      simpl; split; congruence.
  - split; congruence.
Qed.

(** C2, as the code has it.  On a store whose foreign keys hold,
    completing a recurring todo whose next due date can be computed
    creates exactly one new todo, with a fresh id and
    - the title of the original with surrounding white space removed, its
      priority (["medium"] for an empty one), its recurrence pattern, its
      reminder lead time (a lead time of 0 becoming [null]), the due date
      [calculateNextDueDate(old due date, pattern)], [completed = 0] and
      [last_notification_sent = null];
    - one tag association for every tag association of the original;
    - one subtask for every subtask of the original, with the title
      trimmed, the position kept and [completed = 0].
    The rows of the original, of its subtasks and of its tag associations
    are as before; through [PUT] the original then gets [completed = 1]
    and its completion time, and nothing else changes. *)
Theorem recurring_completion_creates_next_instance
    (parent : Todo.t) (st : Store) (nextDue : string) :
  foreignKeysOk st = true ->
  Db.todoDB.findById (Todo.id parent) st = Some parent ->
  Db.todoDB.truthyPattern (Todo.recurrence_pattern parent) = true ->
  Recurrence.calculateNextDueDate LocalTZA (Todo.due_date parent)
    (Todo.recurrence_pattern parent) = Return nextDue ->
  exists next copies st',
    Db.todoDB.createRecurringInstance CURRENT_TIMESTAMP LocalTZA parent st
    = (Return next, st') /\
    (* one new todo *)
    todos st' = (todos st ++ [next])%list /\
    ~ In (Todo.id next) (map Todo.id (todos st)) /\
    Todo.user_id next = Todo.user_id parent /\
    Todo.title next = JsString.trim (Todo.title parent) /\
    Todo.priority next
    = (if JsString.truthy (Todo.priority parent)
       then Todo.priority parent else "medium") /\
    Todo.recurrence_pattern next = Todo.recurrence_pattern parent /\
    Todo.reminder_minutes next
    = JsValue.orNullNumber (Todo.reminder_minutes parent) /\
    Todo.due_date next = nextDue /\
    Todo.completed next = 0 /\
    Todo.last_notification_sent next = None /\
    (* its tags *)
    map TodoTag.tag_id
      (filter (fun r => TodoTag.todo_id r =? Todo.id next) (todo_tags st'))
    = map TodoTag.tag_id
        (filter (fun r => TodoTag.todo_id r =? Todo.id parent) (todo_tags st)) /\
    (* its subtasks *)
    filter (fun s => Subtask.todo_id s =? Todo.id next) (subtasks st') = copies /\
    map (fun s => (Subtask.title s, Subtask.completed s, Subtask.position s))
        copies
    = map (fun s => (JsString.trim (Subtask.title s), 0, Subtask.position s))
          (Db.subtaskDB.findByTodo (Todo.id parent) st) /\
    (* the original *)
    Db.todoDB.findById (Todo.id parent) st' = Some parent /\
    Db.subtaskDB.findByTodo (Todo.id parent) st'
    = Db.subtaskDB.findByTodo (Todo.id parent) st /\
    filter (fun r => TodoTag.todo_id r =? Todo.id parent) (todo_tags st')
    = filter (fun r => TodoTag.todo_id r =? Todo.id parent) (todo_tags st) /\
    (* through the route *)
    (forall session clock,
       Todo.user_id parent = userId session ->
       Todo.completed parent = 0 ->
       exists st'',
         PUT CURRENT_TIMESTAMP LocalTZA (Some session) clock
             (Some (Todo.id parent))
             (Body.mk None None None None None (Some 1)) st
         = (Return (Json 200
              (mkPayload
                 (Some (Db.todoDB.applyUpdate
                          (Db.todoDB.mkUpdateData None None None (Some 1)
                             (Some (Some (Timezone.formatSingaporeDate LocalTZA
                                            (Timezone.getSingaporeNow LocalTZA
                                               clock))))
                             None None None) parent))
                 (Some next))), st'') /\
         In next (todos st'') /\
         map Todo.id (todos st'') = (map Todo.id (todos st) ++ [Todo.id next])%list /\
         subtasks st'' = subtasks st' /\
         todo_tags st'' = todo_tags st').
Proof.
  intros Hfk Hfind Htr Hcalc.
  destruct (findById_In _ _ _ Hfind) as [Hin _].
  destruct (StoreFacts.createRecurringInstance_spec CURRENT_TIMESTAMP LocalTZA
              parent st nextDue Hfk Hin Htr Hcalc) as (copies & seq' & E & Hm).
  set (next := Todo.mk _ _ _ _ _ _ _ _ _ _ _) in *.
  assert (Hnew : forall t, In t (todos st) -> Todo.id t <> Todo.id next).
  { intros t Ht. pose proof (StoreFacts.fresh_todo_id st t Ht).
    subst next. simpl. lia. }
  assert (Hpn : Todo.id parent <> Todo.id next) by (apply Hnew; exact Hin).
  assert (Hcopies : forall s, In s copies -> Subtask.todo_id s = Todo.id next).
  { intros s Hs.
    assert (In (Subtask.todo_id s, Subtask.title s, Subtask.completed s,
                Subtask.position s)
               (map (fun s => (Subtask.todo_id s, Subtask.title s,
                               Subtask.completed s, Subtask.position s)) copies))
      by (apply in_map_iff; eauto).
    rewrite Hm in H. apply in_map_iff in H as (s' & Es & _).
    injection Es as <- _ _ _. reflexivity. }
  exists next, copies. eexists. split; [exact E|].
  cbn [todos subtasks todo_tags].
  split; [reflexivity|].
  split.
  { intros H. apply in_map_iff in H as (t & Et & Ht). exact (Hnew t Ht Et). }
  do 8 (split; [reflexivity|]).
  split.
  { rewrite filter_app.
    rewrite (StoreFacts.filter_none _ (todo_tags st)).
    - simpl. rewrite StoreFacts.filter_all.
      + rewrite map_map. reflexivity.
      + intros r Hr. apply in_map_iff in Hr as (r' & <- & _). simpl.
        apply Z.eqb_refl.
    - intros r Hr.
      destruct (StoreFacts.foreignKeysOk_todo_tag st r Hfk Hr) as (t & Ht & Et).
      destruct (Z.eqb_spec (TodoTag.todo_id r) (Todo.id next)) as [E'|];
        [|reflexivity].
      exfalso. apply (Hnew t Ht). lia. }
  split.
  { rewrite filter_app.
    rewrite (StoreFacts.filter_none _ (subtasks st)).
    - simpl. apply StoreFacts.filter_all. intros s Hs.
      rewrite (Hcopies s Hs). apply Z.eqb_refl.
    - intros s Hs.
      destruct (StoreFacts.foreignKeysOk_subtask st s Hfk Hs) as (t & Ht & Et).
      destruct (Z.eqb_spec (Subtask.todo_id s) (Todo.id next)) as [E'|];
        [|reflexivity].
      exfalso. apply (Hnew t Ht). lia. }
  split.
  { transitivity
      (map (fun p : Z * string * Z * Z =>
              let '(_, title, completed, position) := p in
              (title, completed, position))
           (map (fun s => (Subtask.todo_id s, Subtask.title s,
                           Subtask.completed s, Subtask.position s)) copies)).
    - rewrite map_map. reflexivity.
    - rewrite Hm, map_map. reflexivity. }
  split.
  { unfold Db.todoDB.findById. cbn [todos].
    apply find_app_first. exact Hfind. }
  split.
  { unfold Db.subtaskDB.findByTodo. cbn [subtasks]. f_equal.
    apply StoreFacts.filter_app_none. intros s Hs.
    rewrite (Hcopies s Hs).
    destruct (Z.eqb_spec (Todo.id next) (Todo.id parent)); congruence. }
  split.
  { apply StoreFacts.filter_app_none. intros r Hr.
    apply in_map_iff in Hr as (r' & <- & _). cbn [TodoTag.todo_id].
    destruct (Z.eqb_spec (Todo.id next) (Todo.id parent)); congruence. }
  intros session clock Huser Hc0.
  rewrite (PutFacts.PUT_toggle CURRENT_TIMESTAMP LocalTZA session clock
             (Todo.id parent) parent 1 st Hfind Huser).
  unfold handleCompletion. cbn [Body.completed].
  rewrite Hc0, Htr. cbn [Z.eqb Pos.eqb andb]. unfold bind. rewrite E.
  unfold ret. cbv zeta. cbn [todos subtasks todo_tags todos_seq subtasks_seq].
  eexists. split.
  { unfold Db.todoDB.findById. cbn [todos].
    rewrite (findById_update _ _ _ parent); [reflexivity|].
    apply find_app_first. exact Hfind. }
  cbn [todos subtasks todo_tags].
  split.
  { apply map_update_other; [|congruence].
    apply in_or_app. right. left. reflexivity. }
  split; [|split; reflexivity].
  rewrite map_update_ids, map_app. reflexivity.
Qed.

End Env.

(** The claim as stated fails on [rentStore]: the second subtask of the
    original has the title [" Transfer "], and the next instance gets no
    subtask with that title (its copy is titled ["Transfer"]). *)
Lemma recurring_completion_trims_copied_titles :
  exists payload st' next,
    PUT "2026-03-01 03:00:00" SINGAPORE_OFFSET (Some alice) mar1 (Some 1)
        complete rentStore
    = (Return (Json 200 payload), st') /\
    next_todo payload = Some next /\
    map Subtask.title (Db.subtaskDB.findByTodo (Todo.id rent) rentStore)
    = ["Check balance"; " Transfer "; "File receipt"]%list /\
    map Subtask.title (Db.subtaskDB.findByTodo (Todo.id next) st')
    = ["Check balance"; "Transfer"; "File receipt"]%list /\
    ~ In " Transfer "
        (map Subtask.title (Db.subtaskDB.findByTodo (Todo.id next) st')).
Proof.
  eexists. eexists. eexists.
  split; [vm_compute; reflexivity|].
  split; [reflexivity|].
  split; [vm_compute; reflexivity|].
  split; [vm_compute; reflexivity|].
  vm_compute. intros H.
  repeat (destruct H as [H|H]; [discriminate H|]). exact H.
Qed.

Lemma recurring_completion_creates_next_instance_witness :
  exists next st',
    Db.todoDB.createRecurringInstance "2026-03-01 03:00:00" SINGAPORE_OFFSET
      rent rentStore = (Return next, st') /\
    Todo.title next = "Pay rent" /\
    Todo.due_date next = "2026-04-01 12:00:00" /\
    map TodoTag.tag_id
      (filter (fun r => TodoTag.todo_id r =? Todo.id next) (todo_tags st'))
    = [10; 11]%list.
Proof.
  destruct (recurring_completion_creates_next_instance
              "2026-03-01 03:00:00" SINGAPORE_OFFSET rent rentStore
              "2026-04-01 12:00:00" eq_refl eq_refl eq_refl eq_refl)
    as (next & copies & st' & E & _ & _ & _ & Ht & _ & _ & _ & Hd & _ & _
        & Htags & _).
  exists next, st'. split; [exact E|]. split; [exact Ht|]. split; [exact Hd|].
  exact Htags.
Defined.


End AdvancementClaims.

(** ** Printing a date and reading it back *)

Module FormatFacts.

Import Calendar JsDate DateFns Spec.

Lemma forallFrom_spec (f : Z -> bool) (n : nat) :
  forall start, forallFrom start n f = true ->
  forall z, start <= z < start + Z.of_nat n -> f z = true.
Proof.
  induction n as [|k IH]; intros start H z Hz.
  - simpl in Hz. lia.
  - simpl in H. apply andb_true_iff in H as [H0 Hk].
    destruct (Z.eq_dec z start) as [->|Hne]; [exact H0|].
    apply (IH (start + 1) Hk). lia.
Qed.

Lemma twoDigitsOk_all : forallFrom 0 100 twoDigitsOk = true.
Proof. vm_compute. reflexivity. Qed.

Lemma fourDigitsOk_all : forallFrom 1 (Z.to_nat 9999) fourDigitsOk = true.
Proof. vm_compute. reflexivity. Qed.

Lemma addLeadingZeros_two n :
  0 <= n <= 99 ->
  exists a b,
    addLeadingZeros n 2 = String a (String b EmptyString) /\
    num2 a b = Some n.
Proof.
  intros H.
  pose proof (forallFrom_spec _ _ _ twoDigitsOk_all n ltac:(simpl; lia)) as Hok.
  unfold twoDigitsOk in Hok.
  destruct (addLeadingZeros n 2) as [|a [|b [|? ?]]]; try discriminate.
  exists a, b. split; [reflexivity|].
  destruct (num2 a b) as [k|]; [|discriminate].
  apply Z.eqb_eq in Hok. congruence.
Qed.

Lemma formatYear_four y :
  1 <= y <= 9999 ->
  exists a b c d,
    formatYear y = String a (String b (String c (String d EmptyString))) /\
    num4 a b c d = Some y.
Proof.
  intros H.
  pose proof (forallFrom_spec _ _ _ fourDigitsOk_all y ltac:(lia)) as Hok.
  unfold fourDigitsOk in Hok.
  destruct (formatYear y) as [|a [|b [|c [|d [|? ?]]]]]; try discriminate.
  exists a, b, c, d. split; [reflexivity|].
  destruct (num4 a b c d) as [k|]; [|discriminate].
  apply Z.eqb_eq in Hok. congruence.
Qed.

Lemma time_field_bounds t :
  0 <= HourFromTime t <= 23 /\ 0 <= MinFromTime t <= 59 /\
  0 <= SecFromTime t <= 59 /\ 0 <= msFromTime t <= 999.
Proof.
  unfold HourFromTime, MinFromTime, SecFromTime, msFromTime, msPerSecond.
  repeat split;
    solve [apply Z.mod_pos_bound; lia
          | pose proof (Z.mod_pos_bound (t / msPerHour) 24 ltac:(lia)); lia
          | pose proof (Z.mod_pos_bound (t / msPerMinute) 60 ltac:(lia)); lia
          | pose proof (Z.mod_pos_bound (t / 1000) 60 ltac:(lia)); lia
          | pose proof (Z.mod_pos_bound t 1000 ltac:(lia)); lia].
Qed.

Section LocalZone.

Variable LocalTZA : Z.

(** A date whose local year is within 1..9999 prints as a string that
    parses to the same date, cut to whole seconds. *)
Lemma parse_format_valid date :
  1 <= getFullYear LocalTZA date <= 9999 ->
  JsDate.parse LocalTZA (format_valid LocalTZA date)
  = Some (date - msFromTime (LocalTime LocalTZA date)).
Proof.
  intros Hy. unfold format_valid.
  set (t := LocalTime LocalTZA date).
  destruct (JsDateFacts.fields_valid t) as [Hm Hd].
  pose proof (CalendarFacts.daysInMonth_bounds (YearFromTime t) (MonthFromTime t + 1)) as Hdim.
  destruct (time_field_bounds t) as (Hh & Hmi & Hs & Hms).
  destruct (formatYear_four _ Hy) as (y1 & y2 & y3 & y4 & -> & Ey).
  unfold getMonth, getDate, getHours, getMinutes, getSeconds. fold t.
  destruct (addLeadingZeros_two (MonthFromTime t + 1) ltac:(lia))
    as (m1 & m2 & -> & Em).
  destruct (addLeadingZeros_two (DateFromTime t) ltac:(lia))
    as (d1 & d2 & -> & Ed).
  destruct (addLeadingZeros_two (HourFromTime t) ltac:(lia))
    as (h1 & h2 & -> & Eh).
  destruct (addLeadingZeros_two (MinFromTime t) ltac:(lia))
    as (n1 & n2 & -> & En).
  destruct (addLeadingZeros_two (SecFromTime t) ltac:(lia))
    as (s1 & s2 & -> & Es).
  unfold parse. cbn -[num2 num4 fromFields].
  rewrite Ey, Em, Ed, Eh, En, Es.
  unfold fromFields, validFields.
  replace ((1 <=? MonthFromTime t + 1) && (MonthFromTime t + 1 <=? 12) &&
           (1 <=? DateFromTime t) && (DateFromTime t <=? 31) &&
           (MinFromTime t <=? 59) && (SecFromTime t <=? 59) &&
           ((HourFromTime t <=? 23) ||
            (HourFromTime t =? 24) && (MinFromTime t =? 0) && (SecFromTime t =? 0)))
    with true.
  2:{ symmetry. repeat (apply andb_true_iff; split); try (apply Z.leb_le; lia).
      apply orb_true_iff. left. apply Z.leb_le. lia. }
  f_equal.
  replace (MonthFromTime t + 1 - 1) with (MonthFromTime t) by lia.
  fold (getFullYear LocalTZA date) in *. unfold getFullYear. fold t.
  rewrite JsDateFacts.MakeDay_fields.
  pose proof (JsDateFacts.MakeTime_fields t) as HT.
  destruct (JsDateFacts.Day_TimeWithinDay t) as [Ht _].
  unfold MakeTime in *. unfold UTC, MakeDate. subst t. unfold LocalTime in *. lia.
Qed.

End LocalZone.

End FormatFacts.

(** ** The sequence of next occurrences *)

Module OccurrenceFacts.

Import Calendar JsDate DateFns Recurrence Spec.

(** The local times between [minFormatTime] and [maxFormatTime] are those
    of the years 1 to 9999. *)
Lemma year_in_range t :
  minFormatTime <= t < maxFormatTime -> 1 <= YearFromTime t <= 9999.
Proof.
  intros Ht.
  pose proof (CalendarFacts.civil_from_days_spec (Day t)) as H.
  rewrite JsDateFacts.civil_fields in H. destruct H as [[Hm Hd] Hback].
  pose proof (CalendarFacts.daysInMonth_bounds (YearFromTime t) (MonthFromTime t + 1)).
  assert (HD : -719162 <= Day t <= 2932896).
  { unfold Day, msPerDay, minFormatTime, maxFormatTime in *.
    Z.to_euclidean_division_equations; lia. }
  rewrite <- Hback in HD. clear Hback Ht.
  set (y := YearFromTime t) in *. set (m := MonthFromTime t + 1) in *.
  set (d := DateFromTime t) in *.
  unfold days_from_civil, startOfYear, doyOf in HD.
  destruct (Z.leb_spec m 2); destruct (Z.ltb_spec 2 m); try lia;
    Z.to_euclidean_division_equations; lia.
Qed.

(** Between one year and the next, on the first of the same month, there
    are 365 or 366 days. *)
Lemma days_from_civil_next_year y m :
  1 <= m <= 12 ->
  365 <= days_from_civil (y + 1) m 1 - days_from_civil y m 1 <= 366.
Proof.
  intros Hm. unfold days_from_civil, startOfYear, doyOf.
  destruct (Z.leb_spec m 2); destruct (Z.ltb_spec 2 m); try lia;
    Z.to_euclidean_division_equations; lia.
Qed.

Section LocalZone.

Variable LocalTZA : Z.

Lemma LocalTime_days date :
  LocalTime LocalTZA date
  = MakeDate (days_from_civil (getFullYear LocalTZA date)
                (getMonth LocalTZA date + 1) (getDate LocalTZA date))
             (TimeWithinDay (LocalTime LocalTZA date)).
Proof.
  unfold getFullYear, getMonth, getDate.
  set (t := LocalTime LocalTZA date).
  destruct (JsDateFacts.fields_valid t) as [Hm _].
  rewrite <- (JsDateFacts.MakeDay_civil _ _ _ Hm).
  replace (MonthFromTime t + 1 - 1) with (MonthFromTime t) by lia.
  rewrite JsDateFacts.MakeDay_fields.
  destruct (JsDateFacts.Day_TimeWithinDay t) as [Ht _]. unfold MakeDate. lia.
Qed.

(** One month later is between 1 and 31 days later; twelve months later is
    at most 366 days later, and not earlier. *)
Lemma addMonths_bounds date amount :
  amount = 1 \/ amount = 12 ->
  date <= addMonths LocalTZA date amount <= date + 366 * msPerDay.
Proof.
  intros Ha.
  pose proof (DateFnsFacts.addMonths_local LocalTZA date amount) as HL.
  cbv zeta in HL.
  pose proof (LocalTime_days date) as H0.
  destruct (JsDateFacts.fields_valid (LocalTime LocalTZA date)) as [Hm Hd].
  change (YearFromTime (LocalTime LocalTZA date))
    with (getFullYear LocalTZA date) in *.
  change (MonthFromTime (LocalTime LocalTZA date))
    with (getMonth LocalTZA date) in *.
  change (DateFromTime (LocalTime LocalTZA date))
    with (getDate LocalTZA date) in *.
  set (y := getFullYear LocalTZA date) in *.
  set (m := getMonth LocalTZA date + 1) in *.
  set (d := getDate LocalTZA date) in *.
  set (tod := TimeWithinDay (LocalTime LocalTZA date)) in *.
  rewrite (JsDateFacts.days_from_civil_day _ _ (Z.min _ _)) in HL.
  rewrite (JsDateFacts.days_from_civil_day y m d) in H0.
  assert (Hdiff : 0 <= days_from_civil (y + (m + amount - 1) / 12)
                         ((m + amount - 1) mod 12 + 1) 1
                       + Z.min d (daysInMonth (y + (m + amount - 1) / 12)
                                               ((m + amount - 1) mod 12 + 1)) - 1
                       - (days_from_civil y m 1 + d - 1) <= 366).
  { pose proof (CalendarFacts.daysInMonth_bounds y m).
    destruct Ha as [-> | ->].
    - replace (m + 1 - 1) with m by lia.
      pose proof (CalendarFacts.daysInMonth_bounds (y + m / 12) (m mod 12 + 1)).
      rewrite (DateFnsFacts.days_from_civil_next_month y m Hm). lia.
    - replace (y + (m + 12 - 1) / 12) with (y + 1)
        by (Z.to_euclidean_division_equations; lia).
      replace ((m + 12 - 1) mod 12 + 1) with m
        by (Z.to_euclidean_division_equations; lia).
      pose proof (CalendarFacts.daysInMonth_bounds (y + 1) m).
      pose proof (days_from_civil_next_year y m Hm). lia. }
  unfold MakeDate, LocalTime, msPerDay in *. lia.
Qed.

(** Each of the four patterns moves a date forward by at most 366 days. *)
Lemma next_date_bounds date pattern :
  In pattern ["daily"; "weekly"; "monthly"; "yearly"]%list ->
  exists next,
    (if caseIs (Some pattern) "daily" then Return (addDays LocalTZA date 1)
     else if caseIs (Some pattern) "weekly" then Return (addWeeks LocalTZA date 1)
     else if caseIs (Some pattern) "monthly" then Return (addMonths LocalTZA date 1)
     else if caseIs (Some pattern) "yearly" then Return (addYears LocalTZA date 1)
     else Throw (Error ("Invalid recurrence pattern: "
                        ++ showPattern (Some pattern))))
    = Return next /\
    date <= next <= date + 366 * msPerDay.
Proof.
  simpl. intros [<-|[<-|[<-|[<-|[]]]]]; cbn [caseIs String.eqb Ascii.eqb Bool.eqb];
    eexists; (split; [reflexivity|]).
  - rewrite DateFnsFacts.addDays_shift. unfold msPerDay. lia.
  - rewrite DateFnsFacts.addWeeks_shift. unfold msPerDay. lia.
  - apply addMonths_bounds. auto.
  - unfold addYears. apply addMonths_bounds. auto.
Qed.

(** One step of the calculator on a due date that parses: the result is
    the print of a date between [2 * shift] and [2 * shift + 366 days]
    later, where [shift] is what [toZonedTime] adds. *)
Lemma calculateNextDueDate_step s tv pattern :
  In pattern ["daily"; "weekly"; "monthly"; "yearly"]%list ->
  JsDate.parse LocalTZA s = Some tv ->
  exists zoned,
    calculateNextDueDate LocalTZA s (Some pattern)
    = Return (format_valid LocalTZA zoned) /\
    tv + 2 * (SINGAPORE_OFFSET - LocalTZA) <= zoned
    <= tv + 2 * (SINGAPORE_OFFSET - LocalTZA) + 366 * msPerDay.
Proof.
  intros Hp Hs. unfold calculateNextDueDate. rewrite Hs. cbn [toZonedTime bindC].
  destruct (next_date_bounds (toZonedTime_valid LocalTZA tv) pattern Hp)
    as (next & -> & Hb).
  cbn [bindC toZonedTime format].
  exists (toZonedTime_valid LocalTZA next). split; [reflexivity|].
  rewrite !DateFnsFacts.toZonedTime_valid_shift in *. lia.
Qed.

(** The loop returns as long as the dates it prints stay within the years
    1 to 9999. *)
Lemma occurrencesLoop_returns pattern start :
  In pattern ["daily"; "weekly"; "monthly"; "yearly"]%list ->
  forall iters s tv occurrences done,
    JsDate.parse LocalTZA s = Some tv ->
    0 <= done ->
    start + done * (2 * (SINGAPORE_OFFSET - LocalTZA) - 999)
      <= LocalTime LocalTZA tv
      <= start + done * (2 * (SINGAPORE_OFFSET - LocalTZA) + 366 * msPerDay) ->
    (forall j, done < j <= done + Z.of_nat iters ->
       minFormatTime <= start + j * (2 * (SINGAPORE_OFFSET - LocalTZA) - 999) /\
       start + j * (2 * (SINGAPORE_OFFSET - LocalTZA) + 366 * msPerDay)
         < maxFormatTime) ->
    returns (occurrencesLoop LocalTZA (Some pattern) iters s occurrences).
Proof.
  intros Hp. induction iters as [|k IH]; intros s tv occ done Hs Hdone Hinv Hrange.
  - simpl. eexists. reflexivity.
  - simpl.
    destruct (calculateNextDueDate_step s tv pattern Hp Hs) as (zoned & -> & Hz).
    cbn [bindC].
    specialize (Hrange (done + 1)) as Hr1.
    assert (Hr : minFormatTime <= LocalTime LocalTZA zoned < maxFormatTime).
    { unfold LocalTime in *. lia. }
    pose proof (year_in_range _ Hr) as Hy.
    pose proof (FormatFacts.parse_format_valid LocalTZA zoned Hy) as Hparse.
    destruct (FormatFacts.time_field_bounds (LocalTime LocalTZA zoned))
      as (_ & _ & _ & Hms).
    apply (IH _ _ _ (done + 1) Hparse); [lia| |].
    + unfold LocalTime in *. lia.
    + intros j Hj. apply Hrange. lia.
Qed.

(** What the loop returns: the given occurrences followed by one more per
    iteration, each computed from the one before. *)
Lemma occurrencesLoop_chained pattern :
  forall iters current occurrences l,
    occurrencesLoop LocalTZA pattern iters current occurrences = Return l ->
    exists rest,
      l = (occurrences ++ rest)%list /\
      List.length rest = iters /\
      chained (fun c => calculateNextDueDate LocalTZA c pattern) current rest.
Proof.
  induction iters as [|k IH]; intros current occ l H; simpl in H.
  - injection H as <-. exists nil. rewrite app_nil_r. simpl. auto.
  - destruct (calculateNextDueDate LocalTZA current pattern) as [next|e] eqn:E;
      [|discriminate H].
    cbn [bindC] in H. apply IH in H as (rest & -> & Hlen & Hch).
    exists (next :: rest)%list. rewrite <- app_assoc. simpl.
    repeat split; auto.
Qed.

End LocalZone.




End OccurrenceFacts.

(** ** Marking a reminder as sent *)

Module MarkingFacts.

Import Db NotificationsCheck JsDate DateFns Spec.

(** The stamp [formatSingaporeDate(now)] that the check stores in
    [last_notification_sent] reads back as [now] moved by the zone
    difference of [toZonedTime], cut to whole seconds. *)
Lemma formatSingaporeDate_parse LocalTZA now :
  let zoned := toZonedTime_valid LocalTZA now in
  minFormatTime <= LocalTime LocalTZA zoned < maxFormatTime ->
  JsDate.parse LocalTZA (Timezone.formatSingaporeDate LocalTZA now)
  = Some (now + (SINGAPORE_OFFSET - LocalTZA)
          - msFromTime (LocalTime LocalTZA zoned)).
Proof.
  intros zoned Hr. unfold Timezone.formatSingaporeDate. fold zoned.
  rewrite (FormatFacts.parse_format_valid LocalTZA zoned
             (OccurrenceFacts.year_in_range _ Hr)).
  subst zoned. rewrite DateFnsFacts.toZonedTime_valid_shift. reflexivity.
Qed.

(** With the process in the zone of Singapore: a todo stamped at [now] is
    skipped by every evaluation less than 5 minutes after the stamp, and
    passes the de-duplication check from 5 minutes after [now] on. *)
Lemma stamped_todo_skipped_for_5_minutes now later t :
  minFormatTime <= LocalTime SINGAPORE_OFFSET now < maxFormatTime ->
  Todo.last_notification_sent t
  = Some (Timezone.formatSingaporeDate SINGAPORE_OFFSET now) ->
  (later - now + msFromTime (LocalTime SINGAPORE_OFFSET now) < 5 * 60 * 1000 ->
   reminderFilter SINGAPORE_OFFSET later t = false) /\
  (forall rm due,
     5 * 60 * 1000 <= later - now ->
     Todo.completed t = 0 ->
     Todo.reminder_minutes t = Some rm -> rm <> 0 ->
     JsDate.parse SINGAPORE_OFFSET (Todo.due_date t) = Some due ->
     due - rm * 60 * 1000 <= later < due ->
     reminderFilter SINGAPORE_OFFSET later t = true).
Proof.
  intros Hr Hstamp.
  assert (Hz : toZonedTime_valid SINGAPORE_OFFSET now = now)
    by apply RecurrenceFacts.toZonedTime_valid_singapore.
  pose proof (formatSingaporeDate_parse SINGAPORE_OFFSET now) as Hp.
  cbv zeta in Hp. rewrite Hz in Hp. specialize (Hp Hr).
  replace (now + (SINGAPORE_OFFSET - SINGAPORE_OFFSET)) with now in Hp by lia.
  destruct (FormatFacts.time_field_bounds (LocalTime SINGAPORE_OFFSET now))
    as (_ & _ & _ & Hms).
  set (stamp := Timezone.formatSingaporeDate SINGAPORE_OFFSET now) in *.
  assert (Htruthy : JsValue.orNullString (Some stamp) = Some stamp).
  { unfold JsValue.orNullString, JsString.truthy.
    destruct (String.eqb_spec stamp "") as [E|]; [|reflexivity].
    rewrite E in Hp. discriminate Hp. }
  split.
  - intros Hlt.
    destruct (reminderFilter SINGAPORE_OFFSET later t) eqn:Hf; [|reflexivity].
    apply ReminderFacts.reminderFilter_true in Hf
      as (_ & rm & due & _ & _ & _ & _ & Hd).
    rewrite Hstamp, Htruthy, Hp in Hd. lia.
  - intros rm due Hge Hc Hrm Hnz Hdue Hw.
    apply ReminderFacts.reminderFilter_true. split; [exact Hc|].
    exists rm, due. rewrite Hstamp, Htruthy, Hp.
    repeat split; solve [assumption | lia].
Qed.

Lemma insertBy_In {A : Type} (leb : A -> A -> bool) x y l :
  In x (insertBy leb y l) <-> x = y \/ In x l.
Proof.
  induction l as [|z rest IH]; simpl.
  - intuition.
  - destruct (leb y z); simpl; [intuition|]. rewrite IH. intuition.
Qed.

Lemma orderBy_In {A : Type} (leb : A -> A -> bool) x l :
  In x (orderBy leb l) <-> In x l.
Proof.
  unfold orderBy. induction l as [|y rest IH]; simpl; [tauto|].
  rewrite insertBy_In, IH. intuition.
Qed.

Lemma applyUpdate_stamp_twice stamp t :
  let data := Db.todoDB.mkUpdateData None None None None None None None
                (Some (Some stamp)) in
  Db.todoDB.applyUpdate data (Db.todoDB.applyUpdate data t)
  = Db.todoDB.applyUpdate data t.
Proof. reflexivity. Qed.

(** Marking the returned reminders stamps exactly the rows of the todos
    that were returned. *)
Lemma markSent_spec stamp rs :
  forall st,
    markSent stamp rs st
    = (Return tt,
       mkStore
         (map (fun t =>
                 if existsb (fun r => Todo.id (todo r) =? Todo.id t) rs
                 then Db.todoDB.applyUpdate
                        (Db.todoDB.mkUpdateData None None None None None None
                           None (Some (Some stamp))) t
                 else t) (todos st))
         (subtasks st) (todo_tags st) (todos_seq st) (subtasks_seq st)).
Proof.
  induction rs as [|r rest IH]; intros st.
  - simpl. unfold ret. rewrite map_id. destruct st; reflexivity.
  - simpl. unfold bind at 1. unfold Db.todoDB.update. rewrite IH.
    cbn [todos subtasks todo_tags todos_seq subtasks_seq].
    rewrite map_map. f_equal. f_equal. apply map_ext. intros t.
    rewrite (Z.eqb_sym (Todo.id (todo r)) (Todo.id t)).
    destruct (Z.eqb_spec (Todo.id t) (Todo.id (todo r))) as [E|E]; simpl.
    + destruct (existsb _ rest); reflexivity.
    + reflexivity.
Qed.

(** X19. With the process in the zone of Singapore, two checks in a row:
    a todo returned by the first check is not returned by a second check
    made less than 5 minutes after the stamp of the first. *)
Lemma GET_does_not_repeat_within_5_minutes
    session clock later st reminders st' reminders' st'' :
  minFormatTime <= LocalTime SINGAPORE_OFFSET clock < maxFormatTime ->
  GET SINGAPORE_OFFSET (Some session) clock st
  = (Return (Json 200 reminders), st') ->
  later - clock + msFromTime (LocalTime SINGAPORE_OFFSET clock) < 5 * 60 * 1000 ->
  GET SINGAPORE_OFFSET (Some session) later st'
  = (Return (Json 200 reminders'), st'') ->
  forall r r', In r reminders -> In r' reminders' ->
    Todo.id (todo r') <> Todo.id (todo r).
Proof.
  intros Hr H1 Hlt H2 r r' Hin Hin' Eid.
  assert (Hnow : forall c, Timezone.getSingaporeNow SINGAPORE_OFFSET c = c)
    by (intros c; apply RecurrenceFacts.toZonedTime_valid_singapore).
  unfold GET, tryCatch in H1. unfold bind at 1 in H1. unfold gets in H1.
  rewrite Hnow in H1. unfold bind at 1 in H1. rewrite markSent_spec in H1.
  unfold ret in H1. injection H1 as <- <-.
  destruct (ReminderFacts.GET_reminders SINGAPORE_OFFSET session later
              (mkStore
                 (map (fun t =>
                         if existsb (fun r0 => Todo.id (todo r0) =? Todo.id t)
                              (dueReminders SINGAPORE_OFFSET clock
                                 (Db.todoDB.findByUser (userId session) st))
                         then Db.todoDB.applyUpdate
                                (Db.todoDB.mkUpdateData None None None None None
                                   None None
                                   (Some (Some (Timezone.formatSingaporeDate
                                                  SINGAPORE_OFFSET clock)))) t
                         else t) (todos st))
                 (subtasks st) (todo_tags st) (todos_seq st) (subtasks_seq st)))
    as [st2 E2].
  rewrite E2 in H2. injection H2 as <- _. rewrite Hnow in Hin'.
  apply ReminderFacts.dueReminders_In in Hin' as (t' & Ht' & Hf & ->).
  unfold reminderEntry in Eid. cbn [todo] in Eid.
  unfold Db.todoDB.findByUser in Ht'. apply orderBy_In in Ht'.
  apply filter_In in Ht' as [Ht' _]. cbn [todos] in Ht'.
  apply in_map_iff in Ht' as (t & Et & _).
  fold (Db.todoDB.findByUser (userId session) st) in Et.
  assert (Hex : existsb (fun r0 => Todo.id (todo r0) =? Todo.id t)
                  (dueReminders SINGAPORE_OFFSET clock
                     (Db.todoDB.findByUser (userId session) st)) = true).
  { apply existsb_exists. exists r. split; [exact Hin|].
    apply Z.eqb_eq. rewrite <- Eid, <- Et.
    destruct (existsb _ _); reflexivity. }
  rewrite Hex in Et.
  assert (Hstamp : Todo.last_notification_sent t'
                   = Some (Timezone.formatSingaporeDate SINGAPORE_OFFSET clock))
    by (rewrite <- Et; reflexivity).
  destruct (stamped_todo_skipped_for_5_minutes clock later t' Hr Hstamp)
    as [Hskip _].
  rewrite (Hskip Hlt) in Hf. discriminate Hf.
Qed.

End MarkingFacts.
(* ===================================================================== *)
(** ** Tables: keys, ordering and the statements run against them *)
(* ===================================================================== *)

Module TableFacts.

Import Db DbCrud.

(** *** Distinct keys *)

Lemma distinct_cons_inv {A : Type} (eqb : A -> A -> bool) x l :
  distinct eqb (x :: l) = true ->
  existsb (eqb x) l = false /\ distinct eqb l = true.
Proof.
  simpl. intros H. apply andb_true_iff in H as [H1 H2].
  apply negb_true_iff in H1. auto.
Qed.

Lemma distinct_keys_NoDup {A : Type} (key : A -> Z) l :
  distinct Z.eqb (map key l) = true <-> NoDup (map key l).
Proof.
  induction l as [|x r IH]; simpl.
  - split; [constructor|reflexivity].
  - rewrite andb_true_iff, negb_true_iff, IH. split.
    + intros [Hx Hr]. constructor; [|exact Hr].
      intros Hin.
      assert (existsb (Z.eqb (key x)) (map key r) = true); [|congruence].
      apply existsb_exists. exists (key x). split; [exact Hin|apply Z.eqb_refl].
    + intros H. inversion H as [|? ? Hx Hr]; subst. split; [|exact Hr].
      apply StoreFacts.existsb_false. intros y Hy.
      apply Z.eqb_neq. intros E. rewrite <- E in Hy. contradiction.
Qed.

(** Two rows of a table with the same key are the same row. *)
Lemma distinct_keys_inj {A : Type} (key : A -> Z) l a b :
  distinct Z.eqb (map key l) = true ->
  In a l -> In b l -> key a = key b -> a = b.
Proof.
  induction l as [|x r IH]; simpl; [contradiction|].
  intros H Ha Hb E. apply andb_true_iff in H as [Hx Hr].
  apply negb_true_iff in Hx.
  assert (Hnot : forall y, In y r -> key y <> key x).
  { intros y Hy Ey.
    assert (existsb (Z.eqb (key x)) (map key r) = true); [|congruence].
    apply existsb_exists.
    exists (key y). split; [apply in_map; exact Hy|apply Z.eqb_eq; auto]. }
  destruct Ha as [<-|Ha], Hb as [<-|Hb]; auto.
  - exfalso. apply (Hnot b Hb). auto.
  - exfalso. apply (Hnot a Ha). auto.
Qed.

Lemma distinct_filter {A : Type} (key : A -> Z) (p : A -> bool) l :
  distinct Z.eqb (map key l) = true ->
  distinct Z.eqb (map key (filter p l)) = true.
Proof.
  rewrite !distinct_keys_NoDup.
  induction l as [|x r IH]; simpl; intros H; [constructor|].
  inversion H as [|? ? Hx Hr]; subst.
  destruct (p x); simpl; [|auto].
  constructor; [|auto]. intros Hin. apply Hx.
  apply in_map_iff in Hin as (y & E & Hy). apply filter_In in Hy as [Hy _].
  rewrite <- E. apply in_map. exact Hy.
Qed.

Lemma distinct_map_same_keys {A : Type} (key : A -> Z) (f : A -> A) l :
  (forall x, key (f x) = key x) ->
  map key (map f l) = map key l.
Proof.
  intros H. rewrite map_map. apply map_ext. exact H.
Qed.

(** *** Looking rows up *)

Lemma find_some_In {A : Type} (p : A -> bool) l x :
  find p l = Some x -> In x l /\ p x = true.
Proof. apply find_some. Qed.

Lemma findById_Some st id t :
  Db.todoDB.findById id st = Some t -> In t (todos st) /\ Todo.id t = id.
Proof.
  unfold Db.todoDB.findById. intros H. apply find_some in H as [Hin E].
  split; [exact Hin|lia].
Qed.

Lemma findById_None st id :
  Db.todoDB.findById id st = None ->
  forall t, In t (todos st) -> Todo.id t <> id.
Proof.
  unfold Db.todoDB.findById. intros H t Hin E.
  pose proof (find_none _ _ H t Hin) as Hn. simpl in Hn. lia.
Qed.

Lemma findById_exists st id t :
  Db.todoDB.findById id st = Some t ->
  existsb (fun t => Todo.id t =? id) (todos st) = true.
Proof.
  intros H. apply findById_Some in H as [Hin E].
  apply existsb_exists. exists t. split; [exact Hin|lia].
Qed.

(** With the primary key in force, the row that [findById] returns is the
    only row with that id. *)
Lemma findById_unique st id t t' :
  primaryKeysOk st = true ->
  Db.todoDB.findById id st = Some t ->
  In t' (todos st) -> Todo.id t' = id -> t' = t.
Proof.
  unfold primaryKeysOk. intros H Hf Hin E.
  apply andb_true_iff in H as [H _]. apply andb_true_iff in H as [H _].
  apply findById_Some in Hf as [Hin' E'].
  apply (distinct_keys_inj Todo.id (todos st)); auto. lia.
Qed.

Lemma subtask_findById_Some st id s :
  Db.subtaskDB.findById id st = Some s ->
  In s (subtasks st) /\ Subtask.id s = id.
Proof.
  unfold Db.subtaskDB.findById. intros H. apply find_some in H as [Hin E].
  split; [exact Hin|lia].
Qed.

Lemma filter_filter {A : Type} (p q : A -> bool) l :
  filter p (filter q l) = filter (fun x => q x && p x) l.
Proof.
  induction l as [|x r IH]; simpl; [reflexivity|].
  destruct (q x); simpl; [destruct (p x); simpl; rewrite IH; reflexivity|exact IH].
Qed.

Lemma filter_ext_In' {A : Type} (p q : A -> bool) l :
  (forall x, In x l -> p x = q x) -> filter p l = filter q l.
Proof. apply filter_ext_in. Qed.

Lemma Forall2_map_In {A B : Type} (R : A -> B -> Prop) (g : A -> B) l :
  (forall x, In x l -> R x (g x)) -> Forall2 R l (map g l).
Proof.
  induction l as [|x r IH]; intros H; simpl; constructor.
  - apply H. left. reflexivity.
  - apply IH. intros y Hy. apply H. right. exact Hy.
Qed.

(** *** [ORDER BY] *)

Section Ordering.

Context {A : Type} (leb : A -> A -> bool).

Hypothesis leb_total : forall a b, leb a b = true \/ leb b a = true.

Let R (a b : A) : Prop := leb a b = true.

Lemma insertBy_HdRel a x l :
  R a x -> HdRel R a l -> HdRel R a (insertBy leb x l).
Proof.
  intros Hax Hl. destruct l as [|y r]; simpl; [constructor; exact Hax|].
  destruct (leb x y); constructor; [exact Hax|].
  inversion Hl; assumption.
Qed.

Lemma insertBy_Sorted x l : Sorted R l -> Sorted R (insertBy leb x l).
Proof.
  induction l as [|y r IH]; simpl; intros Hs.
  - constructor; constructor.
  - destruct (leb x y) eqn:E.
    + constructor; [exact Hs|constructor; exact E].
    + inversion Hs as [|? ? Hr Hy]; subst.
      constructor; [apply IH; exact Hr|].
      apply insertBy_HdRel; [|exact Hy].
      destruct (leb_total y x) as [H|H]; [exact H|congruence].
Qed.

(** The rows come back in the order of the [ORDER BY] clause. *)
Lemma orderBy_Sorted l : Sorted R (orderBy leb l).
Proof.
  unfold orderBy. induction l as [|x r IH]; simpl; [constructor|].
  apply insertBy_Sorted. exact IH.
Qed.

End Ordering.

Lemma insertBy_Permutation {A : Type} (leb : A -> A -> bool) x l :
  Permutation (x :: l) (insertBy leb x l).
Proof.
  induction l as [|y r IH]; simpl; [reflexivity|].
  destruct (leb x y); [reflexivity|].
  rewrite perm_swap. constructor. exact IH.
Qed.

(** ... and they are the rows that were selected, each once. *)
Lemma orderBy_Permutation {A : Type} (leb : A -> A -> bool) l :
  Permutation l (orderBy leb l).
Proof.
  unfold orderBy. induction l as [|x r IH]; simpl; [reflexivity|].
  rewrite <- insertBy_Permutation. constructor. exact IH.
Qed.

Lemma orderBy_length {A : Type} (leb : A -> A -> bool) l :
  List.length (orderBy leb l) = List.length l.
Proof. symmetry. apply Permutation_length, orderBy_Permutation. Qed.

(** *** Transitive orders: sorting commutes with selecting *)

Lemma string_compare_trans a :
  forall b c,
    String.compare a b <> Gt -> String.compare b c <> Gt ->
    String.compare a c <> Gt.
Proof.
  induction a as [|x a' IH]; intros [|y b'] [|z c']; simpl;
    try congruence.
  unfold Ascii.compare.
  destruct (N.compare_spec (N_of_ascii x) (N_of_ascii y)) as [Exy|Lxy|Gxy];
    destruct (N.compare_spec (N_of_ascii y) (N_of_ascii z)) as [Eyz|Lyz|Gyz];
    destruct (N.compare_spec (N_of_ascii x) (N_of_ascii z)) as [Exz|Lxz|Gxz];
    try congruence; try lia.
  apply IH.
Qed.

Lemma String_leb_trans a b c :
  String.leb a b = true -> String.leb b c = true -> String.leb a c = true.
Proof.
  unfold String.leb. intros H1 H2.
  pose proof (string_compare_trans a b c) as H.
  destruct (String.compare a b), (String.compare b c), (String.compare a c);
    try reflexivity; try discriminate; exfalso; apply H; congruence.
Qed.

Lemma subtaskOrder_trans a b c :
  Db.subtaskDB.subtaskOrder a b = true ->
  Db.subtaskDB.subtaskOrder b c = true ->
  Db.subtaskDB.subtaskOrder a c = true.
Proof.
  unfold Db.subtaskDB.subtaskOrder. intros H1 H2.
  apply orb_true_iff in H1, H2. apply orb_true_iff.
  destruct H1 as [H1|H1], H2 as [H2|H2];
    try apply andb_true_iff in H1 as [E1 L1];
    try apply andb_true_iff in H2 as [E2 L2].
  - left. lia.
  - left. lia.
  - left. lia.
  - right. apply andb_true_iff. split; [lia|].
    apply (String_leb_trans _ _ _ L1 L2).
Qed.

Lemma subtaskOrder_position a b :
  Db.subtaskDB.subtaskOrder a b = true ->
  Subtask.position a <= Subtask.position b.
Proof.
  unfold Db.subtaskDB.subtaskOrder. intros H.
  apply orb_true_iff in H as [H|H]; [lia|].
  apply andb_true_iff in H as [H _]. lia.
Qed.

Lemma Sorted_impl {A : Type} (R R' : A -> A -> Prop) l :
  (forall a b, R a b -> R' a b) -> Sorted R l -> Sorted R' l.
Proof.
  intros H. induction 1 as [|a l Hs IH Hd]; constructor; [exact IH|].
  destruct Hd; constructor; auto.
Qed.

Section Transitive.

Context {A : Type} (leb : A -> A -> bool).

Hypothesis leb_total : forall a b, leb a b = true \/ leb b a = true.
Hypothesis leb_trans :
  forall a b c, leb a b = true -> leb b c = true -> leb a c = true.

Let R (a b : A) : Prop := leb a b = true.

Lemma orderBy_StronglySorted l : StronglySorted R (orderBy leb l).
Proof.
  apply Sorted_StronglySorted.
  - intros a b c. apply leb_trans.
  - apply orderBy_Sorted. exact leb_total.
Qed.

Lemma insertBy_first x l :
  (forall y, In y l -> leb x y = true) -> insertBy leb x l = (x :: l)%list.
Proof.
  intros H. destruct l as [|y r]; simpl; [reflexivity|].
  rewrite (H y (or_introl eq_refl)). reflexivity.
Qed.

Lemma filter_insertBy_out (p : A -> bool) x l :
  p x = false -> filter p (insertBy leb x l) = filter p l.
Proof.
  intros Hp. induction l as [|y r IH]; simpl; [rewrite Hp; reflexivity|].
  destruct (leb x y); simpl; [rewrite Hp; reflexivity|].
  rewrite IH. reflexivity.
Qed.

Lemma insertBy_filter_in (p : A -> bool) x l :
  StronglySorted R l -> p x = true ->
  insertBy leb x (filter p l) = filter p (insertBy leb x l).
Proof.
  intros Hs Hp. induction Hs as [|y r Hr IH Hy]; simpl; [rewrite Hp; reflexivity|].
  destruct (leb x y) eqn:E.
  - simpl. rewrite Hp.
    apply insertBy_first. intros z Hz.
    assert (Hin : In z (y :: r)).
    { destruct (p y); [destruct Hz as [<-|Hz]; [left; reflexivity|]|];
        right; apply filter_In in Hz; tauto. }
    destruct Hin as [<-|Hin]; [exact E|].
    rewrite Forall_forall in Hy. apply (leb_trans x y z E (Hy z Hin)).
  - simpl. destruct (p y); simpl; [rewrite E|]; rewrite IH; reflexivity.
Qed.

(** Selecting rows before or after sorting them gives the same list. *)
Lemma orderBy_filter (p : A -> bool) l :
  orderBy leb (filter p l) = filter p (orderBy leb l).
Proof.
  induction l as [|x r IH]; simpl; [reflexivity|].
  destruct (p x) eqn:Hp; simpl.
  - fold (orderBy leb (filter p r)). rewrite IH.
    apply insertBy_filter_in; [apply orderBy_StronglySorted|exact Hp].
  - rewrite IH. symmetry. apply filter_insertBy_out. exact Hp.
Qed.

(** Sorting a sorted list changes nothing. *)
Lemma orderBy_sorted l : Sorted R l -> orderBy leb l = l.
Proof.
  induction 1 as [|x r Hs IH Hd]; [reflexivity|].
  simpl. fold (orderBy leb r). rewrite IH.
  destruct Hd as [|y r' Hxy]; simpl; [reflexivity|].
  unfold R in Hxy. rewrite Hxy. reflexivity.
Qed.

(** A row that sorts after all the others is appended to them. *)
Lemma insertBy_app_last x y l :
  leb x y = true -> insertBy leb x (l ++ [y]) = (insertBy leb x l ++ [y])%list.
Proof.
  intros H. induction l as [|z r IH]; simpl; [rewrite H; reflexivity|].
  destruct (leb x z); simpl; [reflexivity|]. rewrite IH. reflexivity.
Qed.

Lemma orderBy_app_last y l :
  (forall x, In x l -> leb x y = true) ->
  orderBy leb (l ++ [y]) = (orderBy leb l ++ [y])%list.
Proof.
  induction l as [|x r IH]; intros H; simpl; [reflexivity|].
  fold (orderBy leb (r ++ [y])). fold (orderBy leb r).
  rewrite IH by (intros z Hz; apply H; right; exact Hz).
  apply insertBy_app_last. apply H. left. reflexivity.
Qed.

End Transitive.

(** A list in strictly increasing order of a key is the only sorted
    arrangement of its elements. *)
Lemma sorted_perm_unique {A : Type} (key : A -> Z) (Y : list A) :
  StronglySorted (fun a b => key a < key b) Y ->
  forall X,
    Sorted (fun a b => key a <= key b) X -> Permutation X Y -> X = Y.
Proof.
  induction 1 as [|y Y' HY IH Hy]; intros X HX HP.
  - apply Permutation_sym, Permutation_nil in HP. exact HP.
  - destruct X as [|x X'];
      [apply Permutation_nil in HP; discriminate HP|].
    assert (HXs : StronglySorted (fun a b => key a <= key b) (x :: X')).
    { apply Sorted_StronglySorted; [|exact HX]. intros a b c. lia. }
    apply StronglySorted_inv in HXs as [_ Hx].
    rewrite Forall_forall in Hx, Hy.
    assert (Hyx : In y (x :: X'))
      by (apply (Permutation_in _ (Permutation_sym HP)); left; reflexivity).
    assert (Hxy : In x (y :: Y'))
      by (apply (Permutation_in _ HP); left; reflexivity).
    assert (x = y) as ->.
    { destruct Hxy as [E|Hin]; [auto|]. specialize (Hy x Hin).
      destruct Hyx as [E|Hin']; [auto|]. specialize (Hx y Hin'). lia. }
    f_equal. apply IH.
    + apply Sorted_inv in HX. tauto.
    + apply Permutation_cons_inv in HP. exact HP.
Qed.

Lemma Permutation_filter' {A : Type} (p : A -> bool) l l' :
  Permutation l l' -> Permutation (filter p l) (filter p l').
Proof.
  induction 1 as [|x l l' H IH|x y l|l l' l'' H1 IH1 H2 IH2]; simpl.
  - constructor.
  - destruct (p x); [constructor|]; exact IH.
  - destruct (p x), (p y); try reflexivity. apply perm_swap.
  - rewrite IH1. exact IH2.
Qed.

Lemma StronglySorted_filter {A : Type} (R : A -> A -> Prop) (p : A -> bool) l :
  StronglySorted R l -> StronglySorted R (filter p l).
Proof.
  induction 1 as [|x l Hl IH Hx]; simpl; [constructor|].
  destruct (p x); [|exact IH]. constructor; [exact IH|].
  rewrite Forall_forall in *. intros y Hy. apply Hx.
  apply filter_In in Hy. tauto.
Qed.

Lemma StronglySorted_map_in {A B : Type} (R : A -> A -> Prop)
    (R' : B -> B -> Prop) (f : A -> B) l :
  (forall a b, In a l -> In b l -> R a b -> R' (f a) (f b)) ->
  StronglySorted R l -> StronglySorted R' (map f l).
Proof.
  intros H Hs. induction Hs as [|x l Hl IH Hx]; simpl; constructor.
  - apply IH. intros a b Ha Hb. apply H; right; assumption.
  - rewrite Forall_forall in *. intros y Hy.
    apply in_map_iff in Hy as (b & <- & Hb).
    apply H; [left; reflexivity|right; exact Hb|apply Hx; exact Hb].
Qed.

Lemma Sorted_map {A B : Type} (R : B -> B -> Prop) (f : A -> B) l :
  Sorted (fun a b => R (f a) (f b)) l -> Sorted R (map f l).
Proof.
  induction 1 as [|x l Hl IH Hx]; simpl; constructor; [exact IH|].
  destruct Hx; simpl; constructor; assumption.
Qed.

(** In a list in strictly increasing order of a key, the key names the
    element. *)
Lemma strictly_sorted_inj {A : Type} (key : A -> Z) l a b :
  StronglySorted (fun a b => key a < key b) l ->
  In a l -> In b l -> key a = key b -> a = b.
Proof.
  induction 1 as [|x l Hl IH Hx]; simpl; [contradiction|].
  rewrite Forall_forall in Hx.
  intros [<-|Ha] [<-|Hb] E; auto.
  - specialize (Hx b Hb). lia.
  - specialize (Hx a Ha). lia.
Qed.

Lemma seqZ_strictly_sorted i n :
  StronglySorted (fun a b => a < b) (map Z.of_nat (seq i n)).
Proof.
  revert i. induction n as [|n IH]; intros i; simpl; constructor.
  - apply IH.
  - apply Forall_forall. intros y Hy. apply in_map_iff in Hy as (k & <- & Hk).
    apply in_seq in Hk. lia.
Qed.

Lemma todoOrder_total a b :
  Db.todoDB.todoOrder a b = true \/ Db.todoDB.todoOrder b a = true.
Proof.
  unfold Db.todoDB.todoOrder.
  destruct (Z.ltb_spec (Todo.completed a) (Todo.completed b)) as [H1|H1];
    [left; reflexivity|].
  destruct (Z.ltb_spec (Todo.completed b) (Todo.completed a)) as [H2|H2];
    [right; reflexivity|].
  assert (E : Todo.completed a = Todo.completed b) by lia.
  rewrite E, Z.eqb_refl. simpl.
  destruct (Db.todoDB.priorityRank (Todo.priority a)) as [x|],
           (Db.todoDB.priorityRank (Todo.priority b)) as [y|]; simpl; auto.
  - destruct (Z.ltb_spec x y); [auto|].
    destruct (Z.ltb_spec y x); [auto|].
    assert (x = y) as -> by lia. rewrite Z.eqb_refl. simpl.
    apply String.leb_total.
  - apply String.leb_total.
Qed.

Lemma subtaskOrder_total a b :
  Db.subtaskDB.subtaskOrder a b = true \/ Db.subtaskDB.subtaskOrder b a = true.
Proof.
  unfold Db.subtaskDB.subtaskOrder.
  destruct (Z.ltb_spec (Subtask.position a) (Subtask.position b)) as [H1|H1];
    [left; reflexivity|].
  destruct (Z.ltb_spec (Subtask.position b) (Subtask.position a)) as [H2|H2];
    [right; reflexivity|].
  assert (E : Subtask.position a = Subtask.position b) by lia.
  rewrite E, Z.eqb_refl. simpl. apply String.leb_total.
Qed.

End TableFacts.
(* ===================================================================== *)
(** ** The zone of the process: [lib/timezone.ts] and [lib/recurrence.ts]
       on a host outside Singapore *)
(* ===================================================================== *)

Module ZoneFacts.

Import Calendar JsDate DateFns Recurrence Spec Shape.

(** The local fields of a date shifted by [toZonedTime] are the fields
    that a process in UTC reads [SINGAPORE_OFFSET] later. *)
Lemma LocalTime_zoned LocalTZA date :
  LocalTime LocalTZA (toZonedTime_valid LocalTZA date)
  = LocalTime 0 (date + SINGAPORE_OFFSET).
Proof.
  rewrite DateFnsFacts.toZonedTime_valid_shift. unfold LocalTime. lia.
Qed.

(** The time value of a string that parses is a whole second of local
    time. *)
Lemma parse_whole_seconds LocalTZA s t :
  JsDate.parse LocalTZA s = Some t -> msFromTime (LocalTime LocalTZA t) = 0.
Proof.
  assert (Hf : forall y mo d h mi sec r,
             fromFields LocalTZA y mo d h mi sec = Some r ->
             msFromTime (LocalTime LocalTZA r) = 0).
  { intros [y|] [mo|] [d|] [h|] [mi|] [sec|] r; simpl; try discriminate.
    destruct (validFields mo d h mi sec); [|discriminate].
    intros [= <-]. rewrite DateFnsFacts.LocalTime_UTC.
    unfold msFromTime, MakeDate, MakeTime, msPerDay, msPerHour, msPerMinute,
      msPerSecond.
    Z.to_euclidean_division_equations; lia. }
  unfold parse.
  destruct (list_ascii_of_string s)
    as [|y1 [|y2 [|y3 [|y4 [|c1 [|m1 [|m2 [|c2 [|d1 [|d2 [|sep [|h1 [|h2
        [|c3 [|n1 [|n2 [|c4 [|s1 [|s2 [|? ?]]]]]]]]]]]]]]]]]]]];
    try discriminate.
  - destruct (_ && _); [apply Hf|discriminate].
  - destruct (_ && _); [apply Hf|discriminate].
Qed.


Lemma isPastDate_parsed LocalTZA clock date t :
  JsDate.parse LocalTZA date = Some t ->
  Timezone.isPastDate LocalTZA clock date = Return (t <? clock).
Proof.
  unfold Timezone.isPastDate, Timezone.parseSingaporeDate,
    Timezone.getSingaporeNow.
  intros ->. cbn [toZonedTime bindC].
  rewrite !DateFnsFacts.toZonedTime_valid_shift. f_equal.
  destruct (Z.ltb_spec t clock), (Z.ltb_spec (t + (SINGAPORE_OFFSET - LocalTZA))
                                    (clock + (SINGAPORE_OFFSET - LocalTZA)));
    solve [reflexivity | lia].
Qed.

Lemma isPastDate_unreadable LocalTZA clock date :
  JsDate.parse LocalTZA date = None ->
  Timezone.isPastDate LocalTZA clock date
  = Throw (RangeError "Invalid time value").
Proof.
  unfold Timezone.isPastDate, Timezone.parseSingaporeDate.
  intros ->. reflexivity.
Qed.



Lemma nextDueDate_days LocalTZA s t pattern unit :
  (pattern = "daily" /\ unit = 1) \/ (pattern = "weekly" /\ unit = 7) ->
  JsDate.parse LocalTZA s = Some t ->
  calculateNextDueDate LocalTZA s (Some pattern)
  = Return (format_valid LocalTZA
              (t + unit * msPerDay + 2 * (SINGAPORE_OFFSET - LocalTZA))).
Proof.
  intros Hp Hs. unfold calculateNextDueDate. rewrite Hs.
  destruct Hp as [[-> ->]|[-> ->]];
    cbn [toZonedTime bindC caseIs String.eqb Ascii.eqb Bool.eqb format];
    rewrite ?DateFnsFacts.addDays_shift, ?DateFnsFacts.addWeeks_shift;
    rewrite !DateFnsFacts.toZonedTime_valid_shift; do 2 f_equal; lia.
Qed.



Lemma step_days s t pattern unit :
  (pattern = "daily" /\ unit = 1) \/ (pattern = "weekly" /\ unit = 7) ->
  JsDate.parse SINGAPORE_OFFSET s = Some t ->
  calculateNextDueDate SINGAPORE_OFFSET s (Some pattern)
  = Return (format_valid SINGAPORE_OFFSET (t + unit * msPerDay)).
Proof.
  intros Hp Hs. rewrite (nextDueDate_days SINGAPORE_OFFSET s t pattern unit Hp Hs).
  do 2 f_equal. lia.
Qed.

Lemma occurrencesLoop_days pattern unit t :
  (pattern = "daily" /\ unit = 1) \/ (pattern = "weekly" /\ unit = 7) ->
  msFromTime (LocalTime SINGAPORE_OFFSET t) = 0 ->
  forall iters done s occurrences,
    JsDate.parse SINGAPORE_OFFSET s
    = Some (t + Z.of_nat done * (unit * msPerDay)) ->
    minFormatTime <= LocalTime SINGAPORE_OFFSET t ->
    LocalTime SINGAPORE_OFFSET t
      + Z.of_nat (done + iters) * (unit * msPerDay) < maxFormatTime ->
    occurrencesLoop SINGAPORE_OFFSET (Some pattern) iters s occurrences
    = Return (occurrences ++ occurrencesFrom t unit (S done) iters)%list.
Proof.
  intros Hp Hms. induction iters as [|k IH]; intros done s occ Hs Hlo Hhi.
  - simpl. rewrite app_nil_r. reflexivity.
  - cbn [occurrencesLoop]. rewrite (step_days s _ pattern unit Hp Hs).
    cbn [bindC].
    set (next := t + Z.of_nat done * (unit * msPerDay) + unit * msPerDay).
    assert (Hu : 1 <= unit <= 7) by (destruct Hp as [[_ ->]|[_ ->]]; lia).
    assert (En : next = t + Z.of_nat (S done) * (unit * msPerDay))
      by (subst next; lia).
    clearbody next. subst next.
    set (next := t + Z.of_nat (S done) * (unit * msPerDay)).
    assert (Hr : minFormatTime <= LocalTime SINGAPORE_OFFSET next < maxFormatTime).
    { subst next. unfold LocalTime, msPerDay in *. nia. }
    pose proof (FormatFacts.parse_format_valid SINGAPORE_OFFSET next
                  (OccurrenceFacts.year_in_range _ Hr)) as Hparse.
    assert (Hz : msFromTime (LocalTime SINGAPORE_OFFSET next) = 0).
    { subst next. unfold msFromTime, LocalTime, msPerSecond, msPerDay in *.
      Z.to_euclidean_division_equations; nia. }
    rewrite Hz, Z.sub_0_r in Hparse.
    rewrite (IH (S done) _ _ Hparse Hlo).
    + unfold occurrencesFrom. cbn [seq map]. rewrite <- app_assoc.
      reflexivity.
    + replace (S done + k)%nat with (done + S k)%nat by lia. exact Hhi.
Qed.



End ZoneFacts.
(* ===================================================================== *)
(** ** Reminders: the text of a notification, and what a check writes *)
(* ===================================================================== *)

Module NotifyFacts.

Import Db DbCrud NotificationsCheck UseNotifications.

Lemma formatMinutes_cases (minutes : Z) :
  0 <= minutes ->
  exists n unit size,
    In (unit, size) [("minute", 1); ("hour", 60); ("day", 1440)] /\
    formatMinutes (Some minutes) = plural n unit /\
    0 <= n /\ n * size <= minutes < (n + 1) * size /\
    (unit = "minute" <-> minutes < 60) /\
    (unit = "day" <-> 1440 <= minutes).
Proof.
  intros H0. unfold formatMinutes.
  destruct (Z.ltb_spec minutes 60) as [H1|H1].
  - exists minutes, "minute", 1. simpl.
    repeat split; solve [auto | lia | discriminate].
  - destruct (Z.ltb_spec (minutes / 60) 24) as [H2|H2].
    + exists (minutes / 60), "hour", 60. simpl.
      repeat split;
        solve [auto | discriminate | Z.to_euclidean_division_equations; lia].
    + exists (minutes / 60 / 24), "day", 1440. simpl.
      repeat split;
        solve [auto | discriminate | Z.to_euclidean_division_equations; lia].
Qed.

(** X6. The text of a reminder counts whole units and rounds down: below
    an hour it gives the minutes, below a day the whole hours, and from a
    day on the whole days, with an "s" unless the count is 1.  For every
    reminder that the evaluator returns the text is of this form, and the
    count is at most the rounded number of minutes it stands for. *)
Theorem formatMinutes_rounds_down :
  (forall minutes, 0 <= minutes ->
     exists n unit size,
       In (unit, size) [("minute", 1); ("hour", 60); ("day", 1440)] /\
       formatMinutes (Some minutes)
       = (JsNumber.toString n ++ " " ++ unit
          ++ (if (n =? 1)%Z then "" else "s"))%string /\
       0 <= n /\ n * size <= minutes < (n + 1) * size /\
       (unit = "minute" <-> minutes < 60) /\
       (unit = "day" <-> 1440 <= minutes)) /\
  (forall LocalTZA now todos r,
     In r (dueReminders LocalTZA now todos) ->
     exists m n unit,
       minutesUntilDue r = Some m /\ 0 <= n <= m /\
       In unit ["minute"; "hour"; "day"] /\
       notificationBody r
       = (Todo.title (todo r) ++ " is due in " ++ plural n unit)%string).
Proof.
  split.
  - intros minutes H0.
    destruct (formatMinutes_cases minutes H0) as (n & unit & size & H).
    exists n, unit, size. exact H.
  - intros LocalTZA now todos r Hr.
    apply ReminderFacts.dueReminders_In in Hr as (t & _ & Hf & ->).
    apply ReminderFacts.reminderFilter_true in Hf
      as (_ & rm & due & Hrm & _ & Hdue & Hw & _).
    unfold notificationBody, reminderEntry. cbn [todo minutesUntilDue].
    rewrite Hdue. unfold JsDate.getTime.
    rewrite ReminderFacts.Math_round_minutes.
    set (m := (2 * (due - now) + 60000) / 120000).
    assert (Hm : 0 <= m <= rm)
      by (apply ReminderFacts.Math_round_minutes_bounds; lia).
    destruct (formatMinutes_cases m (proj1 Hm))
      as (n & unit & size & Hin & -> & Hn & Hb & _).
    exists m, n, unit. split; [reflexivity|].
    simpl in Hin.
    destruct Hin as [E|[E|[E|[]]]]; injection E as <- <-;
      (split; [lia|split; [simpl; auto|reflexivity]]).
Qed.



(** Alice checks at 11:00 and again a minute later: [rent] is returned by
    the first check only. *)
Lemma GET_does_not_repeat_within_5_minutes_witness :
  exists reminders st' reminders' st'',
    GET DateFns.SINGAPORE_OFFSET (Some Examples.alice) Examples.mar1
      Examples.rentStore
    = (Return (Json 200 reminders), st') /\
    GET DateFns.SINGAPORE_OFFSET (Some Examples.alice) (Examples.mar1 + 60000) st'
    = (Return (Json 200 reminders'), st'') /\
    map (fun r => Todo.id (todo r)) reminders = [1] /\
    (forall r r', In r reminders -> In r' reminders' ->
       Todo.id (todo r') <> Todo.id (todo r)).
Proof.
  do 4 eexists.
  split; [vm_compute; reflexivity|].
  split; [vm_compute; reflexivity|].
  split; [reflexivity|].
  eapply (MarkingFacts.GET_does_not_repeat_within_5_minutes
           Examples.alice Examples.mar1 (Examples.mar1 + 60000)
           Examples.rentStore _ _ _ _);
    solve [vm_compute; reflexivity
          | vm_compute; split; [discriminate|reflexivity]].
Defined.

End NotifyFacts.
(* ===================================================================== *)
(** ** Listing, reading and deleting todos *)
(* ===================================================================== *)

Module TodoRouteFacts.

Import Db DbCrud.

(** What the [WHERE] clause of [findByUser] selects. *)
Lemma findByUserWhere_true userId options st t :
  DbCrud.todoDB.findByUserWhere userId options st t = true <->
  Todo.user_id t = userId /\
  (forall o tag, options = Some o ->
     DbCrud.todoDB.FindOptions.tagId o = Some tag -> tag <> 0 ->
     exists r, In r (todo_tags st) /\
               TodoTag.todo_id r = Todo.id t /\ TodoTag.tag_id r = tag) /\
  ((exists o, options = Some o /\
              DbCrud.todoDB.FindOptions.includeCompleted o = true) \/
   Todo.completed t = 0) /\
  (forall o p, options = Some o ->
     DbCrud.todoDB.FindOptions.priority o = Some p -> p <> "" ->
     Todo.priority t = p).
Proof.
  unfold DbCrud.todoDB.findByUserWhere.
  rewrite !andb_true_iff, Z.eqb_eq.
  assert (Htag :
    match option_map DbCrud.todoDB.FindOptions.tagId options with
    | Some tagFilter =>
        match JsValue.orNullNumber tagFilter with
        | Some tagId =>
            existsb (fun r => (Todo.id t =? TodoTag.todo_id r) &&
                              (TodoTag.tag_id r =? tagId)) (todo_tags st)
        | None => true
        end
    | None => true
    end = true <->
    (forall o tag, options = Some o ->
       DbCrud.todoDB.FindOptions.tagId o = Some tag -> tag <> 0 ->
       exists r, In r (todo_tags st) /\
                 TodoTag.todo_id r = Todo.id t /\ TodoTag.tag_id r = tag)).
  { destruct options as [o|]; simpl; [|split; [discriminate|reflexivity]].
    destruct (DbCrud.todoDB.FindOptions.tagId o) as [tag|] eqn:Et; simpl;
      [|split; [intros _ o' tag' [= <-] Ht; rewrite Et in Ht; discriminate Ht
               |reflexivity]].
    destruct (Z.eqb_spec tag 0) as [->|Hz].
    - split; [|reflexivity]. intros _ o' tag' [= <-] Ht H.
      rewrite Et in Ht. injection Ht as <-. contradiction.
    - rewrite existsb_exists. split.
      + intros (r & Hr & E) o' tag' [= <-] Ht _.
        rewrite Et in Ht. injection Ht as <-.
        apply andb_true_iff in E as [E1 E2]. exists r. repeat split; auto; lia.
      + intros H. destruct (H o tag eq_refl Et Hz) as (r & Hr & E1 & E2).
        exists r. split; [exact Hr|]. apply andb_true_iff. split; lia. }
  assert (Hdone :
    (if match options with
        | Some o => DbCrud.todoDB.FindOptions.includeCompleted o
        | None => false
        end
     then true else Todo.completed t =? 0) = true <->
    ((exists o, options = Some o /\
                DbCrud.todoDB.FindOptions.includeCompleted o = true) \/
     Todo.completed t = 0)).
  { destruct options as [o|]; simpl.
    - destruct (DbCrud.todoDB.FindOptions.includeCompleted o) eqn:E.
      + split; [|reflexivity]. intros _. left. exists o. auto.
      + rewrite Z.eqb_eq. split; [auto|].
        intros [(o' & [= <-] & H)|H]; [congruence|exact H].
    - rewrite Z.eqb_eq. split; [auto|].
      intros [(o' & H & _)|H]; [discriminate|exact H]. }
  assert (Hprio :
    match option_map DbCrud.todoDB.FindOptions.priority options with
    | Some priorityFilter =>
        match JsValue.orNullString priorityFilter with
        | Some p => (Todo.priority t =? p)%string
        | None => true
        end
    | None => true
    end = true <->
    (forall o p, options = Some o ->
       DbCrud.todoDB.FindOptions.priority o = Some p -> p <> "" ->
       Todo.priority t = p)).
  { destruct options as [o|]; simpl; [|split; [discriminate|reflexivity]].
    destruct (DbCrud.todoDB.FindOptions.priority o) as [p|] eqn:Ep; simpl;
      [|split; [intros _ o' p' [= <-] Hq; rewrite Ep in Hq; discriminate Hq
               |reflexivity]].
    unfold JsString.truthy.
    destruct (String.eqb_spec p "") as [->|Hp]; simpl.
    - split; [|reflexivity]. intros _ o' p' [= <-] Hq H.
      rewrite Ep in Hq. injection Hq as <-. contradiction.
    - rewrite String.eqb_eq. split.
      + intros E o' p' [= <-] Hq _. rewrite Ep in Hq. injection Hq as <-.
        exact E.
      + intros H. apply (H o p); auto. }
  rewrite Htag, Hdone, Hprio. tauto.
Qed.

(** X8. [GET /api/todos] answers with the todos of the signed-in user
    that pass the filters of the query, each with its subtasks and tags,
    incomplete ones first, then by priority and by due date.  Completed
    todos are listed only for [include_completed=true]; a priority other
    than the three names and a tag id of 0 are no filter at all.  The
    store is not written. *)
Theorem todos_GET_lists_own_matching_todos
    (tags : list Tag.t) (session : Session) (query : TodoList.Query)
    (st : Store) :
  exists items,
    TodoList.GET tags (Some session) query st
    = (Return (Json 200 (TodoList.Payload.mk items (username session))), st) /\
    (forall t,
       In t (map DbCrud.todoDB.TodoWithRelations.todo items) <->
       In t (todos st) /\ Todo.user_id t = userId session /\
       (TodoList.include_completed query = Some "true" \/ Todo.completed t = 0) /\
       (forall p, TodoList.priority query = Some p ->
          In p ["high"; "medium"; "low"] -> Todo.priority t = p) /\
       (forall tag, TodoList.tag_id query = Some tag -> tag <> 0 ->
          exists r, In r (todo_tags st) /\
                    TodoTag.todo_id r = Todo.id t /\ TodoTag.tag_id r = tag)) /\
    Sorted (fun a b => Db.todoDB.todoOrder a b = true)
           (map DbCrud.todoDB.TodoWithRelations.todo items) /\
    (forall item, In item items ->
       DbCrud.todoDB.TodoWithRelations.subtasks item
       = Db.subtaskDB.findByTodo
           (Todo.id (DbCrud.todoDB.TodoWithRelations.todo item)) st /\
       DbCrud.todoDB.TodoWithRelations.tags item
       = DbCrud.todoDB.getTags tags
           (Todo.id (DbCrud.todoDB.TodoWithRelations.todo item)) st).
Proof.
  eexists. unfold TodoList.GET, tryCatch, bind, gets, ret.
  split; [reflexivity|].
  unfold DbCrud.todoDB.findByUser. rewrite map_map. cbn [DbCrud.todoDB.TodoWithRelations.todo].
  rewrite map_id.
  split; [|split].
  - intros t. rewrite MarkingFacts.orderBy_In, filter_In, findByUserWhere_true.
    unfold TodoList.optionsOf.
    split.
    + intros (Hin & Hu & Htag & Hdone & Hprio).
      repeat split; auto.
      * destruct Hdone as [(o & [= <-] & H)|H]; [left|right; exact H].
        simpl in H. destruct (TodoList.include_completed query) as [v|];
          [|discriminate]. apply String.eqb_eq in H. congruence.
      * intros p Hp Hvalid.
        apply (Hprio _ p eq_refl).
        -- simpl. rewrite Hp. unfold JsValue.orNullString, JsString.truthy.
           simpl in Hvalid.
           destruct Hvalid as [<-|[<-|[<-|[]]]]; reflexivity.
        -- simpl in Hvalid.
           destruct Hvalid as [<-|[<-|[<-|[]]]]; discriminate.
      * intros tag Ht Hz. apply (Htag _ tag eq_refl); auto.
    + intros (Hin & Hu & Hdone & Hprio & Htag).
      repeat split; auto.
      * intros o tag [= <-] Ht Hz. simpl in Ht. apply Htag; auto.
      * destruct Hdone as [H|H]; [left|right; exact H].
        eexists. split; [reflexivity|]. simpl. rewrite H. reflexivity.
      * intros o p [= <-] Hp Hne.
        cbn [DbCrud.todoDB.FindOptions.priority] in Hp.
        unfold JsValue.orNullString in Hp.
        destruct (TodoList.priority query) as [q|]; [|discriminate Hp].
        destruct (JsString.truthy q); cbv beta iota in Hp; [|discriminate Hp].
        unfold TodosRoute.includes in Hp. cbn [existsb] in Hp.
        destruct (String.eqb_spec q "high") as [->|];
          [injection Hp as <-; apply Hprio; simpl; auto|].
        destruct (String.eqb_spec q "medium") as [->|];
          [injection Hp as <-; apply Hprio; simpl; auto|].
        destruct (String.eqb_spec q "low") as [->|];
          [injection Hp as <-; apply Hprio; simpl; auto|].
        discriminate Hp.
  - apply (TableFacts.orderBy_Sorted _ TableFacts.todoOrder_total).
  - intros item Hin. apply in_map_iff in Hin as (t & <- & _). auto.
Qed.

(** The cascade of [todoDB.delete]. *)
Lemma delete_spec id st :
  existsb (fun t => Todo.id t =? id) (todos st) = true ->
  DbCrud.todoDB.delete id st
  = (Return tt,
     mkStore
       (filter (fun t => negb (Todo.id t =? id)) (todos st))
       (filter (fun s => negb (Subtask.todo_id s =? id)) (subtasks st))
       (filter (fun r => negb (TodoTag.todo_id r =? id)) (todo_tags st))
       (todos_seq st) (subtasks_seq st)).
Proof. unfold DbCrud.todoDB.delete. intros ->. reflexivity. Qed.

Lemma find_filter_other {A : Type} (key : A -> Z) id other (l : list A) :
  other <> id ->
  find (fun x => key x =? other) (filter (fun x => negb (key x =? id)) l)
  = find (fun x => key x =? other) l.
Proof.
  intros Hne. induction l as [|x r IH]; simpl; [reflexivity|].
  destruct (Z.eqb_spec (key x) id) as [E|E]; simpl.
  - destruct (Z.eqb_spec (key x) other); [lia|exact IH].
  - destruct (Z.eqb_spec (key x) other); [reflexivity|exact IH].
Qed.

(** X9. [DELETE /api/todos/[id]] by the owner removes the todo together
    with its subtasks and its tag associations, and nothing else: every
    other todo keeps its row, its subtasks and its tags, and the foreign
    keys still hold afterwards. *)
Theorem todo_DELETE_cascades
    (session : Session) (id : Z) (todo : Todo.t) (st : Store) :
  Db.todoDB.findById id st = Some todo ->
  Todo.user_id todo = userId session ->
  exists st',
    TodoItem.DELETE (Some session) (Some id) st = (Return (Json 200 true), st') /\
    Db.todoDB.findById id st' = None /\
    Db.subtaskDB.findByTodo id st' = [] /\
    (forall r, In r (todo_tags st') -> TodoTag.todo_id r <> id) /\
    (forall other, other <> id ->
       Db.todoDB.findById other st' = Db.todoDB.findById other st /\
       Db.subtaskDB.findByTodo other st' = Db.subtaskDB.findByTodo other st /\
       filter (fun r => TodoTag.todo_id r =? other) (todo_tags st')
       = filter (fun r => TodoTag.todo_id r =? other) (todo_tags st)) /\
    (foreignKeysOk st = true -> foreignKeysOk st' = true).
Proof.
  intros Hf Hu. eexists.
  unfold TodoItem.DELETE, tryCatch. unfold bind at 1. unfold gets.
  rewrite Hf, Hu, Z.eqb_refl. cbn [negb]. unfold bind at 1.
  rewrite (delete_spec id st (TableFacts.findById_exists _ _ _ Hf)).
  unfold ret. split; [reflexivity|].
  unfold Db.todoDB.findById, Db.subtaskDB.findByTodo, foreignKeysOk.
  cbn [todos subtasks todo_tags].
  split; [|split; [|split; [|split]]].
  - destruct (find _ _) as [t|] eqn:E; [|reflexivity].
    apply find_some in E as [Hin E]. apply filter_In in Hin as [_ Hne].
    rewrite E in Hne. discriminate Hne.
  - rewrite TableFacts.filter_filter.
    rewrite (StoreFacts.filter_none _ (subtasks st)); [reflexivity|].
    intros s _. destruct (Subtask.todo_id s =? id); reflexivity.
  - intros r Hr E. apply filter_In in Hr as [_ Hne].
    rewrite E, Z.eqb_refl in Hne. discriminate Hne.
  - intros other Hne. split; [|split].
    + apply (find_filter_other Todo.id). exact Hne.
    + f_equal. rewrite TableFacts.filter_filter. apply filter_ext.
      intros s. destruct (Z.eqb_spec (Subtask.todo_id s) other) as [->|];
        [|apply andb_false_r].
      destruct (Z.eqb_spec other id); [contradiction|reflexivity].
    + rewrite TableFacts.filter_filter. apply filter_ext.
      intros r. destruct (Z.eqb_spec (TodoTag.todo_id r) other) as [->|];
        [|apply andb_false_r].
      destruct (Z.eqb_spec other id); [contradiction|reflexivity].
  - intros HF. apply andb_true_iff in HF as [HS HT].
    rewrite forallb_forall in HS, HT.
    apply andb_true_iff. split; apply forallb_forall.
    + intros s Hs. apply filter_In in Hs as [Hs Hne].
      specialize (HS s Hs). apply existsb_exists in HS as (t & Ht & E).
      apply existsb_exists. exists t. split; [|exact E].
      apply filter_In. split; [exact Ht|].
      apply Z.eqb_eq in E. rewrite E. exact Hne.
    + intros r Hr. apply filter_In in Hr as [Hr Hne].
      specialize (HT r Hr). apply existsb_exists in HT as (t & Ht & E).
      apply existsb_exists. exists t. split; [|exact E].
      apply filter_In. split; [exact Ht|].
      apply Z.eqb_eq in E. rewrite E. exact Hne.
Qed.

(** Alice deletes her todo [rent]: its three subtasks and two tag
    associations go with it. *)
Lemma todo_DELETE_cascades_witness :
  exists st',
    TodoItem.DELETE (Some Examples.alice) (Some 1) Examples.rentStore
    = (Return (Json 200 true), st') /\
    Db.todoDB.findById 1 st' = None /\
    Db.subtaskDB.findByTodo 1 st' = [] /\
    (forall r, In r (todo_tags st') -> TodoTag.todo_id r <> 1) /\
    (forall other, other <> 1 ->
       Db.todoDB.findById other st' = Db.todoDB.findById other Examples.rentStore /\
       Db.subtaskDB.findByTodo other st'
       = Db.subtaskDB.findByTodo other Examples.rentStore /\
       filter (fun r => TodoTag.todo_id r =? other) (todo_tags st')
       = filter (fun r => TodoTag.todo_id r =? other)
                (todo_tags Examples.rentStore)) /\
    (foreignKeysOk Examples.rentStore = true -> foreignKeysOk st' = true).
Proof.
  apply (todo_DELETE_cascades Examples.alice 1 Examples.rent Examples.rentStore);
    reflexivity.
Defined.

Section Env.

Variable CURRENT_TIMESTAMP : string.
Variable LocalTZA : Z.

(** X10. The three handlers of [/api/todos/[id]] refuse a todo of another
    user with status 403 and a todo that is not there with status 404,
    before they read the body or write anything: the store is unchanged
    and the answer carries no data of the todo. *)
Theorem todo_routes_refuse_other_users
    (session : Session) (clock id : Z) (body : TodoIdRoute.Body.t) (st : Store) :
  (forall todo,
     Db.todoDB.findById id st = Some todo ->
     Todo.user_id todo <> userId session ->
     TodoItem.GET (Some session) (Some id) st
     = (Return (JsonError 403 "Unauthorized"), st) /\
     TodoIdRoute.PUT CURRENT_TIMESTAMP LocalTZA (Some session) clock (Some id)
       body st
     = (Return (JsonError 403 "Unauthorized"), st) /\
     TodoItem.DELETE (Some session) (Some id) st
     = (Return (JsonError 403 "Unauthorized"), st)) /\
  (Db.todoDB.findById id st = None ->
     TodoItem.GET (Some session) (Some id) st
     = (Return (JsonError 404 "Todo not found"), st) /\
     TodoIdRoute.PUT CURRENT_TIMESTAMP LocalTZA (Some session) clock (Some id)
       body st
     = (Return (JsonError 404 "Todo not found"), st) /\
     TodoItem.DELETE (Some session) (Some id) st
     = (Return (JsonError 404 "Todo not found"), st)).
Proof.
  split.
  - intros todo Hf Hu.
    apply Z.eqb_neq in Hu.
    unfold TodoItem.GET, TodoIdRoute.PUT, TodoItem.DELETE, tryCatch.
    unfold bind, gets, ret. rewrite Hf, Hu. cbn [negb]. auto.
  - intros Hf.
    unfold TodoItem.GET, TodoIdRoute.PUT, TodoItem.DELETE, tryCatch.
    unfold bind, gets, ret. rewrite Hf. auto.
Qed.


End Env.


End TodoRouteFacts.
(* ===================================================================== *)
(** ** Subtasks: titles and positions *)
(* ===================================================================== *)

Module TrimFacts.

Import JsString.

Lemma trimStart_idempotent s : trimStart (trimStart s) = trimStart s.
Proof.
  induction s as [|c r IH]; simpl; [reflexivity|].
  destruct (isWhiteSpace c) eqn:E; [exact IH|]. simpl. rewrite E. reflexivity.
Qed.

Lemma trimEnd_cons c r :
  trimEnd (String c r)
  = match trimEnd r with
    | EmptyString => if isWhiteSpace c then EmptyString else String c EmptyString
    | r' => String c r'
    end.
Proof. reflexivity. Qed.

Lemma trimEnd_idempotent s : trimEnd (trimEnd s) = trimEnd s.
Proof.
  induction s as [|c r IH]; [reflexivity|].
  rewrite trimEnd_cons.
  destruct (trimEnd r) as [|d r'] eqn:Er.
  - destruct (isWhiteSpace c) eqn:E; [reflexivity|].
    rewrite trimEnd_cons. simpl. rewrite E. reflexivity.
  - rewrite trimEnd_cons, IH. reflexivity.
Qed.

Lemma trimStart_trimEnd s : trimEnd (trimStart s) = trimStart (trimEnd s).
Proof.
  induction s as [|c r IH]; [reflexivity|].
  rewrite trimEnd_cons. cbn [trimStart].
  destruct (isWhiteSpace c) eqn:E.
  - rewrite IH. destruct (trimEnd r) as [|d r'] eqn:Er; [reflexivity|].
    cbn [trimStart]. rewrite E. reflexivity.
  - rewrite trimEnd_cons.
    destruct (trimEnd r) as [|d r'] eqn:Er; cbn [trimStart]; rewrite E;
      reflexivity.
Qed.

(** Trimming a trimmed string changes nothing. *)
Lemma trim_idempotent s : trim (trim s) = trim s.
Proof.
  unfold trim.
  rewrite trimStart_trimEnd, trimStart_idempotent, trimEnd_idempotent.
  reflexivity.
Qed.

End TrimFacts.

Module SubtaskFacts.

Import Db DbCrud Shape Subtasks.

(** *** Rows and their positions *)

Lemma setPosition_same s : setPosition (Subtask.position s) s = s.
Proof. destruct s; reflexivity. Qed.

Lemma reposition_nil s : reposition [] s = s.
Proof. reflexivity. Qed.

Lemma reposition_absent targets s :
  (forall e, In e targets -> fst e <> Subtask.id s) ->
  reposition targets s = s.
Proof.
  intros H. unfold reposition.
  destruct (find _ targets) as [e|] eqn:E; [|reflexivity].
  apply find_some in E as [Hin He]. exfalso. apply (H e Hin). lia.
Qed.

Lemma reposition_id targets s :
  Subtask.id (reposition targets s) = Subtask.id s.
Proof. unfold reposition. destruct (find _ _); reflexivity. Qed.

Lemma reposition_todo_id targets s :
  Subtask.todo_id (reposition targets s) = Subtask.todo_id s.
Proof. unfold reposition. destruct (find _ _); reflexivity. Qed.

(** One [UPDATE subtasks SET position = ? WHERE id = ?]. *)
Lemma update_position id p st :
  DbCrud.subtaskDB.update id (DbCrud.subtaskDB.mkUpdateData None None (Some p)) st
  = (Return (find (fun s => Subtask.id s =? id)
               (map (reposition [(id, p)]) (subtasks st))),
     mkStore (todos st) (map (reposition [(id, p)]) (subtasks st))
             (todo_tags st) (todos_seq st) (subtasks_seq st)).
Proof.
  unfold DbCrud.subtaskDB.update.
  assert (E : map (fun s => if Subtask.id s =? id
                            then DbCrud.subtaskDB.applyUpdate
                                   (DbCrud.subtaskDB.mkUpdateData None None (Some p)) s
                            else s) (subtasks st)
              = map (reposition [(id, p)]) (subtasks st)).
  { apply map_ext. intros s. unfold reposition. simpl.
    rewrite (Z.eqb_sym id). destruct (Subtask.id s =? id); reflexivity. }
  cbn [subtasks]. rewrite E. reflexivity.
Qed.

(** Moving one more row, whose id is not among those moved later. *)
Lemma reposition_cons id p targets s :
  (forall e, In e targets -> fst e <> id) ->
  reposition targets (reposition [(id, p)] s) = reposition ((id, p) :: targets) s.
Proof.
  intros H. unfold reposition at 2 3. simpl.
  destruct (Z.eqb_spec id (Subtask.id s)) as [E|E].
  - apply reposition_absent. intros e He. simpl. rewrite <- E. apply H. exact He.
  - reflexivity.
Qed.

Lemma indexTargets_fst i l : map fst (indexTargets i l) = map Subtask.id l.
Proof.
  revert i. induction l as [|s r IH]; intros i; simpl; [reflexivity|].
  rewrite IH. reflexivity.
Qed.

Lemma targets_absent (targets : list (Z * Z)) id :
  ~ In id (map fst targets) -> forall e, In e targets -> fst e <> id.
Proof. intros H e He E. apply H. rewrite <- E. apply in_map. exact He. Qed.

(** What the loop of [DELETE /api/subtasks/[id]] writes: every listed
    subtask ends at the position of its index. *)
Lemma closeGaps_spec l :
  forall i st,
    NoDup (map Subtask.id l) ->
    (forall h s, In h l -> In s (subtasks st) -> Subtask.id s = Subtask.id h ->
                 Subtask.position s = Subtask.position h) ->
    closeGaps i l st
    = (Return tt,
       mkStore (todos st) (map (reposition (indexTargets i l)) (subtasks st))
               (todo_tags st) (todos_seq st) (subtasks_seq st)).
Proof.
  induction l as [|h r IH]; intros i st Hnd Hsnap.
  - simpl. unfold ret. f_equal. destruct st; simpl. f_equal.
    symmetry. apply map_id.
  - inversion Hnd as [|? ? Hh Hr]; subst.
    assert (Habs : forall e, In e (indexTargets (i + 1) r) -> fst e <> Subtask.id h).
    { apply targets_absent. rewrite indexTargets_fst. exact Hh. }
    cbn [closeGaps indexTargets].
    destruct (Z.eqb_spec (Subtask.position h) i) as [Ep|Ep]; cbn [negb].
    + (* already in place: nothing is written *)
      unfold bind at 1. unfold ret at 1.
      rewrite IH; [|exact Hr|intros h' s Hh'; apply Hsnap; right; exact Hh'].
      f_equal. f_equal. apply map_ext_in. intros s Hs.
      rewrite <- (reposition_cons (Subtask.id h) i _ s Habs). f_equal.
      unfold reposition. simpl.
      destruct (Z.eqb_spec (Subtask.id h) (Subtask.id s)) as [E|E]; [|reflexivity].
      simpl. rewrite <- Ep, <- (Hsnap h s (or_introl eq_refl) Hs (eq_sym E)).
      symmetry. apply setPosition_same.
    + unfold bind at 1. unfold bind at 1. rewrite update_position.
      unfold ret at 1.
      rewrite IH; [|exact Hr|].
      * cbn [todos subtasks todo_tags todos_seq subtasks_seq].
        f_equal. f_equal. rewrite map_map. apply map_ext. intros s.
        apply reposition_cons. exact Habs.
      * cbn [subtasks]. intros h' s' Hh' Hs' E'.
        apply in_map_iff in Hs' as (s & <- & Hs).
        rewrite reposition_id in E'.
        rewrite reposition_absent.
        -- apply (Hsnap h' s (or_intror Hh') Hs E').
        -- intros e [<-|[]]. simpl. rewrite E'. intros E.
           apply Hh. rewrite E. apply in_map. exact Hh'.
Qed.

(** *** Lists of subtasks at the positions of their indices *)

Lemma reindex_In i l s : In s (reindex i l) -> i <= Subtask.position s.
Proof.
  revert i. induction l as [|h r IH]; intros i; simpl; [contradiction|].
  intros [<-|H]; [simpl; lia|]. apply IH in H. lia.
Qed.

Lemma reindex_strictly_sorted i l :
  StronglySorted (fun a b => Subtask.position a < Subtask.position b)
                 (reindex i l).
Proof.
  revert i. induction l as [|h r IH]; intros i; simpl; constructor.
  - apply IH.
  - apply Forall_forall. intros s Hs. apply reindex_In in Hs. simpl. lia.
Qed.

Lemma reindex_length i l : List.length (reindex i l) = List.length l.
Proof.
  revert i. induction l as [|h r IH]; intros i; simpl; [reflexivity|].
  rewrite IH. reflexivity.
Qed.

Lemma reindex_ids i l : map Subtask.id (reindex i l) = map Subtask.id l.
Proof.
  revert i. induction l as [|h r IH]; intros i; simpl; [reflexivity|].
  rewrite IH. reflexivity.
Qed.

Lemma reindex_positions i l :
  map Subtask.position (reindex i l)
  = map (fun k => i + Z.of_nat k) (seq 0 (List.length l)).
Proof.
  revert i. induction l as [|h r IH]; intros i; simpl; [reflexivity|].
  f_equal; [lia|]. rewrite IH, <- seq_shift, map_map.
  apply map_ext. intros k. lia.
Qed.

Lemma reposition_reindex l :
  forall i, NoDup (map Subtask.id l) ->
            map (reposition (indexTargets i l)) l = reindex i l.
Proof.
  induction l as [|h r IH]; intros i Hnd; simpl; [reflexivity|].
  inversion Hnd as [|? ? Hh Hr]; subst. f_equal.
  - unfold reposition. simpl. rewrite Z.eqb_refl. reflexivity.
  - rewrite <- (IH (i + 1) Hr). apply map_ext_in. intros s Hs.
    unfold reposition. simpl.
    destruct (Z.eqb_spec (Subtask.id h) (Subtask.id s)) as [E|E]; [|reflexivity].
    exfalso. apply Hh. rewrite E. apply in_map. exact Hs.
Qed.

Lemma filter_map_reposition targets todoId l :
  filter (fun s => Subtask.todo_id s =? todoId) (map (reposition targets) l)
  = map (reposition targets) (filter (fun s => Subtask.todo_id s =? todoId) l).
Proof.
  induction l as [|s r IH]; simpl; [reflexivity|].
  rewrite reposition_todo_id.
  destruct (Subtask.todo_id s =? todoId); simpl; rewrite IH; reflexivity.
Qed.

Lemma findByTodo_In todoId st s :
  In s (Db.subtaskDB.findByTodo todoId st) <->
  In s (subtasks st) /\ Subtask.todo_id s = todoId.
Proof.
  unfold Db.subtaskDB.findByTodo.
  rewrite MarkingFacts.orderBy_In, filter_In, Z.eqb_eq. tauto.
Qed.

Lemma findByTodo_sorted_by_position todoId st :
  Sorted (fun a b => Subtask.position a <= Subtask.position b)
         (Db.subtaskDB.findByTodo todoId st).
Proof.
  apply (TableFacts.Sorted_impl
           (fun a b => Db.subtaskDB.subtaskOrder a b = true)).
  - apply TableFacts.subtaskOrder_position.
  - apply (TableFacts.orderBy_Sorted _ TableFacts.subtaskOrder_total).
Qed.

Lemma subtask_keys st :
  primaryKeysOk st = true -> NoDup (map Subtask.id (subtasks st)).
Proof.
  unfold primaryKeysOk. intros H.
  apply andb_true_iff in H as [H _]. apply andb_true_iff in H as [_ H].
  apply TableFacts.distinct_keys_NoDup. exact H.
Qed.

Lemma NoDup_ids_inj (l : list Subtask.t) a b :
  NoDup (map Subtask.id l) -> In a l -> In b l -> Subtask.id a = Subtask.id b ->
  a = b.
Proof.
  intros H. apply (TableFacts.distinct_keys_inj Subtask.id l).
  apply TableFacts.distinct_keys_NoDup. exact H.
Qed.

Lemma NoDup_ids_filter (p : Subtask.t -> bool) l :
  NoDup (map Subtask.id l) -> NoDup (map Subtask.id (filter p l)).
Proof.
  rewrite <- !TableFacts.distinct_keys_NoDup. apply TableFacts.distinct_filter.
Qed.

Lemma findByTodo_NoDup todoId st :
  NoDup (map Subtask.id (subtasks st)) ->
  NoDup (map Subtask.id (Db.subtaskDB.findByTodo todoId st)).
Proof.
  intros H. unfold Db.subtaskDB.findByTodo.
  apply (Permutation_NoDup
           (l := map Subtask.id
                   (filter (fun s => Subtask.todo_id s =? todoId) (subtasks st)))).
  - apply Permutation_map, TableFacts.orderBy_Permutation.
  - apply NoDup_ids_filter. exact H.
Qed.

(** The subtasks of a todo after each of them was moved to a position of
    its own: they come back in the order of these positions. *)
Lemma findByTodo_repositioned targets todoId st (Y : list Subtask.t) :
  StronglySorted (fun a b => Subtask.position a < Subtask.position b) Y ->
  Permutation (map (reposition targets) (Db.subtaskDB.findByTodo todoId st)) Y ->
  Db.subtaskDB.findByTodo todoId
    (mkStore (todos st) (map (reposition targets) (subtasks st))
             (todo_tags st) (todos_seq st) (subtasks_seq st))
  = Y.
Proof.
  intros HY HP. unfold Db.subtaskDB.findByTodo in *. cbn [subtasks].
  rewrite filter_map_reposition.
  apply (TableFacts.sorted_perm_unique Subtask.position Y HY).
  - apply (TableFacts.Sorted_impl
             (fun a b => Db.subtaskDB.subtaskOrder a b = true)).
    + apply TableFacts.subtaskOrder_position.
    + apply (TableFacts.orderBy_Sorted _ TableFacts.subtaskOrder_total).
  - rewrite <- HP. rewrite <- TableFacts.orderBy_Permutation.
    apply Permutation_map, TableFacts.orderBy_Permutation.
Qed.

(** Subtasks of other todos are not among the rows that are moved. *)
Lemma findByTodo_other_repositioned targets todoId other st :
  NoDup (map Subtask.id (subtasks st)) ->
  other <> todoId ->
  (forall e, In e targets ->
     exists h, In h (Db.subtaskDB.findByTodo todoId st) /\ Subtask.id h = fst e) ->
  Db.subtaskDB.findByTodo other
    (mkStore (todos st) (map (reposition targets) (subtasks st))
             (todo_tags st) (todos_seq st) (subtasks_seq st))
  = Db.subtaskDB.findByTodo other st.
Proof.
  intros Hnd Hne Ht. unfold Db.subtaskDB.findByTodo at 1 2. cbn [subtasks].
  rewrite filter_map_reposition. f_equal.
  rewrite <- (map_id (filter _ (subtasks st))) at 2.
  apply map_ext_in. intros s Hs. apply filter_In in Hs as [Hs Eo].
  apply reposition_absent. intros e He E.
  destruct (Ht e He) as (h & Hh & Eh).
  apply findByTodo_In in Hh as [Hh Et].
  assert (h = s) by (apply (NoDup_ids_inj (subtasks st)); auto; lia).
  subst h. lia.
Qed.

Lemma sortByPosition_sorted l :
  Sorted (fun a b => Subtask.position a <= Subtask.position b) l ->
  sortByPosition l = l.
Proof.
  intros H. unfold sortByPosition.
  apply (TableFacts.orderBy_sorted
           (fun a b => Subtask.position a <=? Subtask.position b)).
  apply (TableFacts.Sorted_impl _ _ l (fun a b => proj2 (Z.leb_le _ _)) H).
Qed.

Lemma ownedBy_true session todo :
  Todo.user_id todo = userId session -> ownedBy session (Some todo) = true.
Proof. intros H. simpl. lia. Qed.

Lemma indexTargets_In i l e :
  In e (indexTargets i l) -> exists h, In h l /\ Subtask.id h = fst e.
Proof.
  revert i. induction l as [|h r IH]; intros i; simpl; [contradiction|].
  intros [<-|H]; [exists h; auto|].
  destruct (IH _ H) as (h' & Hh & E). exists h'. auto.
Qed.

(** X15. [DELETE /api/subtasks/[id]] by the owner of the todo removes the
    subtask and closes the gap: the remaining subtasks of the todo keep
    their order and their other columns, and their positions become 0, 1,
    2, ...  The subtasks of other todos, the todos and the tag associations
    stay as they are. *)
Theorem subtask_DELETE_closes_gaps
    (session : Session) (id : Z) (subtask : Subtask.t) (todo : Todo.t)
    (st : Store) :
  primaryKeysOk st = true ->
  Db.subtaskDB.findById id st = Some subtask ->
  Db.todoDB.findById (Subtask.todo_id subtask) st = Some todo ->
  Todo.user_id todo = userId session ->
  exists st',
    DELETE (Some session) (Some id) st = (Return (Json 200 true), st') /\
    Db.subtaskDB.findById id st' = None /\
    Db.subtaskDB.findByTodo (Subtask.todo_id subtask) st'
    = reindex 0 (filter (fun s => negb (Subtask.id s =? id))
                        (Db.subtaskDB.findByTodo (Subtask.todo_id subtask) st)) /\
    (forall other, other <> Subtask.todo_id subtask ->
       Db.subtaskDB.findByTodo other st' = Db.subtaskDB.findByTodo other st) /\
    todos st' = todos st /\ todo_tags st' = todo_tags st.
Proof.
  intros HK Hf Ht Hu.
  pose proof (subtask_keys st HK) as Hnd.
  set (T := Subtask.todo_id subtask) in *.
  set (st1 := mkStore (todos st)
                (filter (fun s => negb (Subtask.id s =? id)) (subtasks st))
                (todo_tags st) (todos_seq st) (subtasks_seq st)).
  assert (Hnd1 : NoDup (map Subtask.id (subtasks st1)))
    by (apply NoDup_ids_filter; exact Hnd).
  set (L := Db.subtaskDB.findByTodo T st1).
  assert (HL : L = filter (fun s => negb (Subtask.id s =? id))
                          (Db.subtaskDB.findByTodo T st)).
  { subst L. unfold Db.subtaskDB.findByTodo. cbn [subtasks st1].
    rewrite <- (TableFacts.orderBy_filter _ TableFacts.subtaskOrder_total
                  TableFacts.subtaskOrder_trans).
    f_equal. rewrite !TableFacts.filter_filter. apply filter_ext.
    intros s. apply andb_comm. }
  assert (HLnd : NoDup (map Subtask.id L))
    by (apply findByTodo_NoDup; exact Hnd1).
  assert (Hloop :
    closeGaps 0 (sortByPosition L) st1
    = (Return tt,
       mkStore (todos st1) (map (reposition (indexTargets 0 L)) (subtasks st1))
               (todo_tags st1) (todos_seq st1) (subtasks_seq st1))).
  { rewrite (sortByPosition_sorted L (findByTodo_sorted_by_position T st1)).
    apply closeGaps_spec; [exact HLnd|].
    intros h s Hh Hs E. apply findByTodo_In in Hh as [Hh _].
    rewrite (NoDup_ids_inj (subtasks st1) s h Hnd1 Hs Hh E). reflexivity. }
  eexists. unfold DELETE. unfold bind at 1. unfold gets at 1. rewrite Hf.
  unfold bind at 1. unfold gets at 1. fold T. rewrite Ht.
  rewrite (ownedBy_true _ _ Hu). cbn [negb].
  unfold bind at 1. unfold DbCrud.subtaskDB.delete. fold st1.
  unfold bind at 1. unfold gets at 1. fold L.
  unfold bind at 1. rewrite Hloop. unfold ret.
  split; [reflexivity|].
  split; [|split; [|split; [|split; reflexivity]]].
  - unfold Db.subtaskDB.findById. cbn [subtasks st1].
    destruct (find _ _) as [s|] eqn:E; [|reflexivity].
    apply find_some in E as [Hin E]. apply in_map_iff in Hin as (s0 & <- & Hin).
    rewrite reposition_id in E. apply filter_In in Hin as [_ Hne].
    rewrite E in Hne. discriminate Hne.
  - rewrite <- HL.
    apply (findByTodo_repositioned (indexTargets 0 L) T st1).
    + apply reindex_strictly_sorted.
    + fold L. rewrite (reposition_reindex L 0 HLnd). reflexivity.
  - intros other Hne.
    rewrite (findByTodo_other_repositioned (indexTargets 0 L) T other st1 Hnd1 Hne).
    + unfold Db.subtaskDB.findByTodo. cbn [subtasks st1]. f_equal.
      rewrite TableFacts.filter_filter. apply filter_ext_in. intros s Hs.
      destruct (Z.eqb_spec (Subtask.id s) id) as [E|E]; [|reflexivity].
      apply TableFacts.subtask_findById_Some in Hf as [Hin Eid].
      assert (s = subtask)
        by (apply (NoDup_ids_inj (subtasks st)); auto; lia).
      subst s. fold T. simpl. symmetry. apply Z.eqb_neq. auto.
    + intros e He. apply indexTargets_In in He. exact He.
Qed.

(** Alice deletes the first subtask of [rent]: the other two move up. *)
Lemma subtask_DELETE_closes_gaps_witness :
  exists st',
    DELETE (Some Examples.alice) (Some 1) Examples.rentStore
    = (Return (Json 200 true), st') /\
    Db.subtaskDB.findById 1 st' = None /\
    Db.subtaskDB.findByTodo 1 st'
    = reindex 0 (filter (fun s => negb (Subtask.id s =? 1))
                        (Db.subtaskDB.findByTodo 1 Examples.rentStore)) /\
    (forall other, other <> 1 ->
       Db.subtaskDB.findByTodo other st'
       = Db.subtaskDB.findByTodo other Examples.rentStore) /\
    todos st' = todos Examples.rentStore /\
    todo_tags st' = todo_tags Examples.rentStore.
Proof.
  apply (subtask_DELETE_closes_gaps Examples.alice 1
           (Subtask.mk 1 1 "Check balance" 0 0 "2026-02-01 08:00:00")
           Examples.rent Examples.rentStore); reflexivity.
Defined.

Lemma reindex_app i l l' :
  reindex i (l ++ l') = (reindex i l ++ reindex (i + Z.of_nat (List.length l)) l')%list.
Proof.
  revert i. induction l as [|h r IH]; intros i; simpl.
  - f_equal. lia.
  - rewrite IH. do 3 f_equal. lia.
Qed.

Lemma numbered_positions l :
  numbered l ->
  map Subtask.position l = map Z.of_nat (seq 0 (List.length l)).
Proof.
  unfold numbered. intros H. rewrite <- H at 1. rewrite reindex_positions.
  apply map_ext. intros k. lia.
Qed.

Lemma numbered_position_lt l s :
  numbered l -> In s l -> 0 <= Subtask.position s < Z.of_nat (List.length l).
Proof.
  intros H Hs. apply (in_map Subtask.position) in Hs.
  rewrite (numbered_positions l H) in Hs.
  apply in_map_iff in Hs as (k & <- & Hk). apply in_seq in Hk. lia.
Qed.

Section Env.

Variable CURRENT_TIMESTAMP : string.

(** X16. [POST /api/subtasks] by the owner of the todo stores the
    trimmed title as a new, incomplete subtask whose position is the number
    of subtasks the todo has.  When these are at the positions 0, 1, 2, ...
    the new subtask comes last and the positions stay without gaps. *)
Theorem subtask_POST_appends
    (session : Session) (todo_id : Z) (todo : Todo.t) (title : string)
    (st : Store) :
  Db.todoDB.findById todo_id st = Some todo ->
  Todo.user_id todo = userId session ->
  todo_id <> 0 ->
  JsString.length (JsString.trim title) <> 0 ->
  JsString.length title <= 200 ->
  exists subtask st',
    POST CURRENT_TIMESTAMP (Some session)
      (CreateBody.mk (Some todo_id) (Some title)) st
    = (Return (Json 201 subtask), st') /\
    Subtask.title subtask = JsString.trim title /\
    Subtask.completed subtask = 0 /\
    Subtask.todo_id subtask = todo_id /\
    Subtask.position subtask
    = Z.of_nat (List.length (Db.subtaskDB.findByTodo todo_id st)) /\
    subtasks st' = (subtasks st ++ [subtask])%list /\
    (numbered (Db.subtaskDB.findByTodo todo_id st) ->
     Db.subtaskDB.findByTodo todo_id st'
     = (Db.subtaskDB.findByTodo todo_id st ++ [subtask])%list /\
     numbered (Db.subtaskDB.findByTodo todo_id st')).
Proof.
  intros Hf Hu Hz Hl0 Hl200.
  assert (Ht : JsValue.orNullString (Some title) = Some title).
  { unfold JsValue.orNullString, JsString.truthy.
    destruct (String.eqb_spec title "") as [->|]; [|reflexivity].
    exfalso. apply Hl0. reflexivity. }
  assert (Hid : JsValue.orNullNumber (Some todo_id) = Some todo_id).
  { unfold JsValue.orNullNumber.
    destruct (Z.eqb_spec todo_id 0); [contradiction|reflexivity]. }
  set (n := Z.of_nat (List.length (Db.subtaskDB.findByTodo todo_id st))).
  set (new := Subtask.mk
                (Z.max (subtasks_seq st) (maxKey Subtask.id (subtasks st)) + 1)
                todo_id (JsString.trim title) 0 n CURRENT_TIMESTAMP).
  exists new. eexists. unfold POST.
  cbn [CreateBody.title CreateBody.todo_id]. rewrite Ht, Hid.
  destruct (Z.eqb_spec (JsString.length (JsString.trim title)) 0);
    [contradiction|].
  destruct (Z.ltb_spec 200 (JsString.length title)); [lia|]. cbn [orb].
  unfold bind at 1. unfold gets at 1. rewrite Hf.
  rewrite (ownedBy_true _ _ Hu). cbn [negb].
  unfold bind at 1. unfold gets at 1. fold n.
  unfold bind at 1. unfold Db.subtaskDB.create.
  rewrite (TableFacts.findById_exists _ _ _ Hf).
  rewrite TrimFacts.trim_idempotent. fold new. unfold ret.
  split; [reflexivity|]. cbn [subtasks].
  repeat (split; [reflexivity|]).
  intros Hnum.
  assert (Happ : forall seq,
            Db.subtaskDB.findByTodo todo_id
              (mkStore (todos st) (subtasks st ++ [new]) (todo_tags st)
                       (todos_seq st) seq)
            = (Db.subtaskDB.findByTodo todo_id st ++ [new])%list).
  { intros seq. unfold Db.subtaskDB.findByTodo. cbn [subtasks].
    rewrite filter_app. cbn [filter Subtask.todo_id new].
    rewrite Z.eqb_refl.
    apply (TableFacts.orderBy_app_last Db.subtaskDB.subtaskOrder).
    intros x Hx.
    assert (Hin : In x (Db.subtaskDB.findByTodo todo_id st))
      by (apply MarkingFacts.orderBy_In; exact Hx).
    pose proof (numbered_position_lt _ x Hnum Hin) as Hlt. fold n in Hlt.
    unfold Db.subtaskDB.subtaskOrder. cbn [Subtask.position new].
    apply orb_true_iff. left. lia. }
  split; [apply Happ|].
  rewrite Happ. unfold numbered in *. rewrite reindex_app, Hnum.
  f_equal.
Qed.

End Env.

(** Alice adds a fourth subtask to [rent]. *)
Lemma subtask_POST_appends_witness :
  exists subtask st',
    POST "2026-03-01 03:00:00" (Some Examples.alice)
      (CreateBody.mk (Some 1) (Some " Print receipt ")) Examples.rentStore
    = (Return (Json 201 subtask), st') /\
    Subtask.title subtask = JsString.trim " Print receipt " /\
    Subtask.completed subtask = 0 /\
    Subtask.todo_id subtask = 1 /\
    Subtask.position subtask
    = Z.of_nat (List.length (Db.subtaskDB.findByTodo 1 Examples.rentStore)) /\
    subtasks st' = (subtasks Examples.rentStore ++ [subtask])%list /\
    (numbered (Db.subtaskDB.findByTodo 1 Examples.rentStore) ->
     Db.subtaskDB.findByTodo 1 st'
     = (Db.subtaskDB.findByTodo 1 Examples.rentStore ++ [subtask])%list /\
     numbered (Db.subtaskDB.findByTodo 1 st')).
Proof.
  apply (subtask_POST_appends "2026-03-01 03:00:00" Examples.alice 1
           Examples.rent " Print receipt " Examples.rentStore);
    solve [reflexivity | vm_compute; discriminate].
Defined.

(** X14. [PUT /api/subtasks/[id]] by the owner of the todo stores the
    title exactly as it is sent, with the white space around it (the
    title only has to be non-blank and at most 200 characters long), and
    any position it is given. *)
Theorem subtask_PUT_stores_title_as_sent
    (session : Session) (id : Z) (subtask : Subtask.t) (todo : Todo.t)
    (title : string) (position : option Z) (st : Store) :
  Db.subtaskDB.findById id st = Some subtask ->
  Db.todoDB.findById (Subtask.todo_id subtask) st = Some todo ->
  Todo.user_id todo = userId session ->
  JsString.length (JsString.trim title) <> 0 ->
  JsString.length title <= 200 ->
  let updated :=
    Subtask.mk (Subtask.id subtask) (Subtask.todo_id subtask) title
      (Subtask.completed subtask)
      (match position with Some p => p | None => Subtask.position subtask end)
      (Subtask.created_at subtask) in
  exists st',
    PUT (Some session) (Some id) (Body.mk (Some title) None position) st
    = (Return (Json 200 (Some updated)), st') /\
    Db.subtaskDB.findById id st' = Some updated.
Proof.
  intros Hf Ht Hu Hl0 Hl200 updated.
  eexists. unfold PUT. unfold bind at 1. unfold gets at 1. rewrite Hf.
  unfold bind at 1. unfold gets at 1. rewrite Ht.
  rewrite (ownedBy_true _ _ Hu). cbn [negb Body.title Body.completed].
  destruct (Z.eqb_spec (JsString.length (JsString.trim title)) 0);
    [contradiction|].
  destruct (Z.ltb_spec 200 (JsString.length title)); [lia|]. cbn [orb].
  unfold bind at 1. unfold DbCrud.subtaskDB.update, ret.
  cbn [subtasks Body.position].
  assert (E : find (fun s => Subtask.id s =? id)
                (map (fun s => if Subtask.id s =? id
                               then DbCrud.subtaskDB.applyUpdate
                                      (DbCrud.subtaskDB.mkUpdateData (Some title)
                                         None position) s
                               else s) (subtasks st))
              = Some updated).
  { unfold Db.subtaskDB.findById in Hf. clear -Hf.
    induction (subtasks st) as [|x r IH]; simpl in *; [discriminate Hf|].
    destruct (Z.eqb_spec (Subtask.id x) id) as [E|E].
    - injection Hf as <-. simpl. rewrite E, Z.eqb_refl.
      subst updated. unfold DbCrud.subtaskDB.applyUpdate. simpl.
      destruct position; reflexivity.
    - simpl. destruct (Z.eqb_spec (Subtask.id x) id); [contradiction|].
      apply IH. exact Hf. }
  rewrite E. split; [reflexivity|].
  unfold Db.subtaskDB.findById. cbn [subtasks]. exact E.
Qed.

(** The title " Transfer " of the second subtask of [rent] can be stored
    through this request. *)
Lemma subtask_PUT_stores_title_as_sent_witness :
  exists st',
    PUT (Some Examples.alice) (Some 2) (Body.mk (Some " Transfer ") None None)
      Examples.rentStore
    = (Return (Json 200
         (Some (Subtask.mk 2 1 " Transfer " 1 1 "2026-02-01 08:00:00"))), st') /\
    Db.subtaskDB.findById 2 st'
    = Some (Subtask.mk 2 1 " Transfer " 1 1 "2026-02-01 08:00:00").
Proof.
  apply (subtask_PUT_stores_title_as_sent Examples.alice 2
           (Subtask.mk 2 1 " Transfer " 1 1 "2026-02-01 08:00:00")
           Examples.rent " Transfer " None Examples.rentStore);
    solve [reflexivity | vm_compute; discriminate].
Defined.

(** *** Reordering *)

Lemma reposition_own (f : Subtask.t -> Z) l s :
  NoDup (map Subtask.id l) -> In s l ->
  reposition (map (fun h => (Subtask.id h, f h)) l) s = setPosition (f s) s.
Proof.
  induction l as [|h r IH]; simpl; [contradiction|].
  intros Hnd Hin. inversion Hnd as [|? ? Hh Hr]; subst.
  unfold reposition. simpl.
  destruct Hin as [->|Hin]; [rewrite Z.eqb_refl; reflexivity|].
  destruct (Z.eqb_spec (Subtask.id h) (Subtask.id s)) as [E|E].
  - exfalso. apply Hh. rewrite E. apply in_map. exact Hin.
  - apply (IH Hr Hin).
Qed.

(** What the loops of [POST /api/subtasks/reorder] write. *)
Lemma shiftBetween_spec subtask_id oldPosition new_position l :
  forall st,
    NoDup (map Subtask.id l) ->
    (forall h s, In h l -> In s (subtasks st) -> Subtask.id s = Subtask.id h ->
                 Subtask.position s = Subtask.position h) ->
    (forall h, In h l ->
               (Subtask.id h = subtask_id <-> Subtask.position h = oldPosition)) ->
    shiftBetween (oldPosition <? new_position) subtask_id oldPosition
                 new_position l st
    = (Return tt,
       mkStore (todos st)
         (map (reposition
                 (map (fun h => (Subtask.id h,
                                 shiftedPosition oldPosition new_position
                                   (Subtask.position h))) l))
              (subtasks st))
         (todo_tags st) (todos_seq st) (subtasks_seq st)).
Proof.
  set (f := fun h => shiftedPosition oldPosition new_position (Subtask.position h)).
  induction l as [|h r IH]; intros st Hnd Hsnap Hpos.
  - simpl. unfold ret. f_equal. destruct st; simpl. f_equal.
    symmetry. apply map_id.
  - inversion Hnd as [|? ? Hh Hr]; subst.
    assert (Habs : forall e, In e (map (fun h => (Subtask.id h, f h)) r) ->
                             fst e <> Subtask.id h).
    { apply targets_absent. rewrite map_map. simpl. exact Hh. }
    assert (Hupdate : forall p,
              f h = p ->
              ((DbCrud.subtaskDB.update (Subtask.id h)
                  (DbCrud.subtaskDB.mkUpdateData None None (Some p)) ;;; ret tt) ;;;
               shiftBetween (oldPosition <? new_position) subtask_id oldPosition
                            new_position r) st
              = (Return tt,
                 mkStore (todos st)
                   (map (reposition (map (fun h => (Subtask.id h, f h)) (h :: r)))
                        (subtasks st))
                   (todo_tags st) (todos_seq st) (subtasks_seq st))).
    { intros p Ep. unfold bind at 1. unfold bind at 1. rewrite update_position.
      unfold ret at 1. rewrite IH; [|exact Hr| |].
      - cbn [todos subtasks todo_tags todos_seq subtasks_seq map].
        f_equal. f_equal. rewrite map_map. apply map_ext. intros s.
        rewrite Ep. apply reposition_cons. exact Habs.
      - cbn [subtasks]. intros h' s' Hh' Hs' E'.
        apply in_map_iff in Hs' as (s & <- & Hs).
        rewrite reposition_id in E'. rewrite reposition_absent.
        + apply (Hsnap h' s (or_intror Hh') Hs E').
        + intros e [<-|[]]. simpl. rewrite E'. intros E.
          apply Hh. rewrite E. apply in_map. exact Hh'.
      - intros h' Hh'. apply Hpos. right. exact Hh'. }
    assert (Hskip :
              f h = Subtask.position h ->
              (ret tt ;;;
               shiftBetween (oldPosition <? new_position) subtask_id oldPosition
                            new_position r) st
              = (Return tt,
                 mkStore (todos st)
                   (map (reposition (map (fun h => (Subtask.id h, f h)) (h :: r)))
                        (subtasks st))
                   (todo_tags st) (todos_seq st) (subtasks_seq st))).
    { intros Ep. unfold bind at 1. unfold ret at 1.
      rewrite IH; [|exact Hr|intros h' s Hh'; apply Hsnap; right; exact Hh'
                  |intros h' Hh'; apply Hpos; right; exact Hh'].
      f_equal. f_equal. apply map_ext_in. intros s Hs. cbn [map].
      rewrite <- (reposition_cons (Subtask.id h) (f h) _ s Habs). f_equal.
      unfold reposition. simpl.
      destruct (Z.eqb_spec (Subtask.id h) (Subtask.id s)) as [E|E]; [|reflexivity].
      simpl. rewrite Ep, <- (Hsnap h s (or_introl eq_refl) Hs (eq_sym E)).
      symmetry. apply setPosition_same. }
    pose proof (Hpos h (or_introl eq_refl)) as Hh0.
    cbn [shiftBetween].
    destruct (Z.eqb_spec (Subtask.id h) subtask_id) as [Eid|Eid].
    + apply Hupdate. unfold f, shiftedPosition.
      rewrite (proj1 Hh0 Eid), Z.eqb_refl. reflexivity.
    + assert (Hne : Subtask.position h <> oldPosition) by tauto.
      assert (Ef : f h
                   = if oldPosition <? new_position
                     then (if (oldPosition <? Subtask.position h) &&
                              (Subtask.position h <=? new_position)
                           then Subtask.position h - 1 else Subtask.position h)
                     else (if (new_position <=? Subtask.position h) &&
                              (Subtask.position h <? oldPosition)
                           then Subtask.position h + 1 else Subtask.position h)).
      { unfold f, shiftedPosition.
        destruct (Z.eqb_spec (Subtask.position h) oldPosition);
          [contradiction|reflexivity]. }
      destruct (oldPosition <? new_position).
      * destruct ((oldPosition <? Subtask.position h) &&
                  (Subtask.position h <=? new_position));
          [apply Hupdate|apply Hskip]; exact Ef.
      * destruct ((new_position <=? Subtask.position h) &&
                  (Subtask.position h <? oldPosition));
          [apply Hupdate|apply Hskip]; exact Ef.
Qed.

Lemma shiftedPosition_same old p : shiftedPosition old old p = p.
Proof.
  unfold shiftedPosition. destruct (Z.eqb_spec p old); [lia|].
  rewrite Z.ltb_irrefl.
  destruct (Z.leb_spec old p), (Z.ltb_spec p old); simpl; lia.
Qed.

Lemma shiftedPosition_cases old new p :
  (p = old /\ shiftedPosition old new p = new) \/
  (p <> old /\ old < p <= new /\ shiftedPosition old new p = p - 1) \/
  (p <> old /\ new <= p < old /\ shiftedPosition old new p = p + 1) \/
  (p <> old /\ ~ (old < p <= new) /\ ~ (new <= p < old) /\
   shiftedPosition old new p = p).
Proof.
  unfold shiftedPosition.
  destruct (Z.eqb_spec p old); [left; auto|right].
  destruct (Z.ltb_spec old new), (Z.ltb_spec old p), (Z.leb_spec p new),
    (Z.leb_spec new p), (Z.ltb_spec p old); simpl; lia.
Qed.

(** The positions 0, ..., n - 1 are shifted onto themselves. *)
Lemma shiftedPosition_permutation old new n :
  0 <= old < Z.of_nat n -> 0 <= new < Z.of_nat n ->
  Permutation (map (shiftedPosition old new) (map Z.of_nat (seq 0 n)))
              (map Z.of_nat (seq 0 n)).
Proof.
  intros Ho Hn. apply NoDup_Permutation.
  - apply Finite.Injective_map_NoDup.
    + intros p q E.
      destruct (shiftedPosition_cases old new p) as [H|[H|[H|H]]],
               (shiftedPosition_cases old new q) as [H'|[H'|[H'|H']]]; lia.
    + apply Finite.Injective_map_NoDup; [intros a b; lia|apply seq_NoDup].
  - apply Finite.Injective_map_NoDup; [intros a b; lia|apply seq_NoDup].
  - intros x. rewrite !in_map_iff. split.
    + intros (p & <- & Hp). apply in_map_iff in Hp as (k & <- & Hk).
      apply in_seq in Hk.
      exists (Z.to_nat (shiftedPosition old new (Z.of_nat k))).
      destruct (shiftedPosition_cases old new (Z.of_nat k)) as [H|[H|[H|H]]];
        (split; [lia|apply in_seq; lia]).
    + intros (k & <- & Hk). apply in_seq in Hk.
      set (x := Z.of_nat k).
      assert (Hx : 0 <= x < Z.of_nat n) by lia.
      assert (Hpre : exists p, 0 <= p < Z.of_nat n /\ shiftedPosition old new p = x).
      { destruct (Z.eq_dec x new) as [E|E].
        - exists old. split; [lia|].
          destruct (shiftedPosition_cases old new old) as [H|[H|[H|H]]]; lia.
        - destruct (Z_lt_le_dec old new) as [Hlt|Hge].
          + destruct (Z_le_dec old x), (Z_lt_dec x new).
            * exists (x + 1). split; [lia|].
              destruct (shiftedPosition_cases old new (x + 1)) as [H|[H|[H|H]]]; lia.
            * exists x. split; [lia|].
              destruct (shiftedPosition_cases old new x) as [H|[H|[H|H]]]; lia.
            * exists x. split; [lia|].
              destruct (shiftedPosition_cases old new x) as [H|[H|[H|H]]]; lia.
            * exists x. split; [lia|].
              destruct (shiftedPosition_cases old new x) as [H|[H|[H|H]]]; lia.
          + destruct (Z_lt_dec new x), (Z_le_dec x old).
            * exists (x - 1). split; [lia|].
              destruct (shiftedPosition_cases old new (x - 1)) as [H|[H|[H|H]]]; lia.
            * exists x. split; [lia|].
              destruct (shiftedPosition_cases old new x) as [H|[H|[H|H]]]; lia.
            * exists x. split; [lia|].
              destruct (shiftedPosition_cases old new x) as [H|[H|[H|H]]]; lia.
            * exists x. split; [lia|].
              destruct (shiftedPosition_cases old new x) as [H|[H|[H|H]]]; lia. }
      destruct Hpre as (p & Hp & E). exists p. split; [exact E|].
      apply in_map_iff. exists (Z.to_nat p). split; [lia|apply in_seq; lia].
Qed.

Lemma positions_numbered l :
  forall i,
    map Subtask.position l
    = map (fun k => i + Z.of_nat k) (seq 0 (List.length l)) ->
    reindex i l = l.
Proof.
  induction l as [|h r IH]; intros i; simpl; [reflexivity|].
  intros H. injection H as Eh Er. f_equal.
  - rewrite <- (setPosition_same h) at 2. f_equal. lia.
  - apply IH. rewrite Er, <- seq_shift, map_map. apply map_ext. intros k. lia.
Qed.

Lemma numbered_strictly_sorted l :
  numbered l ->
  StronglySorted (fun a b => Subtask.position a < Subtask.position b) l.
Proof. intros H. rewrite <- H. apply reindex_strictly_sorted. Qed.

Lemma reindex_nth l :
  forall i k s, nth_error (reindex i l) k = Some s ->
                Subtask.position s = i + Z.of_nat k.
Proof.
  induction l as [|h r IH]; intros i k s; destruct k; simpl; try discriminate.
  - intros [= <-]. simpl. lia.
  - intros H. apply IH in H. lia.
Qed.

(** In a list at the positions 0, 1, 2, ... a subtask is found at the
    index of its position. *)
Lemma numbered_nth l s :
  numbered l -> In s l -> nth_error l (Z.to_nat (Subtask.position s)) = Some s.
Proof.
  intros H Hs. apply In_nth_error in Hs as [k Hk].
  assert (E : Subtask.position s = 0 + Z.of_nat k)
    by (apply (reindex_nth l); rewrite H; exact Hk).
  rewrite E. simpl. rewrite Nat2Z.id. exact Hk.
Qed.

(** X17. [POST /api/subtasks/reorder] by the owner of the todo, on
    subtasks that are at the positions 0, 1, 2, ...: the subtask ends at
    the index [new_position], the other subtasks keep their order, the ones
    between the old and the new place move by one, and the positions are
    again 0, 1, 2, ...  Nothing else is written. *)
Theorem subtask_reorder_moves
    (session : Session) (subtask_id new_position : Z) (subtask : Subtask.t)
    (todo : Todo.t) (st : Store) :
  primaryKeysOk st = true ->
  Db.subtaskDB.findById subtask_id st = Some subtask ->
  Db.todoDB.findById (Subtask.todo_id subtask) st = Some todo ->
  Todo.user_id todo = userId session ->
  numbered (Db.subtaskDB.findByTodo (Subtask.todo_id subtask) st) ->
  0 <= new_position
    < Z.of_nat (List.length (Db.subtaskDB.findByTodo (Subtask.todo_id subtask) st)) ->
  exists st',
    reorder (Some session) (ReorderBody.mk (Some subtask_id) (Some new_position)) st
    = (Return (Json 200 true), st') /\
    numbered (Db.subtaskDB.findByTodo (Subtask.todo_id subtask) st') /\
    nth_error (Db.subtaskDB.findByTodo (Subtask.todo_id subtask) st')
              (Z.to_nat new_position)
    = Some (setPosition new_position subtask) /\
    filter (fun s => negb (Subtask.id s =? subtask_id))
           (Db.subtaskDB.findByTodo (Subtask.todo_id subtask) st')
    = map (fun s => setPosition
                      (shiftedPosition (Subtask.position subtask) new_position
                         (Subtask.position s)) s)
          (filter (fun s => negb (Subtask.id s =? subtask_id))
                  (Db.subtaskDB.findByTodo (Subtask.todo_id subtask) st)) /\
    (forall other, other <> Subtask.todo_id subtask ->
       Db.subtaskDB.findByTodo other st' = Db.subtaskDB.findByTodo other st) /\
    todos st' = todos st /\ todo_tags st' = todo_tags st.
Proof.
  intros HK Hf Ht Hu Hnum Hnew.
  pose proof (subtask_keys st HK) as Hnd.
  set (T := Subtask.todo_id subtask) in *.
  set (old := Subtask.position subtask) in *.
  set (before := Db.subtaskDB.findByTodo T st) in *.
  set (n := List.length before) in *.
  set (mv := fun s => setPosition (shiftedPosition old new_position
                                     (Subtask.position s)) s).
  pose proof (TableFacts.subtask_findById_Some _ _ _ Hf) as [Hin Eid].
  assert (Hsub : In subtask before) by (apply findByTodo_In; auto).
  assert (Hbnd : NoDup (map Subtask.id before))
    by (apply findByTodo_NoDup; exact Hnd).
  assert (Hbs : StronglySorted
                  (fun a b => Subtask.position a < Subtask.position b) before)
    by (apply numbered_strictly_sorted; exact Hnum).
  assert (Hpos : forall h, In h before ->
                   (Subtask.id h = subtask_id <-> Subtask.position h = old)).
  { intros h Hh. split; intros E.
    - assert (h = subtask) as ->; [|reflexivity].
      apply (NoDup_ids_inj before); auto. lia.
    - assert (h = subtask) as ->; [|exact Eid].
      apply (TableFacts.strictly_sorted_inj Subtask.position before); auto. }
  pose proof (numbered_position_lt before subtask Hnum Hsub) as Hold.
  fold old in Hold. fold n in Hold, Hnew.
  (* the request up to the loops *)
  unfold reorder. cbn [ReorderBody.subtask_id ReorderBody.new_position].
  unfold bind at 1. unfold gets at 1. rewrite Hf.
  unfold bind at 1. unfold gets at 1. fold T. rewrite Ht.
  rewrite (ownedBy_true _ _ Hu). cbn [negb].
  unfold bind at 1. unfold gets at 1. fold before. fold n.
  destruct (Z.ltb_spec new_position 0); [lia|].
  destruct (Z.leb_spec (Z.of_nat n) new_position); [lia|]. cbn [orb].
  fold old.
  destruct (Z.eqb_spec old new_position) as [Esame|Hmove].
  - (* the subtask is already there *)
    exists st. unfold ret.
    split; [reflexivity|]. fold before.
    split; [exact Hnum|].
    split; [|split; [|auto]].
    + rewrite <- Esame. unfold old. rewrite setPosition_same.
      apply numbered_nth; assumption.
    + rewrite <- (map_id (filter _ before)) at 1.
      apply map_ext. intros s. unfold mv.
      rewrite <- Esame, shiftedPosition_same.
      symmetry. apply setPosition_same.
  - set (targets := map (fun h => (Subtask.id h,
                                   shiftedPosition old new_position
                                     (Subtask.position h))) before).
    assert (Hloop :
      shiftBetween (old <? new_position) subtask_id old new_position before st
      = (Return tt,
         mkStore (todos st) (map (reposition targets) (subtasks st))
                 (todo_tags st) (todos_seq st) (subtasks_seq st))).
    { apply shiftBetween_spec; [exact Hbnd| |exact Hpos].
      intros h s Hh Hs E. apply findByTodo_In in Hh as [Hh _].
      rewrite (NoDup_ids_inj (subtasks st) s h Hnd Hs Hh E). reflexivity. }
    eexists. unfold bind at 1. rewrite Hloop. unfold ret.
    split; [reflexivity|].
    set (st' := mkStore (todos st) (map (reposition targets) (subtasks st))
                        (todo_tags st) (todos_seq st) (subtasks_seq st)).
    set (after := Db.subtaskDB.findByTodo T st').
    assert (Hmoved : map (reposition targets) before = map mv before).
    { apply map_ext_in. intros s Hs. subst targets.
      apply (reposition_own
               (fun h => shiftedPosition old new_position (Subtask.position h))
               before s Hbnd Hs). }
    assert (Hperm : Permutation after (map mv before)).
    { subst after. unfold Db.subtaskDB.findByTodo. cbn [subtasks st'].
      rewrite filter_map_reposition, <- TableFacts.orderBy_Permutation.
      rewrite <- Hmoved. apply Permutation_map.
      apply TableFacts.orderBy_Permutation. }
    assert (Hsorted : Sorted (fun a b => Subtask.position a <= Subtask.position b)
                             after)
      by apply findByTodo_sorted_by_position.
    assert (Hlen : List.length after = n).
    { rewrite (Permutation_length Hperm), length_map. reflexivity. }
    assert (Hpositions : map Subtask.position after = map Z.of_nat (seq 0 n)).
    { apply (TableFacts.sorted_perm_unique (fun z => z)).
      - apply TableFacts.seqZ_strictly_sorted.
      - apply TableFacts.Sorted_map. exact Hsorted.
      - rewrite (Permutation_map Subtask.position Hperm), map_map.
        cbn [mv setPosition Subtask.position].
        rewrite <- (map_map Subtask.position (shiftedPosition old new_position)).
        rewrite (numbered_positions before Hnum). fold n.
        apply shiftedPosition_permutation; assumption. }
    assert (Hnum' : numbered after).
    { apply positions_numbered. rewrite Hpositions, Hlen.
      apply map_ext. intros k. lia. }
    split; [exact Hnum'|].
    split; [|split; [|split; [|split; reflexivity]]].
    + assert (Hm : In (setPosition new_position subtask) after).
      { apply (Permutation_in _ (Permutation_sym Hperm)).
        apply in_map_iff. exists subtask. split; [|exact Hsub].
        unfold mv, shiftedPosition. fold old. rewrite Z.eqb_refl. reflexivity. }
      apply (numbered_nth after _ Hnum') in Hm. exact Hm.
    + apply (TableFacts.sorted_perm_unique Subtask.position).
      * apply (TableFacts.StronglySorted_map_in
                 (fun a b => Subtask.position a < Subtask.position b)).
        -- intros a b Ha Hb Hab.
           apply filter_In in Ha as [Ha Na], Hb as [Hb Nb].
           apply negb_true_iff, Z.eqb_neq in Na, Nb.
           assert (Subtask.position a <> old) by (rewrite <- (Hpos a Ha); exact Na).
           assert (Subtask.position b <> old) by (rewrite <- (Hpos b Hb); exact Nb).
           unfold mv. cbn [setPosition Subtask.position].
           destruct (shiftedPosition_cases old new_position (Subtask.position a))
             as [Sa|[Sa|[Sa|Sa]]],
             (shiftedPosition_cases old new_position (Subtask.position b))
             as [Sb|[Sb|[Sb|Sb]]]; lia.
        -- apply TableFacts.StronglySorted_filter. exact Hbs.
      * apply StronglySorted_Sorted, TableFacts.StronglySorted_filter.
        apply Sorted_StronglySorted; [intros a b c; lia|exact Hsorted].
      * rewrite (TableFacts.Permutation_filter' _ _ _ Hperm).
        assert (E : filter (fun s => negb (Subtask.id s =? subtask_id))
                           (map mv before)
                    = map mv (filter (fun s => negb (Subtask.id s =? subtask_id))
                                     before)).
        { clear. induction before as [|x r IH]; simpl; [reflexivity|].
          destruct (negb (Subtask.id x =? subtask_id)); simpl; rewrite IH;
            reflexivity. }
        rewrite E. reflexivity.
    + intros other Hne.
      apply (findByTodo_other_repositioned targets T other st Hnd Hne).
      intros e He. subst targets. apply in_map_iff in He as (h & <- & Hh).
      exists h. split; [exact Hh|reflexivity].
Qed.

(** Alice moves the first subtask of [rent] to the end. *)
Lemma subtask_reorder_moves_witness :
  exists st',
    reorder (Some Examples.alice) (ReorderBody.mk (Some 1) (Some 2))
      Examples.rentStore
    = (Return (Json 200 true), st') /\
    numbered (Db.subtaskDB.findByTodo 1 st') /\
    nth_error (Db.subtaskDB.findByTodo 1 st') (Z.to_nat 2)
    = Some (setPosition 2
              (Subtask.mk 1 1 "Check balance" 0 0 "2026-02-01 08:00:00")) /\
    filter (fun s => negb (Subtask.id s =? 1)) (Db.subtaskDB.findByTodo 1 st')
    = map (fun s => setPosition (shiftedPosition 0 2 (Subtask.position s)) s)
          (filter (fun s => negb (Subtask.id s =? 1))
                  (Db.subtaskDB.findByTodo 1 Examples.rentStore)) /\
    (forall other, other <> 1 ->
       Db.subtaskDB.findByTodo other st'
       = Db.subtaskDB.findByTodo other Examples.rentStore) /\
    todos st' = todos Examples.rentStore /\
    todo_tags st' = todo_tags Examples.rentStore.
Proof.
  apply (subtask_reorder_moves Examples.alice 1 2
           (Subtask.mk 1 1 "Check balance" 0 0 "2026-02-01 08:00:00")
           Examples.rent Examples.rentStore);
    solve [reflexivity | vm_compute; split; [discriminate|reflexivity]].
Defined.

(** X18. A signed-in user who does not own the todo of a subtask (or
    whose subtask has no todo any more) cannot change it: [PUT] and [DELETE]
    of [/api/subtasks/[id]] and the reorder answer 403 whatever the body is,
    creating a subtask under that todo answers 400 or 404, and the database
    stays as it is. *)
Theorem subtask_routes_refuse_other_users
    (CURRENT_TIMESTAMP : string) (session : Session) (id : Z)
    (subtask : Subtask.t) (st : Store) :
  Db.subtaskDB.findById id st = Some subtask ->
  (forall todo, Db.todoDB.findById (Subtask.todo_id subtask) st = Some todo ->
                Todo.user_id todo <> userId session) ->
  (forall body,
     PUT (Some session) (Some id) body st
     = (Return (JsonError 403 "Unauthorized"), st)) /\
  DELETE (Some session) (Some id) st
  = (Return (JsonError 403 "Unauthorized"), st) /\
  (forall new_position,
     reorder (Some session) (ReorderBody.mk (Some id) (Some new_position)) st
     = (Return (JsonError 403 "Unauthorized"), st)) /\
  (forall title,
     exists status error,
       POST CURRENT_TIMESTAMP (Some session)
         (CreateBody.mk (Some (Subtask.todo_id subtask)) title) st
       = (Return (JsonError status error), st) /\
       (status = 400 \/ status = 404)).
Proof.
  intros Hf Hother.
  assert (Hown : ownedBy session
                   (Db.todoDB.findById (Subtask.todo_id subtask) st) = false).
  { unfold ownedBy.
    destruct (Db.todoDB.findById (Subtask.todo_id subtask) st) as [todo|] eqn:Ht;
      [|reflexivity].
    apply Z.eqb_neq, Hother. reflexivity. }
  split; [|split; [|split]].
  - intros body. unfold PUT, bind, gets. rewrite Hf, Hown. reflexivity.
  - unfold DELETE, bind, gets. rewrite Hf, Hown. reflexivity.
  - intros new_position. unfold reorder, bind, gets.
    cbn [ReorderBody.subtask_id ReorderBody.new_position].
    rewrite Hf, Hown. reflexivity.
  - intros title. unfold POST. cbn [CreateBody.title CreateBody.todo_id].
    destruct (JsValue.orNullString title) as [t|];
      [|exists 400, "Title must be 1-200 characters"; split; [reflexivity|auto]].
    destruct ((JsString.length (JsString.trim t) =? 0)
              || (200 <? JsString.length t));
      [exists 400, "Title must be 1-200 characters"; split; [reflexivity|auto]|].
    unfold JsValue.orNullNumber.
    destruct (Subtask.todo_id subtask =? 0);
      [exists 400, "Invalid todo_id"; split; [reflexivity|auto]|].
    exists 404, "Todo not found". unfold bind, gets. rewrite Hown.
    split; [reflexivity|auto].
Qed.

(** Bob, user 8, reaches for the first subtask of Alice's [rent]. *)
Lemma subtask_routes_refuse_other_users_witness :
  (forall body,
     PUT (Some (mkSession 8 "bob")) (Some 1) body Examples.rentStore
     = (Return (JsonError 403 "Unauthorized"), Examples.rentStore)) /\
  DELETE (Some (mkSession 8 "bob")) (Some 1) Examples.rentStore
  = (Return (JsonError 403 "Unauthorized"), Examples.rentStore) /\
  (forall new_position,
     reorder (Some (mkSession 8 "bob"))
       (ReorderBody.mk (Some 1) (Some new_position)) Examples.rentStore
     = (Return (JsonError 403 "Unauthorized"), Examples.rentStore)) /\
  (forall title,
     exists status error,
       POST "2026-03-01 03:00:00" (Some (mkSession 8 "bob"))
         (CreateBody.mk (Some 1) title) Examples.rentStore
       = (Return (JsonError status error), Examples.rentStore) /\
       (status = 400 \/ status = 404)).
Proof.
  apply (subtask_routes_refuse_other_users "2026-03-01 03:00:00"
           (mkSession 8 "bob") 1
           (Subtask.mk 1 1 "Check balance" 0 0 "2026-02-01 08:00:00")
           Examples.rentStore).
  - reflexivity.
  - intros todo [= <-]. vm_compute. discriminate.
Defined.

End SubtaskFacts.
(* ===================================================================== *)
(** ** The progress of a todo *)
(* ===================================================================== *)

Module ProgressFacts.

Import Db Constants.

(** The percentage as the floating-point numbers give it, for every count
    of completed subtasks out of at most 100. *)
Lemma percentage_table :
  forallb
    (fun t =>
       forallb
         (fun c =>
            match JsNumber.Math_round
                    (JsNumber.mul
                       (JsNumber.div (JsNumber.ofZ (Z.of_nat c))
                                     (JsNumber.ofZ (Z.of_nat t)))
                       (JsNumber.ofZ 100)) with
            | Some p =>
                (p =? (if 40 * Z.of_nat c =? 23 * Z.of_nat t then 57
                       else (200 * Z.of_nat c + Z.of_nat t) / (2 * Z.of_nat t)))
                && (0 <=? p) && (p <=? 100)
                && Bool.eqb (p =? 100) (Nat.eqb c t)
                && Bool.eqb (p =? 0) (Nat.eqb c 0)
            | None => false
            end)
         (seq 0 (S t)))
    (seq 1 100)
  = true.
Proof. vm_compute. reflexivity. Qed.

(** X5. The progress of at most 100 subtasks.  The percentage is the
    quotient [100 * completed / total] rounded to the nearest integer,
    halves up, except at the ratio 23/40, where the product of the
    floating-point numbers falls below 57.5 and the percentage is 57.  It is
    0 without subtasks, lies between 0 and 100, is 100 only when every
    subtask is completed and 0 only when none is.  [subtaskDB.getProgress]
    gives the same numbers for the subtasks of a todo. *)
Theorem progress_percentage (subtasks : list Subtask.t) :
  (List.length subtasks <= 100)%nat ->
  let p := calculateProgress subtasks in
  total p = Z.of_nat (List.length subtasks) /\
  0 <= completed p <= total p /\
  (exists pc,
     percentage p = Some pc /\
     pc = (if total p =? 0 then 0
           else if 40 * completed p =? 23 * total p then 57
           else (200 * completed p + total p) / (2 * total p)) /\
     0 <= pc <= 100 /\
     (pc = 100 <-> completed p = total p /\ total p <> 0) /\
     (pc = 0 <-> completed p = 0)) /\
  (forall todoId st,
     Db.subtaskDB.findByTodo todoId st = subtasks ->
     DbCrud.subtaskDB.getProgress todoId st = p).
Proof.
  intros Hlen p.
  set (t := List.length subtasks) in *.
  set (c := List.length (filter (fun s => Subtask.completed s =? 1) subtasks)).
  assert (Hc : (c <= t)%nat) by apply filter_length_le.
  split; [reflexivity|].
  split; [cbn [p calculateProgress completed total]; fold c; fold t; lia|].
  split.
  - cbn [p calculateProgress completed total percentage]. fold c. fold t.
    destruct (Nat.eq_dec t 0) as [E0|Hpos].
    + assert (c = 0)%nat as -> by lia. rewrite E0. exists 0. simpl.
      repeat split; solve [reflexivity | lia | discriminate | intros [_ H]; lia
                          | intros H; exfalso; lia].
    + destruct (Z.eqb_spec (Z.of_nat t) 0) as [|_]; [lia|].
      pose proof percentage_table as Htab.
      rewrite forallb_forall in Htab.
      specialize (Htab t). rewrite forallb_forall in Htab.
      assert (Hin : In t (seq 1 100)) by (apply in_seq; lia).
      specialize (Htab Hin c).
      assert (Hin' : In c (seq 0 (S t))) by (apply in_seq; lia).
      specialize (Htab Hin').
      destruct (JsNumber.Math_round _) as [pc|]; [|discriminate Htab].
      exists pc.
      apply andb_true_iff in Htab as [Htab H0].
      apply andb_true_iff in Htab as [Htab H100].
      apply andb_true_iff in Htab as [Htab Hhi].
      apply andb_true_iff in Htab as [Hval Hlo].
      apply Z.eqb_eq in Hval. apply Z.leb_le in Hlo, Hhi.
      apply Bool.eqb_prop in H0, H100.
      split; [reflexivity|]. split; [exact Hval|]. split; [lia|].
      split; split.
      * intros E. apply Z.eqb_eq in E. rewrite E in H100. symmetry in H100.
        apply Nat.eqb_eq in H100. lia.
      * intros [E _]. apply Z.eqb_eq. rewrite H100. apply Nat.eqb_eq. lia.
      * intros E. apply Z.eqb_eq in E. rewrite E in H0. symmetry in H0.
        apply Nat.eqb_eq in H0. lia.
      * intros E. apply Z.eqb_eq. rewrite H0. apply Nat.eqb_eq. lia.
  - intros todoId st E. unfold DbCrud.subtaskDB.getProgress. rewrite E.
    reflexivity.
Qed.

(** The three subtasks of [rent], one of them completed: 33 percent. *)
Lemma progress_percentage_witness :
  total (calculateProgress (Db.subtaskDB.findByTodo 1 Examples.rentStore))
  = Z.of_nat (List.length (Db.subtaskDB.findByTodo 1 Examples.rentStore)) /\
  0 <= completed (calculateProgress (Db.subtaskDB.findByTodo 1 Examples.rentStore))
    <= total (calculateProgress (Db.subtaskDB.findByTodo 1 Examples.rentStore)) /\
  (exists pc,
     percentage (calculateProgress (Db.subtaskDB.findByTodo 1 Examples.rentStore))
     = Some pc /\
     pc = (if total (calculateProgress
                       (Db.subtaskDB.findByTodo 1 Examples.rentStore)) =? 0
           then 0
           else if 40 * completed (calculateProgress
                                     (Db.subtaskDB.findByTodo 1 Examples.rentStore))
                   =? 23 * total (calculateProgress
                                    (Db.subtaskDB.findByTodo 1 Examples.rentStore))
           then 57
           else (200 * completed (calculateProgress
                                    (Db.subtaskDB.findByTodo 1 Examples.rentStore))
                 + total (calculateProgress
                            (Db.subtaskDB.findByTodo 1 Examples.rentStore)))
                / (2 * total (calculateProgress
                                (Db.subtaskDB.findByTodo 1 Examples.rentStore)))) /\
     0 <= pc <= 100 /\
     (pc = 100 <->
      completed (calculateProgress (Db.subtaskDB.findByTodo 1 Examples.rentStore))
      = total (calculateProgress (Db.subtaskDB.findByTodo 1 Examples.rentStore)) /\
      total (calculateProgress (Db.subtaskDB.findByTodo 1 Examples.rentStore))
      <> 0) /\
     (pc = 0 <->
      completed (calculateProgress (Db.subtaskDB.findByTodo 1 Examples.rentStore))
      = 0)) /\
  (forall todoId st,
     Db.subtaskDB.findByTodo todoId st
     = Db.subtaskDB.findByTodo 1 Examples.rentStore ->
     DbCrud.subtaskDB.getProgress todoId st
     = calculateProgress (Db.subtaskDB.findByTodo 1 Examples.rentStore)).
Proof.
  apply (progress_percentage (Db.subtaskDB.findByTodo 1 Examples.rentStore)).
  vm_compute. lia.
Defined.

End ProgressFacts.
(* ===================================================================== *)
(** ** The tags of a todo *)
(* ===================================================================== *)

Module TagFacts.

Import Db DbCrud DbCrud.todoDB TodoTags.

Lemma find_none_all {A : Type} (p : A -> bool) l :
  (forall x, In x l -> p x = false) -> find p l = None.
Proof.
  induction l as [|x r IH]; simpl; intros H; [reflexivity|].
  rewrite (H x (or_introl eq_refl)). apply IH.
  intros y Hy. apply H. right. exact Hy.
Qed.

(** The rows that [getTags] returns. *)
Lemma getTags_In tags todoId st t :
  In t (getTags tags todoId st) <->
  In t tags /\
  exists r, In r (todo_tags st) /\
            TodoTag.tag_id r = Tag.id t /\ TodoTag.todo_id r = todoId.
Proof.
  unfold getTags. rewrite MarkingFacts.orderBy_In, in_flat_map. split.
  - intros (t' & Ht' & Hin). apply in_map_iff in Hin as (r & <- & Hr).
    apply filter_In in Hr as [Hr Hb]. apply andb_true_iff in Hb as [H1 H2].
    split; [exact Ht'|]. exists r. repeat split; [exact Hr|lia|lia].
  - intros (Ht & r & Hr & H1 & H2). exists t. split; [exact Ht|].
    apply in_map_iff. exists r. split; [reflexivity|].
    apply filter_In. split; [exact Hr|].
    apply andb_true_iff. split; lia.
Qed.

(** The loop that removes the tags found on the todo. *)
Lemma removeAll_spec todoId existing :
  forall st,
    removeAll todoId existing st
    = (Return tt,
       mkStore (todos st) (subtasks st)
         (filter (fun r =>
                    negb ((TodoTag.todo_id r =? todoId) &&
                          existsb (fun t => Tag.id t =? TodoTag.tag_id r)
                                  existing))
                 (todo_tags st))
         (todos_seq st) (subtasks_seq st)).
Proof.
  induction existing as [|tag rest IH]; intros st; simpl.
  - unfold ret. rewrite StoreFacts.filter_all.
    + destruct st; reflexivity.
    + intros r _. rewrite andb_false_r. reflexivity.
  - unfold bind at 1. unfold removeTag at 1. rewrite IH.
    cbn [todos subtasks todo_tags todos_seq subtasks_seq].
    rewrite TableFacts.filter_filter. do 2 f_equal.
    apply filter_ext. intros r.
    rewrite (Z.eqb_sym (Tag.id tag) (TodoTag.tag_id r)).
    destruct (TodoTag.todo_id r =? todoId), (TodoTag.tag_id r =? Tag.id tag);
      reflexivity.
Qed.

(** The loop that adds the requested tags: each one that is not on the
    todo yet is appended, once. *)
Lemma addAll_spec CURRENT_TIMESTAMP tags todoId tag_ids :
  forall st,
    existsb (fun t => Todo.id t =? todoId) (todos st) = true ->
    (forall tagId, In tagId tag_ids ->
       existsb (fun t => Tag.id t =? tagId) tags = true) ->
    exists added,
      addAll CURRENT_TIMESTAMP tags todoId tag_ids st
      = (Return tt,
         mkStore (todos st) (subtasks st) (todo_tags st ++ added)
                 (todos_seq st) (subtasks_seq st)) /\
      (forall r, In r added ->
         TodoTag.todo_id r = todoId /\ In (TodoTag.tag_id r) tag_ids /\
         forall r', In r' (todo_tags st) -> TodoTag.todo_id r' = todoId ->
                    TodoTag.tag_id r' <> TodoTag.tag_id r) /\
      NoDup (map TodoTag.tag_id added) /\
      (forall tagId, In tagId tag_ids ->
         exists r, In r (todo_tags st ++ added) /\
                   TodoTag.todo_id r = todoId /\ TodoTag.tag_id r = tagId).
Proof.
  induction tag_ids as [|tagId rest IH]; intros st Htodo Htags.
  - exists []. simpl. unfold ret. rewrite app_nil_r.
    split; [destruct st; reflexivity|].
    split; [intros r []|]. split; [constructor|intros tagId []].
  - simpl. unfold bind at 1. unfold addTag at 1.
    rewrite Htodo, (Htags tagId (or_introl eq_refl)). cbn [andb negb].
    destruct (existsb _ (todo_tags st)) eqn:Hthere.
    + (* the pair is there already *)
      destruct (IH st Htodo (fun tg H => Htags tg (or_intror H)))
        as (added & Hrun & Hadded & Hnd & Hall).
      exists added. split; [exact Hrun|].
      split; [|split; [exact Hnd|]].
      * intros r Hr. destruct (Hadded r Hr) as (H1 & H2 & H3).
        split; [exact H1|]. split; [right; exact H2|exact H3].
      * intros tg [<-|Hin]; [|apply Hall; exact Hin].
        apply existsb_exists in Hthere as (r & Hr & Hb).
        apply andb_true_iff in Hb as [H1 H2].
        exists r. split; [apply in_or_app; left; exact Hr|]. split; lia.
    + (* the pair is inserted *)
      set (new := TodoTag.mk todoId tagId CURRENT_TIMESTAMP).
      set (st1 := mkStore (todos st) (subtasks st) (todo_tags st ++ [new])
                          (todos_seq st) (subtasks_seq st)).
      destruct (IH st1 Htodo (fun tg H => Htags tg (or_intror H)))
        as (added & Hrun & Hadded & Hnd & Hall).
      exists (new :: added). rewrite Hrun.
      cbn [st1 todos subtasks todo_tags todos_seq subtasks_seq].
      rewrite <- app_assoc. split; [reflexivity|].
      assert (Hnew : forall r', In r' (todo_tags st) ->
                TodoTag.todo_id r' = todoId -> TodoTag.tag_id r' <> tagId).
      { intros r' Hr' E1 E2.
        assert (existsb (fun r => (TodoTag.todo_id r =? todoId) &&
                                  (TodoTag.tag_id r =? tagId)) (todo_tags st)
                = true); [|congruence].
        apply existsb_exists. exists r'. split; [exact Hr'|].
        apply andb_true_iff. split; lia. }
      split; [|split].
      * intros r [<-|Hr].
        -- split; [reflexivity|]. split; [left; reflexivity|exact Hnew].
        -- destruct (Hadded r Hr) as (H1 & H2 & H3).
           split; [exact H1|]. split; [right; exact H2|].
           intros r' Hr'. apply H3. cbn [st1 todo_tags].
           apply in_or_app. left. exact Hr'.
      * simpl. constructor; [|exact Hnd].
        intros Hin. apply in_map_iff in Hin as (r & E & Hr).
        destruct (Hadded r Hr) as (_ & _ & H3).
        apply (H3 new); [|reflexivity|symmetry; exact E].
        cbn [st1 todo_tags]. apply in_or_app. right. left. reflexivity.
      * intros tg [<-|Hin].
        -- exists new. split; [|split; reflexivity].
           apply in_or_app. right. left. reflexivity.
        -- destruct (Hall tg Hin) as (r & Hr & H1 & H2).
           exists r. split; [|split; assumption].
           cbn [st1 todo_tags] in Hr. rewrite <- app_assoc in Hr. exact Hr.
Qed.

(** X12. [POST /api/todos/[id]/tags] by the owner, with tags that are all
    the user's own, replaces the tags of the todo: afterwards the todo
    carries exactly the requested tags, each once even when the request
    repeats an id, and the answer lists them.  The tags of the other todos,
    the todos and the subtasks stay as they are. *)
Theorem todo_tags_POST_replaces
    (CURRENT_TIMESTAMP : string) (tags : list Tag.t) (session : Session)
    (id : Z) (todo : Todo.t) (tag_ids : list Z) (st : Store) :
  Db.todoDB.findById id st = Some todo ->
  Todo.user_id todo = userId session ->
  (forall tagId, In tagId tag_ids ->
     exists tag, tagDB_findById tags tagId = Some tag /\
                 Tag.user_id tag = userId session) ->
  (forall r, In r (todo_tags st) -> TodoTag.todo_id r = id ->
     exists tag, In tag tags /\ Tag.id tag = TodoTag.tag_id r) ->
  exists st',
    POST CURRENT_TIMESTAMP tags (Some session) (Some id) (Some tag_ids) st
    = (Return (Json 200 (Payload.mk todo (getTags tags id st'))), st') /\
    (forall tagId,
       In tagId (map TodoTag.tag_id
                     (filter (fun r => TodoTag.todo_id r =? id) (todo_tags st')))
       <-> In tagId tag_ids) /\
    NoDup (map TodoTag.tag_id
               (filter (fun r => TodoTag.todo_id r =? id) (todo_tags st'))) /\
    (forall tag, In tag (getTags tags id st') <->
                 In tag tags /\ In (Tag.id tag) tag_ids) /\
    filter (fun r => negb (TodoTag.todo_id r =? id)) (todo_tags st')
    = filter (fun r => negb (TodoTag.todo_id r =? id)) (todo_tags st) /\
    todos st' = todos st /\ subtasks st' = subtasks st.
Proof.
  intros Hf Hu Hmine Hfk.
  pose proof (TableFacts.findById_Some _ _ _ Hf) as [Hin Eid].
  pose proof (TableFacts.findById_exists _ _ _ Hf) as Hex.
  assert (Hnone : firstForeignTag tags session tag_ids = None).
  { apply find_none_all. intros tagId Hid.
    destruct (Hmine tagId Hid) as (tag & -> & E). rewrite E, Z.eqb_refl.
    reflexivity. }
  assert (Hknown : forall tagId, In tagId tag_ids ->
            existsb (fun t => Tag.id t =? tagId) tags = true).
  { intros tagId Hid. destruct (Hmine tagId Hid) as (tag & Ht & _).
    apply find_some in Ht as [Ht E]. apply existsb_exists.
    exists tag. split; assumption. }
  unfold POST. unfold bind at 1. unfold gets at 1. rewrite Hf, Hu, Z.eqb_refl.
  cbn [negb]. rewrite Hnone. rewrite Eid.
  unfold bind at 1. unfold removeTag at 1.
  set (st1 := mkStore (todos st) (subtasks st)
                (filter (fun r => negb ((TodoTag.todo_id r =? id) &&
                                        (TodoTag.tag_id r =? -1)))
                        (todo_tags st))
                (todos_seq st) (subtasks_seq st)).
  unfold bind at 1. unfold gets at 1.
  unfold bind at 1. rewrite removeAll_spec.
  cbn [st1 todos subtasks todo_tags todos_seq subtasks_seq].
  fold st1. rewrite TableFacts.filter_filter.
  assert (Hcleared :
    filter (fun r =>
              negb ((TodoTag.todo_id r =? id) && (TodoTag.tag_id r =? -1)) &&
              negb ((TodoTag.todo_id r =? id) &&
                    existsb (fun t => Tag.id t =? TodoTag.tag_id r)
                            (getTags tags id st1)))
           (todo_tags st)
    = filter (fun r => negb (TodoTag.todo_id r =? id)) (todo_tags st)).
  { apply filter_ext_in. intros r Hr.
    destruct (Z.eqb_spec (TodoTag.todo_id r) id) as [E|E]; [|reflexivity].
    cbn [andb]. destruct (Z.eqb_spec (TodoTag.tag_id r) (-1)) as [E1|E1];
      [reflexivity|]. cbn [negb andb]. apply negb_false_iff.
    destruct (Hfk r Hr E) as (tag & Htag & Et).
    apply existsb_exists. exists tag. split; [|lia].
    apply getTags_In. split; [exact Htag|]. exists r.
    split; [|split; [symmetry; exact Et|exact E]].
    cbn [st1 todo_tags]. apply filter_In. split; [exact Hr|].
    destruct (Z.eqb_spec (TodoTag.tag_id r) (-1)); [contradiction|].
    rewrite andb_false_r. reflexivity. }
  rewrite Hcleared.
  set (st2 := mkStore (todos st) (subtasks st)
                (filter (fun r => negb (TodoTag.todo_id r =? id)) (todo_tags st))
                (todos_seq st) (subtasks_seq st)).
  destruct (addAll_spec CURRENT_TIMESTAMP tags id tag_ids st2 Hex Hknown)
    as (added & Hrun & Hadded & Hnd & Hall).
  unfold bind at 1. rewrite Hrun.
  cbn [st2 todos subtasks todo_tags todos_seq subtasks_seq].
  unfold bind at 1. unfold gets at 1. unfold ret.
  eexists. split; [reflexivity|]. cbn [todos subtasks todo_tags].
  assert (Hmineafter :
    filter (fun r => TodoTag.todo_id r =? id)
           (filter (fun r => negb (TodoTag.todo_id r =? id)) (todo_tags st)
            ++ added)
    = added).
  { rewrite filter_app, TableFacts.filter_filter.
    rewrite (StoreFacts.filter_all _ added).
    - rewrite StoreFacts.filter_none; [reflexivity|].
      intros r _. apply andb_negb_l.
    - intros r Hr. destruct (Hadded r Hr) as (E & _). lia. }
  assert (Hids : forall tagId,
            In tagId (map TodoTag.tag_id added) <-> In tagId tag_ids).
  { intros tagId. split.
    - intros H. apply in_map_iff in H as (r & <- & Hr).
      apply (Hadded r Hr).
    - intros H. destruct (Hall tagId H) as (r & Hr & E1 & E2).
      cbn [st2 todo_tags] in Hr. apply in_app_or in Hr as [Hr|Hr].
      + apply filter_In in Hr as [_ Hb]. apply negb_true_iff in Hb. lia.
      + apply in_map_iff. exists r. split; assumption. }
  rewrite Hmineafter.
  split; [exact Hids|]. split; [exact Hnd|].
  split; [|split; [|split; reflexivity]].
  - intros tag. rewrite getTags_In. cbn [todo_tags]. split.
    + intros (Htag & r & Hr & E1 & E2). split; [exact Htag|].
      rewrite <- E1. apply Hids. apply in_map.
      rewrite <- Hmineafter. apply filter_In. split; [exact Hr|lia].
    + intros (Htag & Hid). split; [exact Htag|].
      apply Hids in Hid. apply in_map_iff in Hid as (r & E & Hr).
      exists r. split; [apply in_or_app; right; exact Hr|].
      split; [exact E|apply (Hadded r Hr)].
  - rewrite filter_app, TableFacts.filter_filter.
    rewrite (filter_ext _ (fun r => negb (TodoTag.todo_id r =? id)))
      by (intros r; apply andb_diag).
    rewrite (StoreFacts.filter_none _ added); [apply app_nil_r|].
    intros r Hr. destruct (Hadded r Hr) as (E & _).
    apply negb_false_iff. lia.
Qed.

(** Alice replaces the tags 10 and 11 of [rent] by 12 and 10; the request
    names tag 12 twice. *)
Lemma todo_tags_POST_replaces_witness :
  exists st',
    POST "2026-03-01 03:00:00"
      [Tag.mk 10 7 "home" "#EF4444" "2026-02-01 08:00:00";
       Tag.mk 11 7 "bills" "#F59E0B" "2026-02-01 08:00:00";
       Tag.mk 12 7 "urgent" "#10B981" "2026-02-01 08:00:00"]
      (Some Examples.alice) (Some 1) (Some [12; 10; 12]) Examples.rentStore
    = (Return (Json 200
         (Payload.mk Examples.rent
            (getTags
               [Tag.mk 10 7 "home" "#EF4444" "2026-02-01 08:00:00";
                Tag.mk 11 7 "bills" "#F59E0B" "2026-02-01 08:00:00";
                Tag.mk 12 7 "urgent" "#10B981" "2026-02-01 08:00:00"]
               1 st'))), st') /\
    (forall tagId,
       In tagId (map TodoTag.tag_id
                     (filter (fun r => TodoTag.todo_id r =? 1) (todo_tags st')))
       <-> In tagId [12; 10; 12]) /\
    NoDup (map TodoTag.tag_id
               (filter (fun r => TodoTag.todo_id r =? 1) (todo_tags st'))) /\
    (forall tag,
       In tag (getTags
                 [Tag.mk 10 7 "home" "#EF4444" "2026-02-01 08:00:00";
                  Tag.mk 11 7 "bills" "#F59E0B" "2026-02-01 08:00:00";
                  Tag.mk 12 7 "urgent" "#10B981" "2026-02-01 08:00:00"]
                 1 st') <->
       In tag [Tag.mk 10 7 "home" "#EF4444" "2026-02-01 08:00:00";
               Tag.mk 11 7 "bills" "#F59E0B" "2026-02-01 08:00:00";
               Tag.mk 12 7 "urgent" "#10B981" "2026-02-01 08:00:00"] /\
       In (Tag.id tag) [12; 10; 12]) /\
    filter (fun r => negb (TodoTag.todo_id r =? 1)) (todo_tags st')
    = filter (fun r => negb (TodoTag.todo_id r =? 1))
             (todo_tags Examples.rentStore) /\
    todos st' = todos Examples.rentStore /\
    subtasks st' = subtasks Examples.rentStore.
Proof.
  apply (todo_tags_POST_replaces "2026-03-01 03:00:00"
           [Tag.mk 10 7 "home" "#EF4444" "2026-02-01 08:00:00";
            Tag.mk 11 7 "bills" "#F59E0B" "2026-02-01 08:00:00";
            Tag.mk 12 7 "urgent" "#10B981" "2026-02-01 08:00:00"]
           Examples.alice 1 Examples.rent [12; 10; 12] Examples.rentStore).
  - reflexivity.
  - reflexivity.
  - simpl. intros tagId [<-|[<-|[<-|[]]]]; eexists; split; reflexivity.
  - simpl. intros r [<-|[<-|[]]] _; simpl; eauto 8.
Defined.

End TagFacts.
(* ===================================================================== *)
(** ** What an update of a todo leaves alone *)
(* ===================================================================== *)

Module AppendFacts.

Import Db TodoIdRoute.

Section Env.

Variable CURRENT_TIMESTAMP : string.
Variable LocalTZA : Z.

Lemma copyTags_adds newId parentId st c st' :
  Db.todoDB.copyTags CURRENT_TIMESTAMP newId parentId st = (c, st') ->
  exists newTags,
    todos st' = todos st /\ subtasks st' = subtasks st /\
    todo_tags st' = (todo_tags st ++ newTags)%list /\
    (forall r, In r newTags -> TodoTag.todo_id r = newId).
Proof.
  unfold Db.todoDB.copyTags. destruct (existsb _ _); intros H;
    injection H as <- <-.
  - exists []. rewrite app_nil_r. repeat split. intros r [].
  - eexists. cbn [todos subtasks todo_tags]. repeat split.
    intros r Hr. apply in_map_iff in Hr as (x & <- & _). reflexivity.
Qed.

Lemma copySubtasks_adds newId subs :
  forall st c st',
    Db.todoDB.copySubtasks CURRENT_TIMESTAMP newId subs st = (c, st') ->
    exists newSubtasks,
      todos st' = todos st /\
      subtasks st' = (subtasks st ++ newSubtasks)%list /\
      todo_tags st' = todo_tags st /\
      (forall s, In s newSubtasks -> Subtask.todo_id s = newId).
Proof.
  induction subs as [|s rest IH]; intros st c st'; simpl.
  - unfold ret. intros H. injection H as <- <-.
    exists []. rewrite app_nil_r. repeat split. intros s [].
  - unfold bind at 1. unfold Db.subtaskDB.create at 1.
    destruct (existsb _ (todos st)).
    + intros H. apply IH in H as (newSubtasks & H1 & H2 & H3 & H4).
      cbn [todos subtasks todo_tags] in H1, H2, H3.
      rewrite <- app_assoc in H2. eexists.
      split; [exact H1|]. split; [exact H2|]. split; [exact H3|].
      intros x [<-|Hx]; [reflexivity|apply H4; exact Hx].
    + intros H. injection H as <- <-.
      exists []. rewrite app_nil_r. repeat split. intros x [].
Qed.

(** Whatever its outcome, [createRecurringInstance] only appends: at most
    one todo, of the owner of the parent and with a new id, and subtasks
    and tag associations of that todo. *)
Lemma createRecurringInstance_adds parent st c st' :
  Db.todoDB.createRecurringInstance CURRENT_TIMESTAMP LocalTZA parent st
  = (c, st') ->
  exists newTodos newSubtasks newTags,
    todos st' = (todos st ++ newTodos)%list /\
    subtasks st' = (subtasks st ++ newSubtasks)%list /\
    todo_tags st' = (todo_tags st ++ newTags)%list /\
    (List.length newTodos <= 1)%nat /\
    (forall n, In n newTodos ->
       Todo.user_id n = Todo.user_id parent /\
       forall t, In t (todos st) -> Todo.id t < Todo.id n) /\
    (forall s, In s newSubtasks ->
       exists n, In n newTodos /\ Subtask.todo_id s = Todo.id n) /\
    (forall r, In r newTags ->
       exists n, In n newTodos /\ TodoTag.todo_id r = Todo.id n).
Proof.
  assert (Hnothing : forall c0,
            (c0, st) = (c, st') ->
            exists newTodos newSubtasks newTags,
              todos st' = (todos st ++ newTodos)%list /\
              subtasks st' = (subtasks st ++ newSubtasks)%list /\
              todo_tags st' = (todo_tags st ++ newTags)%list /\
              (List.length newTodos <= 1)%nat /\
              (forall n, In n newTodos ->
                 Todo.user_id n = Todo.user_id parent /\
                 forall t, In t (todos st) -> Todo.id t < Todo.id n) /\
              (forall s, In s newSubtasks ->
                 exists n, In n newTodos /\ Subtask.todo_id s = Todo.id n) /\
              (forall r, In r newTags ->
                 exists n, In n newTodos /\ TodoTag.todo_id r = Todo.id n)).
  { intros c0 H. injection H as _ <-. exists [], [], [].
    rewrite !app_nil_r. simpl.
    repeat split; solve [lia | intros ? []]. }
  unfold Db.todoDB.createRecurringInstance.
  destruct (negb _); [apply Hnothing|].
  unfold bind at 1. unfold lift.
  destruct (Recurrence.calculateNextDueDate _ _ _) as [nextDue|e];
    [|apply Hnothing].
  clear Hnothing.
  unfold bind at 1. unfold Db.todoDB.create.
  set (next := Todo.mk _ _ _ _ _ _ _ _ _ _ _).
  set (st1 := mkStore _ _ _ _ _).
  assert (Hnext : Todo.user_id next = Todo.user_id parent /\
                  forall t, In t (todos st) -> Todo.id t < Todo.id next).
  { split; [reflexivity|]. intros t Ht. cbn [next Todo.id].
    pose proof (StoreFacts.maxKey_ge Todo.id (todos st) t Ht). lia. }
  unfold bind at 1.
  destruct (Db.todoDB.copyTags CURRENT_TIMESTAMP (Todo.id next)
              (Todo.id parent) st1) as [c2 st2] eqn:E2.
  apply copyTags_adds in E2 as (newTags & T1 & T2 & T3 & T4).
  cbn [st1 todos subtasks todo_tags] in T1, T2, T3.
  destruct c2 as [[]|e].
  - unfold bind at 1. unfold gets at 1. unfold bind at 1.
    destruct (Db.todoDB.copySubtasks CURRENT_TIMESTAMP (Todo.id next)
                (Db.subtaskDB.findByTodo (Todo.id parent) st2) st2)
      as [c3 st3] eqn:E3.
    apply copySubtasks_adds in E3 as (newSubtasks & S1 & S2 & S3 & S4).
    intros H. assert (st' = st3) as ->
      by (destruct c3; unfold ret in H; injection H as _ <-; reflexivity).
    exists [next], newSubtasks, newTags.
    rewrite S1, S2, S3, T1, T2, T3.
    refine (conj eq_refl (conj eq_refl (conj eq_refl (conj _ (conj _ (conj _ _)))))).
    + simpl. lia.
    + intros n [<-|[]]. exact Hnext.
    + intros s Hs. exists next. split; [left; reflexivity|apply S4; exact Hs].
    + intros r Hr. exists next. split; [left; reflexivity|apply T4; exact Hr].
  - intros H. injection H as _ <-.
    exists [next], [], newTags. rewrite T1, T2, T3, app_nil_r.
    refine (conj eq_refl (conj eq_refl (conj eq_refl (conj _ (conj _ (conj _ _)))))).
    + simpl. lia.
    + intros n [<-|[]]. exact Hnext.
    + intros s [].
    + intros r Hr. exists next. split; [left; reflexivity|apply T4; exact Hr].
Qed.

Lemma Forall2_same {A : Type} (R : A -> A -> Prop) l :
  (forall x, R x x) -> Forall2 R l l.
Proof. intros H. induction l; constructor; auto. Qed.

(** X13. [PUT /api/todos/[id]] always answers, and whatever the answer
    is it only rewrites the todo of the request and appends: every other
    row of [todos] stays in place, the rewritten row keeps its id and its
    owner, no subtask and no tag association is changed or removed, and
    the only rows added are at most one todo of the signed-in user and
    subtasks and tag associations of that new todo. *)
Theorem todo_PUT_only_rewrites_its_todo
    (session : option Session) (clock : Z) (id : option Z) (body : Body.t)
    (st : Store) :
  exists response st' updated newTodos newSubtasks newTags,
    PUT CURRENT_TIMESTAMP LocalTZA session clock id body st
    = (Return response, st') /\
    todos st' = (updated ++ newTodos)%list /\
    Forall2 (fun t t' =>
               t' = t \/
               (id = Some (Todo.id t) /\ Todo.id t' = Todo.id t /\
                Todo.user_id t' = Todo.user_id t /\
                Todo.created_at t' = Todo.created_at t))
            (todos st) updated /\
    subtasks st' = (subtasks st ++ newSubtasks)%list /\
    todo_tags st' = (todo_tags st ++ newTags)%list /\
    (List.length newTodos <= 1)%nat /\
    (forall n, In n newTodos ->
       option_map userId session = Some (Todo.user_id n) /\
       forall t, In t (todos st) -> Todo.id t < Todo.id n) /\
    (forall s, In s newSubtasks ->
       exists n, In n newTodos /\ Subtask.todo_id s = Todo.id n) /\
    (forall r, In r newTags ->
       exists n, In n newTodos /\ TodoTag.todo_id r = Todo.id n).
Proof.
  assert (Hsame : forall response : Response Payload,
    exists response' st' updated newTodos newSubtasks newTags,
      (Return response, st) = (Return response', st') /\
      todos st' = (updated ++ newTodos)%list /\
      Forall2 (fun t t' =>
                 t' = t \/
                 (id = Some (Todo.id t) /\ Todo.id t' = Todo.id t /\
                  Todo.user_id t' = Todo.user_id t /\
                  Todo.created_at t' = Todo.created_at t))
              (todos st) updated /\
      subtasks st' = (subtasks st ++ newSubtasks)%list /\
      todo_tags st' = (todo_tags st ++ newTags)%list /\
      (List.length newTodos <= 1)%nat /\
      (forall n, In n newTodos ->
         option_map userId session = Some (Todo.user_id n) /\
         forall t, In t (todos st) -> Todo.id t < Todo.id n) /\
      (forall s, In s newSubtasks ->
         exists n, In n newTodos /\ Subtask.todo_id s = Todo.id n) /\
      (forall r, In r newTags ->
         exists n, In n newTodos /\ TodoTag.todo_id r = Todo.id n)).
  { intros response. exists response, st, (todos st), [], [], [].
    rewrite !app_nil_r. simpl.
    repeat split; try solve [lia | intros ? []].
    apply Forall2_same. intros t. left. reflexivity. }
  unfold PUT. destruct session as [sess|]; [|unfold ret; apply Hsame].
  destruct id as [todoId|]; [|unfold ret; apply Hsame].
  unfold tryCatch. unfold bind at 1. unfold gets.
  destruct (Db.todoDB.findById todoId st) as [todo|] eqn:Hfind; [|unfold ret; apply Hsame].
  destruct (Z.eqb_spec (Todo.user_id todo) (userId sess)) as [Hown|];
    [|unfold ret; apply Hsame]. cbn [negb].
  destruct (match Body.title body with Some _ => _ | None => false end);
    [unfold ret; apply Hsame|].
  destruct (match Body.title body with Some _ => _ | None => false end);
    [unfold ret; apply Hsame|].
  destruct (match Body.priority body with Some _ => _ | None => false end);
    [unfold ret; apply Hsame|].
  destruct (match Body.recurrence_pattern body with
            | Some (Some _) => _ | _ => false end); [unfold ret; apply Hsame|].
  clear Hsame.
  pose proof (TableFacts.findById_Some _ _ _ Hfind) as [Hin Eid].
  unfold bind at 1.
  destruct (handleCompletion CURRENT_TIMESTAMP LocalTZA clock todo body st)
    as [c st1] eqn:Hh.
  assert (Hadds :
    exists newTodos newSubtasks newTags,
      todos st1 = (todos st ++ newTodos)%list /\
      subtasks st1 = (subtasks st ++ newSubtasks)%list /\
      todo_tags st1 = (todo_tags st ++ newTags)%list /\
      (List.length newTodos <= 1)%nat /\
      (forall n, In n newTodos ->
         Todo.user_id n = Todo.user_id todo /\
         forall t, In t (todos st) -> Todo.id t < Todo.id n) /\
      (forall s, In s newSubtasks ->
         exists n, In n newTodos /\ Subtask.todo_id s = Todo.id n) /\
      (forall r, In r newTags ->
         exists n, In n newTodos /\ TodoTag.todo_id r = Todo.id n)).
  { assert (Hnothing : st1 = st ->
      exists newTodos newSubtasks newTags,
        todos st1 = (todos st ++ newTodos)%list /\
        subtasks st1 = (subtasks st ++ newSubtasks)%list /\
        todo_tags st1 = (todo_tags st ++ newTags)%list /\
        (List.length newTodos <= 1)%nat /\
        (forall n, In n newTodos ->
           Todo.user_id n = Todo.user_id todo /\
           forall t, In t (todos st) -> Todo.id t < Todo.id n) /\
        (forall s, In s newSubtasks ->
           exists n, In n newTodos /\ Subtask.todo_id s = Todo.id n) /\
        (forall r, In r newTags ->
           exists n, In n newTodos /\ TodoTag.todo_id r = Todo.id n)).
    { intros ->. exists [], [], []. rewrite !app_nil_r. simpl.
      repeat split; solve [lia | intros ? []]. }
    unfold handleCompletion in Hh.
    destruct (Body.completed body) as [completed|];
      [|apply Hnothing; unfold ret in Hh; injection Hh as _ <-; reflexivity].
    destruct ((completed =? 1) && (Todo.completed todo =? 0)).
    - destruct (Db.todoDB.truthyPattern (Todo.recurrence_pattern todo));
        [|apply Hnothing; unfold ret in Hh; injection Hh as _ <-; reflexivity].
      unfold bind in Hh.
      destruct (Db.todoDB.createRecurringInstance CURRENT_TIMESTAMP LocalTZA
                  todo st) as [c1 st2] eqn:Hc.
      assert (st1 = st2) as ->
        by (destruct c1; unfold ret in Hh; injection Hh as _ <-; reflexivity).
      apply (createRecurringInstance_adds todo st c1 st2 Hc).
    - apply Hnothing.
      destruct (completed =? 0); unfold ret in Hh; injection Hh as _ <-;
        reflexivity. }
  destruct Hadds as (newTodos & newSubtasks & newTags
                     & A1 & A2 & A3 & A4 & A5 & A6 & A7).
  assert (Hnew : forall n, In n newTodos ->
            option_map userId (Some sess) = Some (Todo.user_id n) /\
            forall t, In t (todos st) -> Todo.id t < Todo.id n).
  { intros n Hn. destruct (A5 n Hn) as [E L]. split; [|exact L].
    simpl. rewrite E, Hown. reflexivity. }
  destruct c as [[[completed completed_at] nextTodo]|e].
  - unfold bind at 1. unfold Db.todoDB.update at 1. unfold ret.
    set (data := Db.todoDB.mkUpdateData _ _ _ _ _ _ _ _).
    eexists. eexists.
    exists (map (fun t => if Todo.id t =? todoId
                          then Db.todoDB.applyUpdate data t else t) (todos st)),
           newTodos, newSubtasks, newTags.
    split; [reflexivity|]. cbn [todos subtasks todo_tags].
    split; [|split; [|exact (conj A2 (conj A3 (conj A4 (conj Hnew (conj A6 A7)))))]].
    + rewrite A1, map_app. f_equal.
      rewrite <- (map_id newTodos) at 2. apply map_ext_in. intros n Hn.
      destruct (A5 n Hn) as [_ L]. specialize (L todo Hin).
      destruct (Z.eqb_spec (Todo.id n) todoId); [lia|reflexivity].
    + apply TableFacts.Forall2_map_In. intros t _.
      destruct (Z.eqb_spec (Todo.id t) todoId) as [E|E]; [right|left; reflexivity].
      split; [f_equal; symmetry; exact E|].
      split; [reflexivity|split; reflexivity].
  - unfold ret. eexists. eexists.
    exists (todos st), newTodos, newSubtasks, newTags.
    split; [reflexivity|]. split; [exact A1|].
    split; [|exact (conj A2 (conj A3 (conj A4 (conj Hnew (conj A6 A7)))))].
    apply Forall2_same. intros t. left. reflexivity.
Qed.

End Env.

End AppendFacts.
(* ===================================================================== *)
(** ** What [POST /api/todos] creates *)
(* ===================================================================== *)

Module CreatedFacts.

Import Db TodosRoute.

Lemma includes_In (l : list string) (v : string) :
  includes l v = true -> In v l.
Proof.
  unfold includes. intros H. apply existsb_exists in H as (x & Hx & E).
  apply String.eqb_eq in E. subst x. exact Hx.
Qed.

Lemma orNullString_Some v s :
  JsValue.orNullString v = Some s -> v = Some s /\ JsString.truthy s = true.
Proof.
  unfold JsValue.orNullString. destruct v as [x|]; [|discriminate].
  destruct (JsString.truthy x) eqn:E; [|discriminate].
  intros H. injection H as <-. auto.
Qed.

Lemma orNullString_truthy s :
  JsString.truthy s = true -> JsValue.orNullString (Some s) = Some s.
Proof. unfold JsValue.orNullString. intros ->. reflexivity. Qed.

Section Env.

Variable CURRENT_TIMESTAMP : string.
Variable LocalTZA : Z.


End Env.

End CreatedFacts.
(* ===================================================================== *)
(** ** The validators of [lib/db.ts] *)
(* ===================================================================== *)

Module ValidatorFacts.

Import Db DbCrud.

Lemma existsb_eqb_In (l : list string) (v : string) :
  existsb (String.eqb v) l = true <-> In v l.
Proof.
  rewrite existsb_exists. split.
  - intros (x & Hx & E). apply String.eqb_eq in E. subst x. exact Hx.
  - intros H. exists v. split; [exact H|apply String.eqb_refl].
Qed.

(** X21. [validatePriority] and [validateRecurrence] project onto the
    valid values: the result of [validatePriority] is always one of high,
    medium and low, and the result of [validateRecurrence] is null or one
    of daily, weekly, monthly and yearly; a valid value is returned as it
    is, every other value (also the empty string and null) becomes medium,
    respectively null; and validating a result again changes nothing. *)
Theorem validators_project (priority pattern : option string) :
  In (validatePriority priority) ["high"; "medium"; "low"] /\
  (forall p, priority = Some p ->
     (In p ["high"; "medium"; "low"] -> validatePriority priority = p) /\
     (~ In p ["high"; "medium"; "low"] -> validatePriority priority = "medium")) /\
  (priority = None -> validatePriority priority = "medium") /\
  validatePriority (Some (validatePriority priority)) = validatePriority priority /\
  (forall q, validateRecurrence pattern = Some q ->
     pattern = Some q /\ In q ["daily"; "weekly"; "monthly"; "yearly"]) /\
  (forall q, In q ["daily"; "weekly"; "monthly"; "yearly"] ->
     pattern = Some q -> validateRecurrence pattern = Some q) /\
  validateRecurrence (validateRecurrence pattern) = validateRecurrence pattern.
Proof.
  assert (Hvalid : forall p, In p ["high"; "medium"; "low"] ->
            validatePriority (Some p) = p).
  { intros p Hp. simpl in Hp.
    destruct Hp as [<-|[<-|[<-|[]]]]; reflexivity. }
  assert (Hin : In (validatePriority priority) ["high"; "medium"; "low"]).
  { unfold validatePriority. destruct priority as [p|]; [|simpl; auto].
    destruct (JsString.truthy p); cbn [negb orb]; [|simpl; auto].
    destruct (existsb (String.eqb p) ["high"; "medium"; "low"]) eqn:E;
      cbn [negb]; [|simpl; auto].
    apply existsb_eqb_In. exact E. }
  assert (Hkept : forall q, In q ["daily"; "weekly"; "monthly"; "yearly"] ->
            validateRecurrence (Some q) = Some q).
  { intros q Hq. simpl in Hq.
    destruct Hq as [<-|[<-|[<-|[<-|[]]]]]; reflexivity. }
  assert (Hout : forall q, validateRecurrence pattern = Some q ->
            pattern = Some q /\ In q ["daily"; "weekly"; "monthly"; "yearly"]).
  { unfold validateRecurrence. destruct pattern as [q0|]; [|discriminate].
    destruct (JsString.truthy q0); cbn [negb orb andb]; [|discriminate].
    destruct (existsb (String.eqb q0) ["daily"; "weekly"; "monthly"; "yearly"])
      eqn:E; cbn [negb]; [|discriminate].
    intros q H. injection H as <-. split; [reflexivity|].
    apply existsb_eqb_In. exact E. }
  split; [exact Hin|].
  split.
  { intros p ->. split; [apply Hvalid|].
    intros Hp. unfold validatePriority.
    destruct (JsString.truthy p); cbn [negb orb]; [|reflexivity].
    destruct (existsb (String.eqb p) ["high"; "medium"; "low"]) eqn:E;
      cbn [negb]; [|reflexivity].
    exfalso. apply Hp. apply existsb_eqb_In. exact E. }
  split; [intros ->; reflexivity|].
  split; [apply Hvalid; exact Hin|].
  split; [exact Hout|].
  split; [intros q Hq ->; apply Hkept; exact Hq|].
  destruct (validateRecurrence pattern) as [q|] eqn:E; [|reflexivity].
  apply Hkept. apply (Hout q eq_refl).
Qed.

End ValidatorFacts.
